(** * Unified crawler: planner, fetch, download, reconciliation, deduplication

    A shallow embedding of [unified_crawler.py].  Each Python function is
    rendered as a Rocq function of the same name over an explicit world:
    the file system is a finite map from paths to file contents, the remote
    servers are oracles threaded through the calls, and every call that
    leaves the process (an HTTP request, a browser navigation) is recorded
    in a log so that "how many requests were made" is a statement about a
    list.  Loops that Python writes as [while True] take a fuel argument;
    running out of fuel is reported as [None] and never confused with a
    returned value. *)

From Stdlib Require Import ZArith List Bool Lia.
From Stdlib Require Import Ascii String.
From stdpp Require Import base option list gmap strings pretty.
Import ListNotations.

Local Open Scope Z_scope.

(** ** Module one: the recursive date-range planner of [SSESearchCrawler]

    Dates are the strings produced by [strftime("%Y-%m-%d")]; on those
    strings [strptime] and [strftime] are mutually inverse, so a date is
    modelled by its day number in [Z].  [timedelta / 2] followed by
    [strftime] drops the half day, which on day numbers is the floor
    division of [Z]. *)
Module Planner.

(** One entry per call that reaches the search service. *)
Inductive call : Type :=
  | CheckTotal (start_date end_date : Z) (total : Z)
  | SearchAll (start_date end_date : Z).

Section WithService.

(** The service state ([St]) stands for everything the remote side and
    the session remember between two requests. *)
Context {St : Type}.

(** [check_total_count]: the total the service reports for a window
    (0 when the request fails). *)
Variable check_total_count : Z -> Z -> St -> Z * St.

(** [search_all] as seen from the planner: the number of records it
    returns for a window. *)
Variable search_all : Z -> Z -> St -> nat * St.

(** [run_recursive], lines 295-330.  The result is the returned count
    (or [None] when the recursion is cut by lack of fuel), the service
    state, and the calls made, oldest first.  Saving the leaf's records to
    JSON and CSV does not influence the recursion and is left out. *)
Fixpoint run_recursive (fuel : nat) (start_date end_date : Z) (st : St)
  : option Z * St * list call :=
  match fuel with
  | O => (None, st, [])
  | S fuel' =>
    let '(total, st1) := check_total_count start_date end_date st in
    let probe := CheckTotal start_date end_date total in
    if total =? 0 then (Some 0, st1, [probe])
    else if 4800 <? total then
      let mid := start_date + (end_date - start_date) / 2 in
      let mid := if mid =? end_date then start_date else mid in
      let next_day := mid + 1 in
      match run_recursive fuel' start_date mid st1 with
      | (None, st2, tr1) => (None, st2, probe :: tr1)
      | (Some a, st2, tr1) =>
        match run_recursive fuel' next_day end_date st2 with
        | (None, st3, tr2) => (None, st3, probe :: tr1 ++ tr2)
        | (Some b, st3, tr2) => (Some (a + b), st3, probe :: tr1 ++ tr2)
        end
      end
    else
      let '(n, st2) := search_all start_date end_date st1 in
      (Some (Z.of_nat n), st2, [probe; SearchAll start_date end_date])
  end.

End WithService.

(** A service whose total is a function of the window alone. *)
Definition total_function (total : Z -> Z -> Z) : Z -> Z -> unit -> Z * unit :=
  fun s e st => (total s e, st).

(** A [search_all] that returns as many records as the window's total. *)
Definition fetch_all (total : Z -> Z -> Z) : Z -> Z -> unit -> nat * unit :=
  fun s e st => (Z.to_nat (total s e), st).

(** The leaf windows of a run: those handed to [search_all]. *)
Fixpoint leaves (tr : list call) : list (Z * Z) :=
  match tr with
  | [] => []
  | SearchAll s e :: tr' => (s, e) :: leaves tr'
  | CheckTotal _ _ _ :: tr' => leaves tr'
  end.

(** Every window that was passed to the service, probes and fetches alike. *)
Definition window_of (c : call) : Z * Z :=
  match c with
  | CheckTotal s e _ => (s, e)
  | SearchAll s e => (s, e)
  end.

Definition in_window (d : Z) (w : Z * Z) : Prop := fst w <= d <= snd w.

Definition additive (total : Z -> Z -> Z) : Prop :=
  forall a m b, a <= m < b -> total a b = total a m + total (m + 1) b.

Definition pairwise_disjoint (ws : list (Z * Z)) : Prop :=
  forall i j w1 w2 d, ws !! i = Some w1 -> ws !! j = Some w2 ->
    in_window d w1 -> in_window d w2 -> i = j.

Definition covers_exactly (ws : list (Z * Z)) (s e : Z) : Prop :=
  forall d, s <= d <= e <-> exists w, w ∈ ws /\ in_window d w.

Definition sum_totals (total : Z -> Z -> Z) (ws : list (Z * Z)) : Z :=
  fold_right (fun w acc => total (fst w) (snd w) + acc) 0 ws.

(** The contract of 4.1 as the specification words it. *)
Definition plan_contract (total : Z -> Z -> Z) (s e : Z) : Prop :=
  exists fuel n tr,
    run_recursive (total_function total) (fetch_all total) fuel s e tt
      = (Some n, tt, tr)
    /\ pairwise_disjoint (leaves tr)
    /\ covers_exactly (leaves tr) s e
    /\ sum_totals total (leaves tr) = total s e
    /\ Forall (fun w => total (fst w) (snd w) <= 4800 \/ fst w = snd w) (leaves tr).

(** Days of the root window that no leaf covers lie in a probed window
    whose reported total was 0. *)
Definition covered_or_empty (tr : list call) (s e : Z) : Prop :=
  forall d, s <= d <= e ->
    (exists w, w ∈ leaves tr /\ in_window d w) \/
    (exists a b, CheckTotal a b 0 ∈ tr /\ a <= d <= b).

(** What holds of the calls of a run that returns: every leaf is a window
    inside the root with a total between 1 and 4800, no day lies in two
    leaves, days outside the leaves were reported empty, and for an additive
    total the leaves add up to the root. *)
Definition run_post (total : Z -> Z -> Z) (s e : Z) (tr : list call) : Prop :=
  Forall (fun w => s <= fst w /\ fst w <= snd w /\ snd w <= e
                   /\ total (fst w) (snd w) <> 0
                   /\ total (fst w) (snd w) <= 4800) (leaves tr)
  /\ pairwise_disjoint (leaves tr)
  /\ covered_or_empty tr s e
  /\ (additive total -> sum_totals total (leaves tr) = total s e).

(** Two days with 3000 records each (days 0 and 1), nothing elsewhere. *)
Definition two_busy_days (a b : Z) : Z :=
  3000 * Z.max 0 (Z.min b 1 - Z.max a 0 + 1).

(** A service that reports 5000 for its first probe and 0 afterwards (the
    value [check_total_count] returns when a request fails); its state is
    the number of probes answered so far. *)
Definition flaky_total : Z -> Z -> nat -> Z * nat :=
  fun _ _ k => (match k with O => 5000 | S _ => 0 end, S k).

Definition no_records : Z -> Z -> nat -> nat * nat :=
  fun _ _ k => (O, k).

End Planner.

(** ** Python library functions used by the crawler

    Text and byte strings are both modelled by [string]: a sequence of
    8-bit characters, which is what a Python [bytes] is and what a [str] is
    once encoded as UTF-8. *)
Module Py.

(** [bytes.lower()] and [str.lower()] on ASCII letters. *)
Definition lower_ascii (c : ascii) : ascii :=
  let n := nat_of_ascii c in
  if ((65 <=? n) && (n <=? 90))%nat then ascii_of_nat (n + 32) else c.

Fixpoint lower (s : string) : string :=
  match s with
  | EmptyString => EmptyString
  | String c s' => String (lower_ascii c) (lower s')
  end.

(** [needle in hay]. *)
Fixpoint contains (needle hay : string) : bool :=
  String.prefix needle hay ||
  match hay with
  | EmptyString => false
  | String _ hay' => contains needle hay'
  end.

(** [s[:n]] and [s[n:]]. *)
Fixpoint take (n : nat) (s : string) : string :=
  match n, s with
  | S n', String c s' => String c (take n' s')
  | _, _ => EmptyString
  end.

Fixpoint drop (n : nat) (s : string) : string :=
  match n, s with
  | S n', String _ s' => drop n' s'
  | _, _ => s
  end.

(** [s.startswith(p)] and [s.endswith(p)]. *)
Definition startswith (s p : string) : bool := String.prefix p s.

Definition endswith (s p : string) : bool :=
  String.prefix (String.rev p) (String.rev s).

(** [os.path.join(a, b)] of [posixpath]. *)
Definition os_path_join (a b : string) : string :=
  if startswith b "/" then b
  else if String.eqb a "" || endswith a "/" then a +:+ b
  else a +:+ "/" +:+ b.

(** The line feed. *)
Definition nl : string := String (ascii_of_nat 10) EmptyString.

(** The file system: regular files only, a path mapped to its content.
    [os.path.exists], [os.path.getsize], [os.remove] and writing a file
    opened with mode ['w'] or ['wb'] are lookup, length, delete and insert. *)
Definition exists_ (fs : gmap string string) (path : string) : bool :=
  match fs !! path with Some _ => true | None => false end.

(** [len(s)]. *)
Definition len (s : string) : Z := Z.of_nat (String.length s).

Definition getsize (fs : gmap string string) (path : string) : Z :=
  match fs !! path with Some c => len c | None => 0 end.

(** [b"x" * n], used to build bodies of a given size. *)
Definition filler (n : nat) : string :=
  string_of_list_ascii (replicate n "x"%char).

End Py.

(** ** Module two: [SSEInquiriesScraper] *)
Module Inquiry.

(** A record of [latest_results.json]; only the two fields the download and
    reconciliation code reads.  A missing or null [url] is the empty
    string (both are falsy in Python). *)
Record record : Type := { url : string; local_filename : string }.

(** What [download_session.get(url, ...)] followed by
    [resp.raise_for_status()] yields: an exception carrying [str(e)], or a
    response with its [Content-Type] header and its body. *)
Inductive response : Type :=
  | Raised (e : string)
  | Reply (content_type content : string).

Section WithNetwork.

Context {St : Type}.

(** [download_session.get] with [raise_for_status]. *)
Variable get : string -> St -> response * St.

(** [self.page_url], [self.files_dir], [self.output_dir]. *)
Variable page_url files_dir output_dir : string.

Definition max_retries : nat := 3.

(** The body of the [try] of [_download_file], lines 776-802.  [None] is
    the [return (True, "成功")]; [Some e] is an exception with [str(e) = e].
    The log lists the URLs requested: the cookie pre-visit, whose outcome
    is discarded, and the download itself. *)
Definition attempt_download (url filepath : string)
    (fs : gmap string string) (st : St)
  : option string * gmap string string * St * list string :=
  let '(_, st1) := get page_url st in
  let '(resp, st2) := get url st1 in
  match resp with
  | Raised e => (Some e, fs, st2, [page_url; url])
  | Reply content_type content =>
    if Py.contains "text/html" content_type
       && (Py.len content <? 10000)
    then (Some ("返回HTML而非文件: " +:+ content_type), fs, st2, [page_url; url])
    else
      let fs1 := <[filepath := content]> fs in
      if Py.getsize fs1 filepath <? 1000
      then (Some "文件过小", delete filepath fs1, st2, [page_url; url])
      else (None, fs1, st2, [page_url; url])
  end.

(** The loop [for attempt in range(1, max_retries + 1)], lines 775-809;
    [remaining] counts the iterations still to run. *)
Fixpoint download_attempts (remaining attempt : nat) (url filepath : string)
    (fs : gmap string string) (st : St)
  : (bool * string) * gmap string string * St * list string :=
  match remaining with
  | O => ((false, "未知错误"), fs, st, [])
  | S remaining' =>
    match attempt_download url filepath fs st with
    | (None, fs1, st1, log1) => ((true, "成功"), fs1, st1, log1)
    | (Some e, fs1, st1, log1) =>
      if (attempt =? max_retries)%nat
      then ((false, "重试3次后失败: " +:+ e), fs1, st1, log1)
      else
        let '(res, fs2, st2, log2) :=
          download_attempts remaining' (S attempt) url filepath fs1 st1 in
        (res, fs2, st2, log1 ++ log2)
    end
  end.

(** [_download_file], lines 750-809. *)
Definition _download_file (url filename : string)
    (fs : gmap string string) (st : St)
  : (bool * string) * gmap string string * St * list string :=
  let filepath := Py.os_path_join files_dir filename in
  if Py.exists_ fs filepath then
    if 1000 <? Py.getsize fs filepath
    then ((true, "跳过"), fs, st, [])
    else download_attempts max_retries 1 url filepath (delete filepath fs) st
  else download_attempts max_retries 1 url filepath fs st.

(** The counters and the failure lines of a batch. *)
Record tally : Type :=
  { success : nat; skip : nat; fail : nat; failed_files : list string }.

(** The loop over the futures of [download_from_json], lines 729-740.  The
    pool runs the tasks in some order; here they run in submission order,
    one after the other. *)
Fixpoint download_batch (tasks : list (string * string)) (t : tally)
    (fs : gmap string string) (st : St)
  : tally * gmap string string * St * list string :=
  match tasks with
  | [] => (t, fs, st, [])
  | (u, fn) :: tasks' =>
    let '((ok, msg), fs1, st1, log1) := _download_file u fn fs st in
    let t1 :=
      if ok then
        if Py.contains "跳过" msg
        then {| success := success t; skip := S (skip t); fail := fail t;
                failed_files := failed_files t |}
        else {| success := S (success t); skip := skip t; fail := fail t;
                failed_files := failed_files t |}
      else {| success := success t; skip := skip t; fail := S (fail t);
              failed_files := failed_files t ++ [fn +:+ ": " +:+ msg] |} in
    let '(t2, fs2, st2, log2) := download_batch tasks' t1 fs1 st1 in
    (t2, fs2, st2, log1 ++ log2)
  end.

Definition has_url (r : record) : bool := negb (String.eqb (url r) "").

(** [download_from_json], lines 704-748, from the loaded record list on. *)
Definition download_from_json (results : list record)
    (fs : gmap string string) (st : St)
  : tally * gmap string string * St * list string :=
  let download_list :=
    map (fun r => (url r, local_filename r)) (filter (fun r => has_url r = true) results) in
  let '(t, fs1, st1, log) :=
    download_batch download_list
      {| success := O; skip := O; fail := O; failed_files := [] |} fs st in
  match failed_files t with
  | [] => (t, fs1, st1, log)
  | _ :: _ =>
    let fail_log := Py.os_path_join output_dir "download_failed.txt" in
    (t, <[fail_log := String.concat Py.nl (failed_files t)]> fs1, st1, log)
  end.

(** The classification loop of [verify_and_retry], lines 875-885, with its
    two accumulators. *)
Fixpoint classify (all_records : list record) (fs : gmap string string)
    (valid_count : nat) (missing_records : list record)
  : nat * list record :=
  match all_records with
  | [] => (valid_count, missing_records)
  | item :: rest =>
    if negb (has_url item) then classify rest fs valid_count missing_records
    else
      let filepath := Py.os_path_join files_dir (local_filename item) in
      if Py.exists_ fs filepath && (1000 <? Py.getsize fs filepath)
      then classify rest fs (S valid_count) missing_records
      else classify rest fs valid_count (missing_records ++ [item])
  end.

(** The lines written to [download_failed.txt], lines 895-897. *)
Fixpoint failure_lines (missing_records : list record) : string :=
  match missing_records with
  | [] => ""
  | item :: rest =>
    local_filename item +:+ ": " +:+ url item +:+ Py.nl +:+ failure_lines rest
  end.

(** The re-download loop, lines 907-929, in list order. *)
Fixpoint retry_batch (tasks : list (string * string)) (success fail : nat)
    (fs : gmap string string) (st : St)
  : nat * nat * gmap string string * St * list string :=
  match tasks with
  | [] => (success, fail, fs, st, [])
  | (u, fn) :: tasks' =>
    let '((ok, _), fs1, st1, log1) := _download_file u fn fs st in
    let '(s2, f2, fs2, st2, log2) :=
      if ok then retry_batch tasks' (S success) fail fs1 st1
      else retry_batch tasks' success (S fail) fs1 st1 in
    (s2, f2, fs2, st2, log1 ++ log2)
  end.

(** What one run of [verify_and_retry] leaves behind: the triples it
    printed (records in the index, valid artifacts, gaps; one per pass),
    the disk as it was each time the operator was asked (line 900; one per
    prompt), whether it returned ([false]: [input()] found no answer and
    raised), the file system, the network state and the URLs requested. *)
Record verified : Type :=
  { reports : list (nat * nat * nat);
    asked : list (gmap string string);
    returned : bool;
    files_after : gmap string string;
    net_after : St;
    requested : list string }.

(** [verify_and_retry], lines 862-939, from the loaded record list on.
    [answers] are the operator's replies to the successive prompts. *)
Fixpoint verify_and_retry (answers : list string) (all_records : list record)
    (fs : gmap string string) (st : St) : verified :=
  let '(valid_count, missing_records) := classify all_records fs O [] in
  let report := (length all_records, valid_count, length missing_records) in
  let fail_log := Py.os_path_join output_dir "download_failed.txt" in
  match missing_records with
  | _ :: _ =>
    let fs1 := <[fail_log := failure_lines missing_records]> fs in
    match answers with
    | [] =>
      {| reports := [report]; asked := [fs1]; returned := false;
         files_after := fs1; net_after := st; requested := [] |}
    | user_input :: answers' =>
      if String.eqb (Py.lower user_input) "y" then
        let download_list :=
          map (fun r => (url r, local_filename r)) missing_records in
        let '(success, fail, fs2, st2, log) :=
          retry_batch download_list O O fs1 st in
        if (0 <? success)%nat then
          let again := verify_and_retry answers' all_records fs2 st2 in
          {| reports := report :: reports again; asked := fs1 :: asked again;
             returned := returned again;
             files_after := files_after again; net_after := net_after again;
             requested := log ++ requested again |}
        else
          {| reports := [report]; asked := [fs1]; returned := true;
             files_after := fs2; net_after := st2; requested := log |}
      else
        {| reports := [report]; asked := [fs1]; returned := true;
           files_after := fs1; net_after := st; requested := [] |}
    end
  | [] =>
    {| reports := [report]; asked := []; returned := true;
       files_after := if Py.exists_ fs fail_log then delete fail_log fs else fs;
       net_after := st; requested := [] |}
  end.

End WithNetwork.

(** What one page request of [search_all] yields: an exception, or a body
    handed to [parse_jsonp].  [PageBody None] is a body that [parse_jsonp]
    cannot unwrap or parse (or that parses to an empty object);
    [PageBody (Some results)] is a parsed body with its [result] list.
    [PageChokes handled] is a parsed body whose handling raises in lines
    604-611: the body is no object, so that [data.get] raises ([handled] is
    empty), or [_parse_item] raises on an entry of the list ([handled] are
    the entries before it, which have been dealt with by then). *)
Inductive page_reply (Item : Type) : Type :=
  | PageRaised
  | PageBody (data : option (list Item))
  | PageChokes (handled : list Item).
Arguments PageRaised {Item}.
Arguments PageBody {Item} data.
Arguments PageChokes {Item} handled.

Section WithPages.

Context {Item Rec : Type}.

(** The reply to the [i]-th page request when it asks for page [page]. *)
Variable net : nat -> Z -> page_reply Item.

(** [_parse_item], lines 635-678. *)
Variable _parse_item : Item -> option Rec.

(** [total_pages] as returned by [get_total_count]: the [pageCount] of the
    first page, [None] when it is null or not a number, so that comparing
    it with [page] raises.  [max_pages]: [None] and 0 are both falsy. *)
Variable total_pages : option Z.
Variable max_pages : option Z.

(** The loop of [search_all], lines 590-632.  [i] counts the page requests
    made so far; the result is [None] while the loop is still running. *)
Fixpoint search_loop (fuel : nat) (page errors : Z) (all_results : list Rec)
    (i : nat) : option (list Rec) * nat :=
  match fuel with
  | O => (None, i)
  | S fuel' =>
    match net i page with
    | PageRaised =>
      let errors := errors + 1 in
      if 5 <=? errors then (Some all_results, S i)
      else search_loop fuel' page errors all_results (S i)
    | PageBody None =>
      let errors := errors + 1 in
      if 5 <=? errors then (Some all_results, S i)
      else search_loop fuel' page errors all_results (S i)
    | PageChokes handled =>
      let all_results := all_results ++ omap _parse_item handled in
      let errors := errors + 1 in
      if 5 <=? errors then (Some all_results, S i)
      else search_loop fuel' page errors all_results (S i)
    | PageBody (Some []) => (Some all_results, S i)
    | PageBody (Some results) =>
      let all_results := all_results ++ omap _parse_item results in
      let errors := 0 in
      match total_pages with
      | None =>
        (* [page >= total_pages] raises: the [except] clause *)
        let errors := errors + 1 in
        if 5 <=? errors then (Some all_results, S i)
        else search_loop fuel' page errors all_results (S i)
      | Some total_pages =>
        if total_pages <=? page then (Some all_results, S i)
        else
          match max_pages with
          | Some m =>
            if negb (m =? 0) && (m <=? page) then (Some all_results, S i)
            else search_loop fuel' (page + 1) errors all_results (S i)
          | None => search_loop fuel' (page + 1) errors all_results (S i)
          end
      end
    end
  end.

(** [search_all], lines 577-632; [total] is what [get_total_count] gave
    ([None] when it could not be obtained). *)
Definition search_all (fuel : nat) (total : option Z)
  : option (list Rec) * nat :=
  match total with
  | None => (Some [], O)
  | Some _ => search_loop fuel 1 0 [] O
  end.

End WithPages.

Section WithHash.

(** The [hashlib] interface: a fresh hash object, [update], [hexdigest]. *)
Context {H : Type}.
Variable md5_new : H.
Variable md5_update : H -> string -> H.
Variable hexdigest : H -> string.

Variable files_dir : string.

Definition chunk_size : nat := 4096.

(** The loop [for chunk in iter(lambda: f.read(4096), b"")] of
    [calculate_md5]: [rest] is what the file object has not yet returned.
    Every pass but the last consumes at least one byte, so a bound equal
    to the length of the file is never exhausted before the empty read. *)
Fixpoint read_chunks (bound : nat) (hash_md5 : H) (rest : string) : H :=
  match bound with
  | O => hash_md5
  | S bound' =>
    let chunk := Py.take chunk_size rest in
    if String.eqb chunk "" then hash_md5
    else read_chunks bound' (md5_update hash_md5 chunk) (Py.drop chunk_size rest)
  end.

(** [calculate_md5], lines 145-151, on the content of the file. *)
Definition calculate_md5 (content : string) : string :=
  hexdigest (read_chunks (String.length content) md5_new content).

(** The hash of a file in one piece. *)
Definition whole_file_md5 (content : string) : string :=
  hexdigest (md5_update md5_new content).

Definition content_of (fs : gmap string string) (filename : string) : string :=
  default "" (fs !! Py.os_path_join files_dir filename).

(** The scan loop of [deduplicate_files], lines 954-966. *)
Fixpoint scan_files (files : list string) (fs : gmap string string)
    (seen_hashes : gmap string string) (duplicates : list (string * string))
  : gmap string string * list (string * string) :=
  match files with
  | [] => (seen_hashes, duplicates)
  | filename :: files' =>
    let filepath := Py.os_path_join files_dir filename in
    if Py.getsize fs filepath <? 100 then
      scan_files files' fs seen_hashes duplicates
    else
      let file_hash := calculate_md5 (content_of fs filename) in
      match seen_hashes !! file_hash with
      | Some original =>
        scan_files files' fs seen_hashes (duplicates ++ [(filename, original)])
      | None =>
        scan_files files' fs (<[file_hash := filename]> seen_hashes) duplicates
      end
  end.

(** The deletion loop, lines 979-987. *)
Fixpoint remove_duplicates (duplicates : list (string * string))
    (fs : gmap string string) : gmap string string :=
  match duplicates with
  | [] => fs
  | (dup_name, _) :: rest =>
    remove_duplicates rest (delete (Py.os_path_join files_dir dup_name) fs)
  end.

(** [deduplicate_files], lines 942-992.  [listing] is [os.listdir] of the
    directory, in the order the system returns it; [confirm] is the
    operator's answer.  The result is the list of (duplicate, original)
    pairs found and the file system afterwards. *)
Definition deduplicate_files (listing : list string) (confirm : string)
    (fs : gmap string string)
  : list (string * string) * gmap string string :=
  let files :=
    filter (fun f => Py.exists_ fs (Py.os_path_join files_dir f) = true) listing in
  let '(_, duplicates) := scan_files files fs ∅ [] in
  match duplicates with
  | [] => ([], fs)
  | _ :: _ =>
    if String.eqb (Py.lower confirm) "y"
    then (duplicates, remove_duplicates duplicates fs)
    else (duplicates, fs)
  end.

End WithHash.

End Inquiry.

(** ** Module three: page draining and the browser download of [SSESearchCrawler] *)
Module SSESearch.

(** The parsed body of a search page: [code], [data.knowledgeList] and
    [data.totalPage]. *)
Record page (Item : Type) : Type :=
  { code : string; knowledgeList : list Item; totalPage : Z }.
Arguments code {Item} p.
Arguments knowledgeList {Item} p.
Arguments totalPage {Item} p.

(** What one page request yields: an exception, or a body given to
    [parse_jsonp] ([None] when it cannot be unwrapped or parsed).
    [PageChokes handled] is a parsed body with code 0 whose handling raises
    inside the [try], lines 248-260: it has no [data] object ([handled] is
    empty), [_parse_item] raises on an entry ([handled] are the entries
    before it), or [totalPage] is null or not a number ([handled] is the
    whole list). *)
Inductive page_reply (Item : Type) : Type :=
  | PageRaised
  | PageBody (data : option (page Item))
  | PageChokes (handled : list Item).
Arguments PageRaised {Item}.
Arguments PageBody {Item} data.
Arguments PageChokes {Item} handled.

Section WithPages.

Context {Item Rec : Type}.

(** The reply to the [i]-th page request when it asks for page [page]. *)
Variable net : nat -> Z -> page_reply Item.

(** [_parse_item], lines 271-292. *)
Variable _parse_item : Item -> option Rec.

(** The loop of [search_all], lines 231-268, with both accumulators and
    the number [i] of page requests made so far; [None] while the loop is
    still running. *)
Fixpoint search_loop (fuel : nat) (page : Z) (all_results : list Rec) (i : nat)
  : option (list Rec) * nat :=
  match fuel with
  | O => (None, i)
  | S fuel' =>
    match net i page with
    | PageRaised => search_loop fuel' page all_results (S i)
    | PageChokes handled =>
      search_loop fuel' page (all_results ++ omap _parse_item handled) (S i)
    | PageBody None => (Some all_results, S i)
    | PageBody (Some data) =>
      if negb (String.eqb (code data) "0") then (Some all_results, S i)
      else
        match knowledgeList data with
        | [] => (Some all_results, S i)
        | k_list =>
          let all_results := all_results ++ omap _parse_item k_list in
          if totalPage data - 1 <=? page then (Some all_results, S i)
          else search_loop fuel' (page + 1) all_results (S i)
        end
    end
  end.

(** [search_all], lines 226-268. *)
Definition search_all (fuel : nat) : option (list Rec) * nat :=
  search_loop fuel 0 [] O.

End WithPages.

(** What the browser context was asked to do. *)
Inductive event : Type :=
  | RequestGet (url : string)
  | Goto (url : string).

(** The second component of the pair [_playwright_download_file] returns,
    one constructor per format string. *)
Inductive message : Type :=
  | Bytes (n : Z)                 (* f"{len(body)} B" *)
  | StillBlocked (n : Z)          (* f"解盾后仍失败 ({len(body)}B)" *)
  | InvalidFile (head : string)   (* f"无效文件 (Head: {body[:10]}...)" *)
  | Exception (e : string).       (* str(e)[:50] *)

Definition is_pdf (body : string) : bool := String.eqb (Py.take 4 body) "%PDF".

(** The test that sets [is_waf], lines 396-400. *)
Definition is_waf (body : string) : bool :=
  if Py.contains "var arg1=" body || Py.contains "var _0x" body then true
  else if negb (is_pdf body) && (Py.len body <? 6000) && Py.contains "<html" body
  then true
  else false.

(** The test that guards the write, line 412. *)
Definition is_artifact (body : string) : bool :=
  is_pdf body || (1000 <? Py.len body).

Section WithBrowser.

Context {St : Type}.

(** [context.request.get(url)] followed by [resp.body()]: the body, or the
    text of the exception raised. *)
Variable request_get : string -> St -> (string + string) * St.

(** [page.goto(url)] on a fresh page; its result is not used and its
    exceptions are swallowed, so only its effect on the remote state shows. *)
Variable goto : string -> St -> St.

(** [_solve_waf], lines 378-387. *)
Definition _solve_waf (url : string) (st : St) : St * list event :=
  (goto url st, [Goto url]).

(** Lines 412-416: write the body when it looks like a file. *)
Definition commit (body path : string) (fs : gmap string string)
  : (bool * message) * gmap string string :=
  if is_artifact body
  then ((true, Bytes (Py.len body)), <[path := body]> fs)
  else ((false, InvalidFile (Py.take 10 body)), fs).

(** [_playwright_download_file], lines 390-418. *)
Definition _playwright_download_file (url path : string)
    (fs : gmap string string) (st : St)
  : (bool * message) * gmap string string * St * list event :=
  match request_get url st with
  | (inl e, st1) => ((false, Exception (Py.take 50 e)), fs, st1, [RequestGet url])
  | (inr body, st1) =>
    if is_waf body then
      let '(st2, ev) := _solve_waf url st1 in
      match request_get url st2 with
      | (inl e, st3) =>
        ((false, Exception (Py.take 50 e)), fs, st3,
         RequestGet url :: ev ++ [RequestGet url])
      | (inr body, st3) =>
        if is_pdf body then
          let '(res, fs1) := commit body path fs in
          (res, fs1, st3, RequestGet url :: ev ++ [RequestGet url])
        else
          ((false, StillBlocked (Py.len body)), fs, st3,
           RequestGet url :: ev ++ [RequestGet url])
      end
    else
      let '(res, fs1) := commit body path fs in
      (res, fs1, st1, [RequestGet url])
  end.

End WithBrowser.

(** A browser context that answers the successive requests with the bodies
    of a list (and raises once the list is used up); navigation leaves the
    pending answers as they are. *)
Definition scripted_get : string -> list string -> (string + string) * list string :=
  fun _ pending =>
    match pending with
    | [] => (inl "closed", [])
    | body :: rest => (inr body, rest)
    end.

Definition scripted_goto : string -> list string -> list string :=
  fun _ pending => pending.

(** A challenge page, and two bodies of 2000 bytes: one that is not a PDF
    and one that is. *)
Definition challenge_body : string := "<html><script>var arg1='A1B2';</script></html>".
Definition plain_body : string := Py.filler 2000.
Definition pdf_body : string := "%PDF" +:+ Py.filler 1996.

End SSESearch.

(** ** Module four: [CninfoSearchDownloader] *)
Module Cninfo.

(** A record of the index; the fields the download code reads. *)
Record record : Type :=
  { announcement_id : string;
    download_url_static : string;
    adjunct_url : string }.

(** A row of the download report (the columns copied unchanged from the
    record, other than [announcement_id], are left out). *)
Record report_row : Type :=
  { row_announcement_id : string;
    row_download_url_static : string;
    row_local_filename : string;
    status : string;
    error : string;
    file_path : string }.

(** What [self.session.get(url, ...)] yields: [requests.exceptions.Timeout],
    another exception with its text, or a response. *)
Inductive reply : Type :=
  | Timeout
  | Raised (e : string)
  | Response (status_code : Z) (content_type content : string).

(** [a or b] on strings. *)
Definition py_or (a b : string) : string := if String.eqb a "" then b else a.

Section WithNetwork.

Context {St : Type}.

Variable get : string -> St -> reply * St.

(** [str.strip] and [_build_local_filename] (lines 1445-1453), which only
    rename things. *)
Variable strip : string -> string.
Variable _build_local_filename : record -> string.

Variable files_dir : string.

(** The loop of [_download_file], lines 1457-1484.  [attempt] is the loop
    variable, [err] the message kept from the previous pass; the log lists
    the URLs requested. *)
Fixpoint download_attempts (remaining attempt max_retries : nat) (err : string)
    (url save_path : string) (fs : gmap string string) (st : St)
  : (bool * string) * gmap string string * St * list string :=
  match remaining with
  | O => ((false, py_or err "未知错误"), fs, st, [])
  | S remaining' =>
    let '(response, st1) := get url st in
    let continue (err : string) (fs1 : gmap string string) :=
      let '(res, fs2, st2, log) :=
        download_attempts remaining' (S attempt) max_retries err url save_path fs1 st1 in
      (res, fs2, st2, url :: log) in
    match response with
    | Response status_code content_type content =>
      if status_code =? 200 then
        let ctype := Py.lower content_type in
        if Py.contains "text/html" ctype && (Py.len content <? 50000)
           && Py.contains "<html" (Py.lower (Py.take 2000 content))
        then continue ("返回 HTML (" +:+ ctype +:+ ")") fs
        else
          let fs1 := <[save_path := content]> fs in
          if 1024 <? Py.getsize fs1 save_path
          then ((true, "成功"), fs1, st1, [url])
          else continue "文件过小" (delete save_path fs1)
      else if (status_code =? 404) || (status_code =? 410)
      then ((false, "HTTP " +:+ pretty status_code), fs, st1, [url])
      else continue ("HTTP " +:+ pretty status_code) fs
    | Timeout =>
      continue ("请求超时(" +:+ pretty (S attempt) +:+ "/" +:+ pretty max_retries +:+ ")") fs
    | Raised e => continue e fs
    end
  end.

(** [_download_file], lines 1455-1484. *)
Definition _download_file (url save_path : string) (max_retries : nat)
    (fs : gmap string string) (st : St)
  : (bool * string) * gmap string string * St * list string :=
  download_attempts max_retries O max_retries "" url save_path fs st.

Definition row_of (record : record) (u local_filename st err path : string)
  : report_row :=
  {| row_announcement_id := announcement_id record;
     row_download_url_static := u;
     row_local_filename := local_filename;
     status := st; error := err; file_path := path |}.

(** The first loop of [download_from_index], lines 1497-1548: rows reported
    at once, and the tasks left to download. *)
Fixpoint select_tasks (records : list record) (fs : gmap string string)
    (seen_keys : gset string) (report_rows : list report_row)
    (download_tasks : list (record * string * string * string))
  : list report_row * list (record * string * string * string) :=
  match records with
  | [] => (report_rows, download_tasks)
  | record :: rest =>
    let key := strip (py_or (announcement_id record) (download_url_static record)) in
    if negb (String.eqb key "") && bool_decide (key ∈ seen_keys) then
      select_tasks rest fs seen_keys
        (report_rows ++ [row_of record (download_url_static record) ""
                           "skip" "duplicate_key" ""])
        download_tasks
    else
      let seen_keys :=
        if negb (String.eqb key "") then {[key]} ∪ seen_keys else seen_keys in
      let url := strip (py_or (download_url_static record) (adjunct_url record)) in
      let local_filename := _build_local_filename record in
      let save_path := Py.os_path_join files_dir local_filename in
      if String.eqb url "" then
        select_tasks rest fs seen_keys
          (report_rows ++ [row_of record "" local_filename "skip" "missing_url"
                             save_path])
          download_tasks
      else if Py.exists_ fs save_path && (1024 <? Py.getsize fs save_path) then
        select_tasks rest fs seen_keys
          (report_rows ++ [row_of record url local_filename "skip" "" save_path])
          download_tasks
      else
        select_tasks rest fs seen_keys report_rows
          (download_tasks ++ [(record, url, local_filename, save_path)])
  end.

(** The second loop, lines 1556-1578; the pool's tasks run here one after
    the other in submission order. *)
Fixpoint run_tasks (download_tasks : list (record * string * string * string))
    (report_rows : list report_row) (fs : gmap string string) (st : St)
  : list report_row * gmap string string * St * list string :=
  match download_tasks with
  | [] => (report_rows, fs, st, [])
  | (record, url, local_filename, save_path) :: rest =>
    let '((ok, msg), fs1, st1, log1) := _download_file url save_path 3 fs st in
    let row :=
      row_of record url local_filename (if ok then "success" else "fail")
        (if ok then "" else msg) save_path in
    let '(rows, fs2, st2, log2) := run_tasks rest (report_rows ++ [row]) fs1 st1 in
    (rows, fs2, st2, log1 ++ log2)
  end.

(** [download_from_index], lines 1486-1593, from the loaded index on;
    [None] is the early return on an empty index. *)
Definition download_from_index (records : list record)
    (fs : gmap string string) (st : St)
  : option (list report_row * gmap string string * St * list string) :=
  match records with
  | [] => None
  | _ :: _ =>
    let '(report_rows, download_tasks) := select_tasks records fs ∅ [] [] in
    Some (run_tasks download_tasks report_rows fs st)
  end.

End WithNetwork.

(** The counters printed at the end, lines 1584-1586. *)
Definition count_status (s : string) (rows : list report_row) : nat :=
  length (filter (fun r => status r = s) rows).

(** The values [page_size] can hold when it reaches [_normalize_page_size]. *)
Inductive pyval : Type :=
  | PyInt (z : Z)
  | PyStr (s : string)
  | PyNone.

Section WithInt.

(** [int(s)] on a string: [None] when it raises. *)
Variable int_of_str : string -> option Z.

(** [int(v)]: [None] when it raises. *)
Definition py_int (v : pyval) : option Z :=
  match v with
  | PyInt z => Some z
  | PyStr s => int_of_str s
  | PyNone => None
  end.

(** [_normalize_page_size], lines 1249-1255. *)
Definition _normalize_page_size (page_size : pyval) : Z :=
  let page_size :=
    match py_int page_size with
    | Some n => n
    | None => 30
    end in
  Z.max 1 (Z.min page_size 30).

(** [_parse_date] ([None] when [strptime] raises), [strftime] and the day
    number of [datetime.now()]. *)
Variable _parse_date : string -> option Z.
Variable strftime : Z -> string.
Variable today : Z.

(** How [run] starts. *)
Inductive started : Type :=
  | ValueError (msg : string)
  | Proceeds (start_date end_date : string) (page_size : option Z).

Definition positive_or_absent (v : option Z) : bool :=
  match v with
  | Some n => 0 <? n
  | None => true
  end.

(** [run], lines 1599-1640, up to the point where the steps begin: the
    configuration checks, and the page size that [search_and_build_index]
    then uses (line 1309) when the [index] step is part of the run. *)
Definition run (step : string) (start_date end_date : option string)
    (page_size : pyval) (max_pages max_results workers : option Z) : started :=
  if negb (String.eqb step "index" || String.eqb step "download"
           || String.eqb step "all")
  then ValueError ("不支持的 step: " +:+ step)
  else if negb (positive_or_absent max_pages)
  then ValueError "max-pages 必须大于 0"
  else if negb (positive_or_absent max_results)
  then ValueError "max-results 必须大于 0"
  else if negb (positive_or_absent workers)
  then ValueError "workers 必须大于 0"
  else
    let start_date := py_or (default "" start_date) (strftime (today - 30)) in
    let end_date := py_or (default "" end_date) (strftime today) in
    match _parse_date start_date, _parse_date end_date with
    | Some st, Some ed =>
      if ed <? st then ValueError "start-date 不能晚于 end-date"
      else
        Proceeds start_date end_date
          (if String.eqb step "index" || String.eqb step "all"
           then Some (_normalize_page_size page_size) else None)
    | _, _ => ValueError "日期格式错误，请使用 YYYY-MM-DD"
    end.

End WithInt.

(** Whether [run] ended in the [ValueError] that aborts the command. *)
Definition aborted (s : started) : bool :=
  match s with
  | ValueError _ => true
  | Proceeds _ _ _ => false
  end.

(** Stand-ins for [int] on strings and for the date functions. *)
Definition no_int : string -> option Z := fun _ => None.
Definition any_date : string -> option Z := fun _ => Some 0.
Definition fixed_date : Z -> string := fun _ => "2026-01-01".

End Cninfo.

(** ** Outcome predicates used to state the download properties *)
Module Outcome.

(** After a call that aims at [path]: either it reports success and a file
    whose size passes [floor_ok] is at [path], or it reports failure and
    [path] holds nothing, or exactly what it held before the call
    ([before]). *)
Definition settled {St : Type} (floor_ok : Z -> bool)
    (before : option string) (path : string)
    (r : (bool * string) * gmap string string * St * list string) : Prop :=
  match r with
  | ((ok, _), fs', _, _) =>
    (ok = true /\ exists c, fs' !! path = Some c /\ floor_ok (Py.len c) = true)
    \/ (ok = false /\ (fs' !! path = None \/ fs' !! path = before))
  end.

(** After one pass of the loop of [Inquiry._download_file] started on the
    file system [fs]: a pass that returns leaves a file of at least 1000
    bytes at [path]; a pass that raises has written nothing, or has removed
    what it wrote. *)
Definition pass_settled {St : Type} (fs : gmap string string) (path : string)
    (r : option string * gmap string string * St * list string) : Prop :=
  match r with
  | (None, fs', _, _) => exists c, fs' !! path = Some c /\ 1000 <= Py.len c
  | (Some _, fs', _, _) => fs' = fs \/ fs' !! path = None
  end.

End Outcome.

(** ** Concrete worlds used to exercise the properties *)
Module Samples.

(** A network on which every request fails. *)
Definition offline : string -> unit -> Inquiry.response * unit :=
  fun _ st => (Inquiry.Raised "offline", st).

Definition cninfo_offline : string -> unit -> Cninfo.reply * unit :=
  fun _ st => (Cninfo.Timeout, st).

Definition inquiry_records : list Inquiry.record :=
  [ {| Inquiry.url := "https://www.sse.com.cn/a.pdf";
       Inquiry.local_filename := "a.pdf" |};
    {| Inquiry.url := ""; Inquiry.local_filename := "b.pdf" |} ].

Definition cninfo_records : list Cninfo.record :=
  [ {| Cninfo.announcement_id := "1";
       Cninfo.download_url_static := "https://static.cninfo.com.cn/1.PDF";
       Cninfo.adjunct_url := "" |} ].

Definition name_by_id (r : Cninfo.record) : string :=
  Cninfo.announcement_id r +:+ ".pdf".

Definition same_text (s : string) : string := s.

(** A disk holding two artifacts of 2000 bytes each. *)
Definition disk : gmap string string :=
  <["out/files/a.pdf" := Py.filler 2000]>
    (<["out/files/1.pdf" := Py.filler 2000]> ∅).

End Samples.

(** ** Reconciliation as the specification words it *)
Module Reconcile.

(** The validity test of [verify_and_retry] (line 882) for one record. *)
Definition artifact_valid (files_dir : string) (fs : gmap string string)
    (r : Inquiry.record) : bool :=
  Py.exists_ fs (Py.os_path_join files_dir (Inquiry.local_filename r))
  && (1000 <? Py.getsize fs (Py.os_path_join files_dir (Inquiry.local_filename r))).

(** Of N records of which K have a valid artifact, N - K gaps are
    reported, the gaps being the records without a valid artifact; the
    failure log holds those gaps, and is absent when there are none.  The
    operator answers the prompt, if any, with [answer]. *)
Definition reconcile_contract {St : Type}
    (get : string -> St -> Inquiry.response * St)
    (page_url files_dir output_dir answer : string)
    (records : list Inquiry.record) (fs : gmap string string) (st : St) : Prop :=
  let v := Inquiry.verify_and_retry get page_url files_dir output_dir
             [answer] records fs st in
  let gaps := filter (fun r => artifact_valid files_dir fs r = false) records in
  let K := length (filter (fun r => artifact_valid files_dir fs r = true) records) in
  let fail_log := Py.os_path_join output_dir "download_failed.txt" in
  head (Inquiry.reports v) = Some (length records, K, (length records - K)%nat)
  /\ Inquiry.files_after v !! fail_log
     = match gaps with
       | [] => None
       | _ :: _ => Some (Inquiry.failure_lines gaps)
       end.

(** The failure log that lists [gaps]: one line per gap, the file name,
    a colon and a blank, the URL, each line ended by a line feed. *)
Definition gap_line (r : Inquiry.record) : string :=
  Inquiry.local_filename r +:+ ": " +:+ Inquiry.url r +:+ Py.nl.

Definition log_text (gaps : list Inquiry.record) : string :=
  String.concat "" (map gap_line gaps).

End Reconcile.

(** ** Page services used to exercise the drains *)
Module Pages.

(** A transient page failure of the inquiry drain: the request raised, or
    the body could not be unwrapped or parsed. *)
Definition failed {Item : Type} (r : Inquiry.page_reply Item) : bool :=
  match r with
  | Inquiry.PageRaised => true
  | Inquiry.PageBody None => true
  | Inquiry.PageBody (Some _) => false
  | Inquiry.PageChokes _ => false
  end.

(** Every request raises. *)
Definition always_raises : nat -> Z -> SSESearch.page_reply unit :=
  fun _ _ => SSESearch.PageRaised.

(** The first request returns a body that cannot be parsed; every later
    one returns a good single page with one item. *)
Definition garbled_once : nat -> Z -> SSESearch.page_reply unit :=
  fun i _ =>
    match i with
    | O => SSESearch.PageBody None
    | S _ =>
      SSESearch.PageBody
        (Some {| SSESearch.code := "0"; SSESearch.knowledgeList := [tt];
                 SSESearch.totalPage := 1 |})
    end.

End Pages.

(** ** Challenge recovery as the specification words it *)
Module Challenge.

(** A first body classified as a challenge page leads to one navigation and
    one more request; the task then succeeds and commits when the second
    body is a valid artifact (the test of line 412), and ends as a
    post-challenge failure when it is not. *)
Definition challenge_contract (first second url path : string) : Prop :=
  SSESearch.is_waf first = true ->
  match SSESearch._playwright_download_file SSESearch.scripted_get
          SSESearch.scripted_goto url path ∅ [first; second] with
  | ((ok, msg), fs', _, events) =>
    events = [SSESearch.RequestGet url; SSESearch.Goto url; SSESearch.RequestGet url]
    /\ (if SSESearch.is_artifact second
        then ok = true /\ fs' !! path = Some second
        else ok = false /\ msg = SSESearch.StillBlocked (Py.len second))
  end.

End Challenge.

(** ** The duplicate pairs a scan is expected to find *)
Module Dedup.

Section Expected.

(** [big f]: the file named [f] is hashed (at least 100 bytes);
    [hash_of f]: its hash. *)
Variable big : string -> bool.
Variable hash_of : string -> string.

(** The first hashed file of [earlier] whose hash is [h]. *)
Fixpoint first_original (earlier : list string) (h : string) : option string :=
  match earlier with
  | [] => None
  | g :: rest =>
    if big g && String.eqb (hash_of g) h then Some g else first_original rest h
  end.

(** File by file: a hashed file is paired with the first earlier hashed
    file of the same hash, if there is one. *)
Fixpoint expected_duplicates (earlier files : list string)
  : list (string * string) :=
  match files with
  | [] => []
  | f :: rest =>
    (if big f then
       match first_original earlier (hash_of f) with
       | Some original => [(f, original)]
       | None => []
       end
     else [])
    ++ expected_duplicates (earlier ++ [f]) rest
  end.

End Expected.

(** Whether [deduplicate_files] hashes the file named [f] of the
    directory, and the hash it computes for it. *)
Definition hashed (files_dir : string) (fs : gmap string string) (f : string)
  : bool :=
  negb (Py.getsize fs (Py.os_path_join files_dir f) <? 100).

Definition md5_of {H : Type} (md5_new : H) (md5_update : H -> string -> H)
    (hexdigest : H -> string) (files_dir : string) (fs : gmap string string)
    (f : string) : string :=
  Inquiry.calculate_md5 md5_new md5_update hexdigest
    (Inquiry.content_of files_dir fs f).

(** A hash object that keeps what it was fed, with the identity as digest:
    it follows the streaming laws of [hashlib] and has no collisions. *)
Definition keep_new : string := "".
Definition keep_update (h chunk : string) : string := h +:+ chunk.
Definition keep_digest (h : string) : string := h.

(** Three files in a directory: two copies of the same 120 bytes and one
    file that differs from them in its first byte. *)
Definition folder : gmap string string :=
  <["out/files/a.pdf" := "%PDF" +:+ Py.filler 116]>
    (<["out/files/b.pdf" := "%PDF" +:+ Py.filler 116]>
       (<["out/files/c.pdf" := "#PDF" +:+ Py.filler 116]> ∅)).

End Dedup.

(** ** Module five: the helpers shared by the crawlers *)
Module Util.

(** [SSESearchCrawler.format_time], lines 197-202. *)
Definition format_time (date_str : string) (is_end : bool) : string :=
  if String.eqb date_str "" then ""
  else
    let suffix := if is_end then " 23:59:59" else " 00:00:00" in
    if negb (Py.contains " " date_str) then date_str +:+ suffix else date_str.

(** In [safe_filename] the slice counts characters, so the text is taken
    here as the list of its code points.  The eleven characters that the
    pattern removes: backslash, slash, star, question mark, colon, double
    quote, the two angle brackets, bar, carriage return and line feed. *)
Definition forbidden (c : N) : bool :=
  existsb (N.eqb c) [92; 47; 42; 63; 58; 34; 60; 62; 124; 13; 10]%N.

(** [safe_filename], lines 154-156. *)
Definition safe_filename (text : list N) (max_len : nat) : list N :=
  take max_len (filter (fun c => forbidden c = false) text).

End Util.

(** ** Module six: merging the result files of the search crawler *)
Module Merge.

Section WithItems.

(** An entry of a result file and what the test of line 354 finds in it:
    [Some u] when the entry is an object, [u] being its [url] (empty when
    the key is missing or its value is falsy); [None] when the test raises,
    the entry being no object (null, a number, a text, a list). *)
Context {Item : Type}.
Variable url_of : Item -> option string.

(** [json.load] of a file, by path: [None] when opening or parsing raises
    (the file is then passed over). *)
Variable load : string -> option (list Item).

(** [sorted] on the paths. *)
Variable sorted : list string -> list string.

(** The inner loop of [sse_search_merge], lines 353-356.  It runs inside
    the [try] of lines 350-358: an entry on which the test raises ends the
    loop, what was merged before it stays and the rest of the file is
    passed over. *)
Fixpoint merge_items (data : list Item) (seen : gset string)
    (all_data : list Item) : gset string * list Item :=
  match data with
  | [] => (seen, all_data)
  | item :: rest =>
    match url_of item with
    | None => (seen, all_data)
    | Some u =>
      if negb (String.eqb u "") && negb (bool_decide (u ∈ seen))
      then merge_items rest ({[u]} ∪ seen) (all_data ++ [item])
      else merge_items rest seen all_data
    end
  end.

(** The loop over the files, lines 349-358. *)
Fixpoint merge_files (target_files : list string) (seen : gset string)
    (all_data : list Item) : gset string * list Item :=
  match target_files with
  | [] => (seen, all_data)
  | jf :: rest =>
    match load jf with
    | Some data =>
      let '(seen1, all1) := merge_items data seen all_data in
      merge_files rest seen1 all1
    | None => merge_files rest seen all_data
    end
  end.

(** The files that are merged, lines 337-342: [names] are the entries of
    [data_dir] that match [keyword*.json]. *)
Definition target_files (data_dir : string) (names : list string) : list string :=
  sorted (filter (fun f => Py.contains "merged" f = false)
            (map (Py.os_path_join data_dir) names)).

(** [sse_search_merge], lines 334-374: the records written to the merged
    file, or [None] when there is no file to merge. *)
Definition sse_search_merge (data_dir : string) (names : list string)
  : option (list Item) :=
  match target_files data_dir names with
  | [] => None
  | files => Some (snd (merge_files files ∅ []))
  end.

(** What the two accumulators of the merge satisfy together: [seen] holds
    the URLs of [all_data], which are pairwise different and not empty, and
    every entry of [all_data] comes from a file in [from]. *)
Definition merge_inv (from : list string) (seen : gset string)
    (all_data : list Item) : Prop :=
  (forall u, u ∈ seen <-> Some u ∈ url_of <$> all_data)
  /\ NoDup (url_of <$> all_data)
  /\ Forall (fun it => exists u, url_of it = Some u /\ u <> "") all_data
  /\ Forall (fun it => exists f data, f ∈ from /\ load f = Some data /\ it ∈ data)
       all_data.

End WithItems.

(** A stand-in for [sorted] that leaves the order as it is. *)
Definition as_listed (l : list string) : list string := l.

(** [sorted] on paths: texts are compared character by character. *)
Fixpoint insert_sorted (x : string) (l : list string) : list string :=
  match l with
  | [] => [x]
  | y :: l' => if String.leb x y then x :: l else y :: insert_sorted x l'
  end.

Definition sorted (l : list string) : list string := foldr insert_sorted [] l.

(** Two result files that share a URL. *)
Definition sample_load (path : string) : option (list (string * string)) :=
  if String.eqb path "out/kw_2024.json"
  then Some [("u1", "first"); ("", "no url"); ("u2", "second")]
  else if String.eqb path "out/kw_2023.json"
  then Some [("u2", "again"); ("u3", "third")]
  else None.

(** The URL of such an entry, which is always an object. *)
Definition sample_url (it : string * string) : option string := Some (fst it).

(** Two result files whose entries may be null: the file of 2023 holds a
    null entry between two records. *)
Definition entry_url (it : option (string * string)) : option string :=
  match it with
  | Some (u, _) => Some u
  | None => None
  end.

Definition sample_entries (path : string) : option (list (option (string * string))) :=
  if String.eqb path "out/kw_2024.json"
  then Some [Some ("u1", "first"); Some ("", "no url"); Some ("u2", "second")]
  else if String.eqb path "out/kw_2023.json"
  then Some [Some ("u2", "again"); None; Some ("u3", "third")]
  else None.

End Merge.

(** ** What counts as an artifact already on disk *)
Module Artifact.

(** The test [os.path.exists(p) and os.path.getsize(p) > floor] that the
    batch functions use to pass over a record. *)
Definition valid_above (floor : Z) (fs : gmap string string) (path : string)
  : bool :=
  Py.exists_ fs path && (floor <? Py.getsize fs path).

(** The target path of a task of [download_from_index]. *)
Definition task_path (task : Cninfo.record * string * string * string) : string :=
  snd task.

(** A server that answers every request with the same 2000 bytes. *)
Definition steady : string -> unit -> Cninfo.reply * unit :=
  fun _ st => (Cninfo.Response 200 "application/pdf" ("%PDF" +:+ Py.filler 1996), st).

End Artifact.

(** ** Module seven: how records get their URLs *)
Module Urls.

(** [self.site_base] of [SSEInquiriesScraper], line 508. *)
Definition site_base : string := "https://www.sse.com.cn".

(** The completion of [doc_url] in [SSEInquiriesScraper._parse_item],
    lines 646-652. *)
Definition complete_doc_url (doc_url : string) : string :=
  if negb (String.eqb doc_url "") && negb (Py.startswith doc_url "http") then
    if Py.startswith doc_url "www." then "https://" +:+ doc_url
    else if Py.startswith doc_url "/" then site_base +:+ doc_url
    else site_base +:+ "/" +:+ doc_url
  else doc_url.

(** [s.lstrip('/')]. *)
Fixpoint lstrip_slash (s : string) : string :=
  match s with
  | EmptyString => EmptyString
  | String c s' => if Ascii.eqb c "/" then lstrip_slash s' else s
  end.

(** [download_url_static] in [CninfoSearchDownloader._normalize_record],
    lines 1279-1284, from the stripped [adjunct_url]. *)
Definition download_url_static_of (adjunct_url : string) : string :=
  if negb (String.eqb adjunct_url "") && Py.startswith adjunct_url "http"
  then adjunct_url
  else if negb (String.eqb adjunct_url "")
  then "https://static.cninfo.com.cn/" +:+ lstrip_slash adjunct_url
  else "".

(** The loop of [download_from_excel] that keeps each link once, lines
    820-829. *)
Fixpoint unique_urls (urls : list string) (seen : gset string)
    (uniq : list string) : list string :=
  match urls with
  | [] => uniq
  | u :: rest =>
    if negb (Py.startswith u "http") then unique_urls rest seen uniq
    else
      let u := if Py.startswith u "http://"
               then "https://" +:+ Py.drop 7 u else u in
      if bool_decide (u ∈ seen) then unique_urls rest seen uniq
      else unique_urls rest ({[u]} ∪ seen) (uniq ++ [u])
  end.

(** What the loop makes of one link it keeps. *)
Definition secured (u : string) : string :=
  if Py.startswith u "http://" then "https://" +:+ Py.drop 7 u else u.

End Urls.

(** ** Module eight: building the cninfo index *)
Module CninfoIndex.

(** What one page request yields: a failure (the request raised, the status
    was bad or the body was not JSON), or the [announcements] list ([[]]
    when missing or null) and the [hasMore] flag of the body. *)
Inductive page_reply (Item : Type) : Type :=
  | Failed
  | Page (announcements : list Item) (hasMore : bool).
Arguments Failed {Item}.
Arguments Page {Item} announcements hasMore.

(** [if limit and n >= limit]. *)
Definition reached (limit : option Z) (n : Z) : bool :=
  match limit with
  | Some m => negb (m =? 0) && (m <=? n)
  | None => false
  end.

Definition uniq_key (record : Cninfo.record) : string :=
  Cninfo.py_or (Cninfo.announcement_id record) (Cninfo.download_url_static record).

Section WithService.

Context {Item : Type}.

(** The reply to the [i]-th request when it asks for page [page_no]. *)
Variable net : nat -> Z -> page_reply Item.

(** [_normalize_record] with the keyword and the creation time fixed. *)
Variable _normalize_record : Item -> Cninfo.record.

Variable max_pages max_results : option Z.

(** The loop over the announcements of one page, lines 1344-1353. *)
Fixpoint add_page (announcements : list Item) (all_records : list Cninfo.record)
    (seen_keys : gset string) : list Cninfo.record * gset string :=
  match announcements with
  | [] => (all_records, seen_keys)
  | item :: rest =>
    let record := _normalize_record item in
    if String.eqb (uniq_key record) "" || bool_decide (uniq_key record ∈ seen_keys)
    then add_page rest all_records seen_keys
    else
      let seen_keys := {[uniq_key record]} ∪ seen_keys in
      let all_records := all_records ++ [record] in
      if reached max_results (Z.of_nat (length all_records))
      then (all_records, seen_keys)
      else add_page rest all_records seen_keys
  end.

(** The loop of [search_and_build_index], lines 1325-1369; [i] counts the
    requests made, and the result is [None] while the loop is running. *)
Fixpoint index_loop (fuel : nat) (page_no : Z) (all_records : list Cninfo.record)
    (seen_keys : gset string) (i : nat) : option (list Cninfo.record) * nat :=
  match fuel with
  | O => (None, i)
  | S fuel' =>
    match net i page_no with
    | Failed => (Some all_records, S i)
    | Page [] _ => (Some all_records, S i)
    | Page announcements has_more =>
      let '(all_records, seen_keys) := add_page announcements all_records seen_keys in
      if reached max_results (Z.of_nat (length all_records))
      then (Some all_records, S i)
      else if reached max_pages page_no then (Some all_records, S i)
      else if negb has_more then (Some all_records, S i)
      else index_loop fuel' (page_no + 1) all_records seen_keys (S i)
    end
  end.

(** [search_and_build_index], lines 1306-1371. *)
Definition search_and_build_index (fuel : nat)
  : option (list Cninfo.record) * nat :=
  index_loop fuel 1 [] ∅ O.

End WithService.

(** A service with ever more pages, each holding the same two
    announcements plus one of its own. *)
Definition endless : nat -> Z -> page_reply string :=
  fun i _ => Page ["a"; "b"; pretty i] true.

Definition record_of_id (id : string) : Cninfo.record :=
  {| Cninfo.announcement_id := id; Cninfo.download_url_static := "";
     Cninfo.adjunct_url := "" |}.

End CninfoIndex.

(** ** Module nine: the year-by-year driver of the search crawl *)
Module Driver.

Definition SSE_SEARCH_MAX_EMPTY_YEARS : Z := 3.

Section WithCrawler.

(** What [crawler.run_recursive] returns for the window of a year. *)
Variable total_found : Z -> Z.

(** The loop of [cmd_sse_search], lines 1668-1688.  The result lists the
    years that were crawled, latest first; [None] while the loop is
    running. *)
Fixpoint crawl_years (fuel : nat) (year empty_cnt : Z) : option (list Z) :=
  match fuel with
  | O => None
  | S fuel' =>
    let empty_cnt := if 0 <? total_found year then 0 else empty_cnt + 1 in
    if SSE_SEARCH_MAX_EMPTY_YEARS <=? empty_cnt then Some [year]
    else
      match crawl_years fuel' (year - 1) empty_cnt with
      | Some years => Some (year :: years)
      | None => None
      end
  end.

End WithCrawler.

(** The years from [curr] down to [last]. *)
Definition years_down (curr last : Z) : list Z :=
  map (fun k => curr - Z.of_nat k) (seq 0 (Z.to_nat (curr - last + 1))).

(** Records from 2019 on, except in 2021 and 2022. *)
Definition sample_found (year : Z) : Z :=
  if (2019 <=? year) && negb ((year =? 2021) || (year =? 2022)) then 10 else 0.

End Driver.

(** ** Module ten: the browser download batch of the search crawler *)
Module SearchDownload.

(** A record of the merged file; the two fields the download reads. *)
Record record : Type := { url : string; local_filename : string }.

(** The loop that builds [tasks] in [sse_search_download], lines 436-442. *)
Fixpoint select_tasks (results : list record) (files_dir : string)
    (fs : gmap string string) (tasks : list (string * string * string))
  : list (string * string * string) :=
  match results with
  | [] => tasks
  | r :: rest =>
    let fpath := Py.os_path_join files_dir (local_filename r) in
    if Py.exists_ fs fpath && (3000 <? Py.getsize fs fpath)
    then select_tasks rest files_dir fs tasks
    else if negb (String.eqb (url r) "")
    then select_tasks rest files_dir fs (tasks ++ [(url r, fpath, local_filename r)])
    else select_tasks rest files_dir fs tasks
  end.

Section WithBrowser.

Context {St : Type}.
Variable request_get : string -> St -> (string + string) * St.
Variable goto : string -> St -> St.

(** How a message is printed into a line of the failure log. *)
Variable render : SSESearch.message -> string.

(** The download loop, lines 471-479. *)
Fixpoint download_tasks (tasks : list (string * string * string))
    (failed_list : list string) (fs : gmap string string) (st : St)
  : list string * gmap string string * St * list SSESearch.event :=
  match tasks with
  | [] => (failed_list, fs, st, [])
  | (u, path, name) :: rest =>
    let '((ok, msg), fs1, st1, ev1) :=
      SSESearch._playwright_download_file request_get goto u path fs st in
    let failed_list :=
      if ok then failed_list
      else failed_list ++ [name +:+ " | " +:+ u +:+ " | " +:+ render msg] in
    let '(failed, fs2, st2, ev2) := download_tasks rest failed_list fs1 st1 in
    (failed, fs2, st2, ev1 ++ ev2)
  end.

Definition warm_up : string :=
  "https://www.sse.com.cn/disclosure/listedinfo/announcement/".

(** [sse_search_download], lines 421-490, from the loaded records on;
    [files_dir] is the [files] directory next to the merged file. *)
Definition sse_search_download (results : list record)
    (files_dir data_dir : string) (fs : gmap string string) (st : St)
  : gmap string string * St * list SSESearch.event :=
  match select_tasks results files_dir fs [] with
  | [] => (fs, st, [])
  | tasks =>
    let st0 := goto warm_up st in
    let '(failed_list, fs1, st1, ev) := download_tasks tasks [] fs st0 in
    match failed_list with
    | [] => (fs1, st1, SSESearch.Goto warm_up :: ev)
    | _ :: _ =>
      (<[Py.os_path_join data_dir "download_failed.txt"
         := String.concat Py.nl failed_list]> fs1,
       st1, SSESearch.Goto warm_up :: ev)
    end
  end.

End WithBrowser.

End SearchDownload.

(** ** Module eleven: [CninfoDownloader] *)
Module CninfoBatch.

(** What [parse_url] extracts from a link. *)
Record params : Type :=
  { announcementId : string; announcementTime : string; stockCode : string }.

(** A row of the sheet: its link (empty when the cell is missing, NaN or
    empty) and whatever else names the file. *)
Record row (Extra : Type) : Type := { link : string; extra : Extra }.
Arguments link {Extra} r.
Arguments extra {Extra} r.

(** [self.stats] and [self.failed_items] (the rows that failed, by index). *)
Record stats : Type :=
  { success : nat; fail : nat; skip : nat; failed_items : list nat }.

Section WithNetwork.

Context {St Extra : Type}.

Variable get : string -> St -> Cninfo.reply * St.

(** [parse_url], lines 1033-1046: [None] when it returns [None]. *)
Variable parse_url : string -> option params.

(** The path the file is saved under, lines 1086-1093. *)
Variable save_path_of : row Extra -> params -> string.

(** The loop of [download_file], lines 1050-1071. *)
Fixpoint download_file (max_retries : nat) (url save_path : string)
    (fs : gmap string string) (st : St)
  : bool * gmap string string * St * list string :=
  match max_retries with
  | O => (false, fs, st, [])
  | S remaining =>
    let '(response, st1) := get url st in
    let again (fs1 : gmap string string) :=
      let '(ok, fs2, st2, log) := download_file remaining url save_path fs1 st1 in
      (ok, fs2, st2, url :: log) in
    match response with
    | Cninfo.Response status_code _ content =>
      if status_code =? 200 then
        if SSESearch.is_pdf content || (5000 <? Py.len content) then
          let fs1 := <[save_path := content]> fs in
          if 1024 <? Py.getsize fs1 save_path then (true, fs1, st1, [url])
          else again (delete save_path fs1)
        else again fs
      else if status_code =? 404 then (false, fs, st1, [url])
      else again fs
    | Cninfo.Timeout => again fs
    | Cninfo.Raised _ => again fs
    end
  end.

(** The candidate addresses of an announcement, lines 1102-1106. *)
Definition download_urls (p : params) : list string :=
  [ "http://static.cninfo.com.cn/finalpage/" +:+ announcementTime p +:+ "/"
      +:+ announcementId p +:+ ".PDF";
    "http://www.cninfo.com.cn/new/announcement/download?bulletinId="
      +:+ announcementId p +:+ "&realTime=true";
    "https://static.cninfo.com.cn/finalpage/" +:+ announcementTime p +:+ "/"
      +:+ announcementId p +:+ ".PDF" ].

(** The loop over the candidates, lines 1108-1112: whether one of them
    succeeded. *)
Fixpoint try_urls (urls : list string) (save_path : string)
    (fs : gmap string string) (st : St)
  : bool * gmap string string * St * list string :=
  match urls with
  | [] => (false, fs, st, [])
  | dl_url :: rest =>
    let '(ok, fs1, st1, log1) := download_file 3 dl_url save_path fs st in
    if ok then (true, fs1, st1, log1)
    else
      let '(ok2, fs2, st2, log2) := try_urls rest save_path fs1 st1 in
      (ok2, fs2, st2, log1 ++ log2)
  end.

Definition count_success (s : stats) : stats :=
  {| success := S (success s); fail := fail s; skip := skip s;
     failed_items := failed_items s |}.

Definition count_skip (s : stats) : stats :=
  {| success := success s; fail := fail s; skip := S (skip s);
     failed_items := failed_items s |}.

Definition count_fail (index : nat) (s : stats) : stats :=
  {| success := success s; fail := S (fail s); skip := skip s;
     failed_items := failed_items s ++ [index] |}.

(** [download_one], lines 1073-1122. *)
Definition download_one (r : row Extra) (index : nat) (s : stats)
    (fs : gmap string string) (st : St)
  : stats * gmap string string * St * list string :=
  if String.eqb (link r) "" then (count_skip s, fs, st, [])
  else
    match parse_url (link r) with
    | None => (count_skip s, fs, st, [])
    | Some p =>
      if String.eqb (announcementId p) "" then (count_skip s, fs, st, [])
      else
        let save_path := save_path_of r p in
        if Py.exists_ fs save_path && (1024 <? Py.getsize fs save_path)
        then (count_success s, fs, st, [])
        else
          let '(ok, fs1, st1, log) := try_urls (download_urls p) save_path fs st in
          if ok then (count_success s, fs1, st1, log)
          else (count_fail index s, fs1, st1, log)
    end.

(** The loop of [run], lines 1143-1144, over the rows [start, stop) of the
    sheet. *)
Fixpoint run_rows (rows : list (row Extra)) (index : nat) (s : stats)
    (fs : gmap string string) (st : St)
  : stats * gmap string string * St * list string :=
  match rows with
  | [] => (s, fs, st, [])
  | r :: rest =>
    let '(s1, fs1, st1, log1) := download_one r index s fs st in
    let '(s2, fs2, st2, log2) := run_rows rest (S index) s1 fs1 st1 in
    (s2, fs2, st2, log1 ++ log2)
  end.

(** [run], lines 1124-1166: [stop] is [end] ([None] and 0 stand for the
    whole sheet). *)
Definition run (sheet : list (row Extra)) (start : nat) (stop : option nat)
    (s : stats) (fs : gmap string string) (st : St)
  : stats * gmap string string * St * list string :=
  let total := length sheet in
  let stop := match stop with
              | Some (S n) => S n
              | _ => total
              end in
  run_rows (drop start (take (Nat.min stop total) sheet)) start s fs st.

End WithNetwork.

(** A link parser that takes the whole link as the announcement id. *)
Definition id_of_link (link : string) : option params :=
  Some {| announcementId := link; announcementTime := "2024-01-01";
          stockCode := "" |}.

Definition path_of_id (r : row unit) (p : params) : string :=
  "out/" +:+ announcementId p +:+ ".PDF".

Definition fresh : stats :=
  {| success := O; fail := O; skip := O; failed_items := [] |}.

End CninfoBatch.

(** ** A server that delivers, for the re-download of [verify_and_retry] *)
Module Retry.

(** The server answers every request for [u] with a body that the inquiry
    [_download_file] keeps and that counts as valid afterwards: more than
    1000 bytes, and not an HTML page of less than 10000 bytes. *)
Definition serves {St : Type} (get : string -> St -> Inquiry.response * St)
    (u : string) : Prop :=
  forall st,
    match fst (get u st) with
    | Inquiry.Reply content_type content =>
      Py.contains "text/html" content_type && (Py.len content <? 10000) = false
      /\ 1000 < Py.len content
    | Inquiry.Raised _ => False
    end.

(** A server that answers every request with the same 2000 bytes. *)
Definition steady : string -> unit -> Inquiry.response * unit :=
  fun _ st => (Inquiry.Reply "application/pdf" (Py.filler 2000), st).

(** Three records: one with its artifact on [Samples.disk], one without
    URL, one whose artifact is missing. *)
Definition records : list Inquiry.record :=
  Samples.inquiry_records
  ++ [ {| Inquiry.url := "https://www.sse.com.cn/c.pdf";
          Inquiry.local_filename := "c.pdf" |} ].

End Retry.

(** ** A search service with two pages *)
Module Paged.

(** Every request is answered with a page of one item, the page number
    itself, out of two pages. *)
Definition two_pages : nat -> Z -> SSESearch.page_reply Z :=
  fun _ page =>
    SSESearch.PageBody
      (Some {| SSESearch.code := "0"; SSESearch.knowledgeList := [page];
               SSESearch.totalPage := 2 |}).

Definition keep_item : Z -> option Z := Some.

End Paged.

(** ** Writes that can fail *)
Module Disk.

(** How the block [with open(path, 'wb') as f: f.write(content)] ends:
    it completes; or [open] has created or emptied the file and [write]
    raises once [n] bytes are in it; or [open] itself raises and the file
    is as it was.  [e] is the text of the exception. *)
Inductive write_outcome : Type :=
  | Written
  | Broken (n : nat) (e : string)
  | Refused (e : string).

(** The file system after the block, and the exception it raised. *)
Definition write (out : write_outcome) (path content : string)
    (fs : gmap string string) : gmap string string * option string :=
  match out with
  | Written => (<[path := content]> fs, None)
  | Broken n e => (<[path := Py.take n content]> fs, Some e)
  | Refused e => (fs, Some e)
  end.

(** A disk on which every write completes. *)
Definition reliable {St : Type} : string -> string -> St -> write_outcome :=
  fun _ _ _ => Written.

(** [path] holds what a write that raised midway has left there. *)
Definition leftover {St : Type} (disk : string -> string -> St -> write_outcome)
    (path : string) (fs : gmap string string) : Prop :=
  exists content st n e,
    disk path content st = Broken n e /\ fs !! path = Some (Py.take n content).

End Disk.

(** ** [SSEInquiriesScraper._download_file] on a disk that can fail *)
Module InquiryDisk.

Section WithDisk.

Context {St : Type}.
Variable get : string -> St -> Inquiry.response * St.

(** How the write of [content] to [path] ends, the requests having left
    the outside world in the given state. *)
Variable disk : string -> string -> St -> Disk.write_outcome.

Variable page_url files_dir : string.

(** The body of the [try], lines 776-802, as in [Inquiry.attempt_download];
    an exception of the write is one more [Some e], caught at line 804. *)
Definition attempt_download (url filepath : string)
    (fs : gmap string string) (st : St)
  : option string * gmap string string * St * list string :=
  let '(_, st1) := get page_url st in
  let '(resp, st2) := get url st1 in
  match resp with
  | Inquiry.Raised e => (Some e, fs, st2, [page_url; url])
  | Inquiry.Reply content_type content =>
    if Py.contains "text/html" content_type
       && (Py.len content <? 10000)
    then (Some ("返回HTML而非文件: " +:+ content_type), fs, st2, [page_url; url])
    else
      match Disk.write (disk filepath content st2) filepath content fs with
      | (fs1, Some e) => (Some e, fs1, st2, [page_url; url])
      | (fs1, None) =>
        if Py.getsize fs1 filepath <? 1000
        then (Some "文件过小", delete filepath fs1, st2, [page_url; url])
        else (None, fs1, st2, [page_url; url])
      end
  end.

(** The loop of lines 775-809. *)
Fixpoint download_attempts (remaining attempt : nat) (url filepath : string)
    (fs : gmap string string) (st : St)
  : (bool * string) * gmap string string * St * list string :=
  match remaining with
  | O => ((false, "未知错误"), fs, st, [])
  | S remaining' =>
    match attempt_download url filepath fs st with
    | (None, fs1, st1, log1) => ((true, "成功"), fs1, st1, log1)
    | (Some e, fs1, st1, log1) =>
      if (attempt =? Inquiry.max_retries)%nat
      then ((false, "重试3次后失败: " +:+ e), fs1, st1, log1)
      else
        let '(res, fs2, st2, log2) :=
          download_attempts remaining' (S attempt) url filepath fs1 st1 in
        (res, fs2, st2, log1 ++ log2)
    end
  end.

(** [_download_file], lines 750-809. *)
Definition _download_file (url filename : string)
    (fs : gmap string string) (st : St)
  : (bool * string) * gmap string string * St * list string :=
  let filepath := Py.os_path_join files_dir filename in
  if Py.exists_ fs filepath then
    if 1000 <? Py.getsize fs filepath
    then ((true, "跳过"), fs, st, [])
    else download_attempts Inquiry.max_retries 1 url filepath (delete filepath fs) st
  else download_attempts Inquiry.max_retries 1 url filepath fs st.

End WithDisk.

End InquiryDisk.

(** ** [CninfoSearchDownloader._download_file] on a disk that can fail *)
Module CninfoDisk.

Section WithDisk.

Context {St : Type}.
Variable get : string -> St -> Cninfo.reply * St.
Variable disk : string -> string -> St -> Disk.write_outcome.

(** The loop of lines 1457-1484, as in [Cninfo.download_attempts]; an
    exception of the write is caught at line 1479 and its text kept. *)
Fixpoint download_attempts (remaining attempt max_retries : nat) (err : string)
    (url save_path : string) (fs : gmap string string) (st : St)
  : (bool * string) * gmap string string * St * list string :=
  match remaining with
  | O => ((false, Cninfo.py_or err "未知错误"), fs, st, [])
  | S remaining' =>
    let '(response, st1) := get url st in
    let continue (err : string) (fs1 : gmap string string) :=
      let '(res, fs2, st2, log) :=
        download_attempts remaining' (S attempt) max_retries err url save_path fs1 st1 in
      (res, fs2, st2, url :: log) in
    match response with
    | Cninfo.Response status_code content_type content =>
      if status_code =? 200 then
        let ctype := Py.lower content_type in
        if Py.contains "text/html" ctype && (Py.len content <? 50000)
           && Py.contains "<html" (Py.lower (Py.take 2000 content))
        then continue ("返回 HTML (" +:+ ctype +:+ ")") fs
        else
          match Disk.write (disk save_path content st1) save_path content fs with
          | (fs1, Some e) => continue e fs1
          | (fs1, None) =>
            if 1024 <? Py.getsize fs1 save_path
            then ((true, "成功"), fs1, st1, [url])
            else continue "文件过小" (delete save_path fs1)
          end
      else if (status_code =? 404) || (status_code =? 410)
      then ((false, "HTTP " +:+ pretty status_code), fs, st1, [url])
      else continue ("HTTP " +:+ pretty status_code) fs
    | Cninfo.Timeout =>
      continue ("请求超时(" +:+ pretty (S attempt) +:+ "/" +:+ pretty max_retries +:+ ")") fs
    | Cninfo.Raised e => continue e fs
    end
  end.

(** [_download_file], lines 1455-1484. *)
Definition _download_file (url save_path : string) (max_retries : nat)
    (fs : gmap string string) (st : St)
  : (bool * string) * gmap string string * St * list string :=
  download_attempts max_retries O max_retries "" url save_path fs st.

End WithDisk.

End CninfoDisk.

(** ** [CninfoDownloader.download_file] on a disk that can fail *)
Module BatchDisk.

Section WithDisk.

Context {St : Type}.
Variable get : string -> St -> Cninfo.reply * St.
Variable disk : string -> string -> St -> Disk.write_outcome.

(** The loop of lines 1050-1071, as in [CninfoBatch.download_file]; an
    exception of the write is caught at line 1068. *)
Fixpoint download_file (max_retries : nat) (url save_path : string)
    (fs : gmap string string) (st : St)
  : bool * gmap string string * St * list string :=
  match max_retries with
  | O => (false, fs, st, [])
  | S remaining =>
    let '(response, st1) := get url st in
    let again (fs1 : gmap string string) :=
      let '(ok, fs2, st2, log) := download_file remaining url save_path fs1 st1 in
      (ok, fs2, st2, url :: log) in
    match response with
    | Cninfo.Response status_code _ content =>
      if status_code =? 200 then
        if SSESearch.is_pdf content || (5000 <? Py.len content) then
          match Disk.write (disk save_path content st1) save_path content fs with
          | (fs1, Some _) => again fs1
          | (fs1, None) =>
            if 1024 <? Py.getsize fs1 save_path then (true, fs1, st1, [url])
            else again (delete save_path fs1)
          end
        else again fs
      else if status_code =? 404 then (false, fs, st1, [url])
      else again fs
    | Cninfo.Timeout => again fs
    | Cninfo.Raised _ => again fs
    end
  end.

(** The loop over the candidates, lines 1108-1112. *)
Fixpoint try_urls (urls : list string) (save_path : string)
    (fs : gmap string string) (st : St)
  : bool * gmap string string * St * list string :=
  match urls with
  | [] => (false, fs, st, [])
  | dl_url :: rest =>
    let '(ok, fs1, st1, log1) := download_file 3 dl_url save_path fs st in
    if ok then (true, fs1, st1, log1)
    else
      let '(ok2, fs2, st2, log2) := try_urls rest save_path fs1 st1 in
      (ok2, fs2, st2, log1 ++ log2)
  end.

End WithDisk.

End BatchDisk.

(** ** The commit step as the specification words it *)
Module Commit.

(** After the call no partial or corrupt file above the threshold is at the
    target: a file of more than 1000 bytes found there is a body that the
    server sent for [url], whole, or the file that was there before. *)
Definition commit_contract {St : Type}
    (get : string -> St -> Inquiry.response * St)
    (disk : string -> string -> St -> Disk.write_outcome)
    (page_url files_dir url filename : string)
    (fs : gmap string string) (st : St) : Prop :=
  let path := Py.os_path_join files_dir filename in
  match InquiryDisk._download_file get disk page_url files_dir url filename fs st with
  | (_, fs', _, _) =>
    forall c, fs' !! path = Some c -> 1000 < Py.len c ->
      fs !! path = Some c
      \/ exists st0 content_type st1, get url st0 = (Inquiry.Reply content_type c, st1)
  end.

(** Where a call that aims at [path] leaves it: on success a file whose
    size passes [floor_ok]; on failure nothing, or what it held before the
    call ([before]), or what a write that raised midway has left. *)
Definition settled {St : Type}
    (disk : string -> string -> St -> Disk.write_outcome)
    (floor_ok : Z -> bool) (before : option string) (path : string)
    (r : (bool * string) * gmap string string * St * list string) : Prop :=
  match r with
  | ((ok, _), fs', _, _) =>
    (ok = true /\ exists c, fs' !! path = Some c /\ floor_ok (Py.len c) = true)
    \/ (ok = false
        /\ (fs' !! path = None \/ fs' !! path = before \/ Disk.leftover disk path fs'))
  end.

(** After one pass of the loop of [_download_file] started on [fs]: a pass
    that returns leaves a file of at least 1000 bytes; a pass that raises
    has written nothing, or has removed what it wrote, or its write raised
    midway. *)
Definition pass_settled {St : Type}
    (disk : string -> string -> St -> Disk.write_outcome)
    (fs : gmap string string) (path : string)
    (r : option string * gmap string string * St * list string) : Prop :=
  match r with
  | (None, fs', _, _) => exists c, fs' !! path = Some c /\ 1000 <= Py.len c
  | (Some _, fs', _, _) =>
    fs' = fs \/ fs' !! path = None \/ Disk.leftover disk path fs'
  end.

(** A server that sends the same 5000 bytes for every request, and a disk
    on which every write raises after 2000 bytes. *)
Definition steady : string -> unit -> Inquiry.response * unit :=
  fun _ st => (Inquiry.Reply "application/pdf" (Py.filler 5000), st).

Definition full_disk : string -> string -> unit -> Disk.write_outcome :=
  fun _ _ _ => Disk.Broken 2000 "No space left on device".

End Commit.

(* ===================================================================== *)
(** * Properties *)
(* ===================================================================== *)

(** ** The planner *)
Section PlannerFacts.
Import Planner.

Variable total : Z -> Z -> Z.
Variable search : Z -> Z -> unit -> nat * unit.

Abbreviation run := (run_recursive (total_function total) search).

Lemma leaves_app tr1 tr2 : leaves (tr1 ++ tr2) = leaves tr1 ++ leaves tr2.
Proof.
  induction tr1 as [|c tr1 IH]; [reflexivity|].
  destruct c; simpl; rewrite IH; reflexivity.
Qed.

(** The midpoint of a window of at least two days lies strictly before its
    end, so the guard [mid == end_date] does not fire there. *)
Lemma midpoint_multi_day s e :
  s < e -> s <= s + (e - s) / 2 < e.
Proof.
  intros Hlt.
  assert (H2 : 0 <= (e - s) / 2) by (apply Z.div_pos; lia).
  assert (H3 : (e - s) / 2 < e - s) by (apply Z.div_lt; lia).
  lia.
Qed.

(** On a single-day window the midpoint is the day itself. *)
Lemma midpoint_single_day d : d + (d - d) / 2 = d.
Proof. rewrite Z.sub_diag. change (0 / 2) with 0. lia. Qed.

(** A single-day window above the ceiling is probed again and again: the
    recursion re-enters [run_recursive] with the very same window. *)
Lemma single_day_overrun_loops d fuel :
  4800 < total d d ->
  run fuel d d tt = (None, tt, replicate fuel (CheckTotal d d (total d d))).
Proof.
  intros Hover. induction fuel as [|fuel IH]; [reflexivity|].
  cbn [run_recursive]. unfold total_function at 1.
  destruct (Z.eqb_spec (total d d) 0) as [H0|_]; [lia|].
  destruct (Z.ltb_spec 4800 (total d d)) as [_|Hle]; [|lia].
  rewrite midpoint_single_day, Z.eqb_refl, IH. reflexivity.
Qed.

Lemma pairwise_disjoint_app (l1 l2 : list (Z * Z)) :
  pairwise_disjoint l1 -> pairwise_disjoint l2 ->
  (forall w1 w2 d, w1 ∈ l1 -> w2 ∈ l2 -> in_window d w1 -> in_window d w2 -> False) ->
  pairwise_disjoint (l1 ++ l2).
Proof.
  intros H1 H2 H12 i j w1 w2 d Hi Hj Hd1 Hd2.
  apply lookup_app_Some in Hi as [Hi|[Hli Hi]];
    apply lookup_app_Some in Hj as [Hj|[Hlj Hj]].
  - eapply H1; eauto.
  - exfalso. eapply (H12 w1 w2 d); eauto using list_elem_of_lookup_2.
  - exfalso. eapply (H12 w2 w1 d); eauto using list_elem_of_lookup_2.
  - assert ((i - length l1)%nat = (j - length l1)%nat) by (eapply H2; eauto).
    lia.
Qed.

Lemma run_sound fuel : forall s e n tr,
  s <= e -> run fuel s e tt = (Some n, tt, tr) -> run_post total s e tr.
Proof.
  induction fuel as [|fuel IH]; intros s e n tr Hse Hrun; [discriminate|].
  cbn [run_recursive] in Hrun. unfold total_function at 1 in Hrun.
  destruct (Z.eqb_spec (total s e) 0) as [H0|Hn0].
  { (* nothing in the window *)
    injection Hrun as <- <-. repeat split.
    - constructor.
    - intros i j w1 w2 d Hi. destruct i; discriminate.
    - intros d Hd. right. exists s, e. rewrite H0. split; [left|lia].
    - intros _. simpl. lia. }
  destruct (Z.ltb_spec 4800 (total s e)) as [Hover|Hfit].
  - (* over the ceiling: bisect *)
    destruct (Z.eq_dec s e) as [->|Hne].
    { rewrite midpoint_single_day, Z.eqb_refl in Hrun.
      rewrite single_day_overrun_loops in Hrun by assumption. discriminate. }
    assert (Hmid := midpoint_multi_day s e ltac:(lia)).
    set (mid := s + (e - s) / 2) in *.
    destruct (Z.eqb_spec mid e) as [Heq|_]; [lia|].
    destruct (run fuel s mid tt) as [[[a|] []] tr1] eqn:E1; [|discriminate].
    destruct (run fuel (mid + 1) e tt) as [[[b|] []] tr2] eqn:E2; [|discriminate].
    injection Hrun as <- <-.
    apply IH in E1 as (Hl1 & Hd1 & Hc1 & Hs1); [|lia].
    apply IH in E2 as (Hl2 & Hd2 & Hc2 & Hs2); [|lia].
    rewrite Forall_forall in Hl1, Hl2.
    unfold run_post. change (leaves (CheckTotal s e (total s e) :: tr1 ++ tr2))
      with (leaves (tr1 ++ tr2)). rewrite leaves_app. repeat split.
    + rewrite Forall_forall. intros w Hw. apply elem_of_app in Hw as [Hw|Hw].
      * specialize (Hl1 w Hw). lia.
      * specialize (Hl2 w Hw). lia.
    + apply pairwise_disjoint_app; [assumption..|].
      intros w1 w2 d Hw1 Hw2 [_ Hu] [Hl _].
      specialize (Hl1 w1 Hw1). specialize (Hl2 w2 Hw2). lia.
    + intros d Hd. destruct (Z.le_gt_cases d mid) as [Hdm|Hdm].
      * destruct (Hc1 d ltac:(lia)) as [(w & Hw & Hin)|(a' & b' & Hp & Hin)].
        -- left. exists w. cbn [leaves]. rewrite leaves_app.
           split; [apply elem_of_app; left; assumption|assumption].
        -- right. exists a', b'. split; [|assumption].
           apply elem_of_cons. right. apply elem_of_app. left. assumption.
      * destruct (Hc2 d ltac:(lia)) as [(w & Hw & Hin)|(a' & b' & Hp & Hin)].
        -- left. exists w. cbn [leaves]. rewrite leaves_app.
           split; [apply elem_of_app; right; assumption|assumption].
        -- right. exists a', b'. split; [|assumption].
           apply elem_of_cons. right. apply elem_of_app. right. assumption.
    + intros Hadd. unfold sum_totals. rewrite fold_right_app.
      fold (sum_totals total (leaves tr2)). rewrite (Hs2 Hadd).
      assert (Hgen : forall l acc,
        fold_right (fun w acc => total (fst w) (snd w) + acc) acc l
        = sum_totals total l + acc).
      { induction l as [|w l IHl]; intros acc; simpl; [lia|].
        rewrite IHl. lia. }
      rewrite Hgen, (Hs1 Hadd). symmetry. apply (Hadd s mid e). lia.
  - (* fits: a leaf *)
    destruct (search s e tt) as [k []]. injection Hrun as <- <-.
    unfold run_post. simpl. repeat split.
    + constructor; [simpl; lia|constructor].
    + intros i j w1 w2 d Hi Hj _ _.
      destruct i; [|discriminate]. destruct j; [reflexivity|discriminate].
    + intros d Hd. left. exists (s, e). split; [left|exact Hd].
    + intros _. lia.
Qed.

(** When no single day exceeds the ceiling, the recursion returns once the
    fuel exceeds the number of days in the window. *)
Lemma run_returns fuel : forall s e,
  s <= e -> (forall d, s <= d <= e -> total d d <= 4800) ->
  (Z.to_nat (e - s) < fuel)%nat ->
  exists n tr, run fuel s e tt = (Some n, tt, tr).
Proof.
  induction fuel as [|fuel IH]; intros s e Hse Hday Hfuel; [lia|].
  cbn [run_recursive]. unfold total_function at 1.
  destruct (Z.eqb_spec (total s e) 0) as [H0|Hn0]; [eauto|].
  destruct (Z.ltb_spec 4800 (total s e)) as [Hover|Hfit].
  - destruct (Z.eq_dec s e) as [->|Hne].
    { specialize (Hday e ltac:(lia)). lia. }
    assert (Hmid := midpoint_multi_day s e ltac:(lia)).
    set (mid := s + (e - s) / 2) in *.
    destruct (Z.eqb_spec mid e) as [Heq|_]; [lia|].
    destruct (IH s mid) as (a & tr1 & ->); [lia|intros; apply Hday; lia|lia|].
    destruct (IH (mid + 1) e) as (b & tr2 & ->);
      [lia|intros; apply Hday; lia|lia|].
    eauto.
  - destruct (search s e tt) as [k []]. eauto.
Qed.

(** As long as the service answers the same window with the same total,
    every window that reaches it is well ordered, also in runs that are cut
    short: the inverted half of a re-bisected single day stays behind the
    call that never returns. *)
Lemma function_service_keeps_windows_ordered fuel : forall s e,
  s <= e ->
  Forall (fun c => fst (window_of c) <= snd (window_of c)) (snd (run fuel s e tt)).
Proof.
  induction fuel as [|fuel IH]; intros s e Hse; [constructor|].
  cbn [run_recursive]. unfold total_function at 1.
  destruct (Z.eqb_spec (total s e) 0) as [H0|Hn0].
  { simpl. repeat constructor. exact Hse. }
  destruct (Z.ltb_spec 4800 (total s e)) as [Hover|Hfit].
  - destruct (Z.eq_dec s e) as [->|Hne].
    + rewrite midpoint_single_day, Z.eqb_refl.
      rewrite single_day_overrun_loops by assumption. simpl.
      constructor; [simpl; lia|]. apply Forall_forall. intros c Hc.
      apply elem_of_replicate in Hc as [-> _]. simpl. lia.
    + assert (Hmid := midpoint_multi_day s e ltac:(lia)).
      set (mid := s + (e - s) / 2) in *.
      destruct (Z.eqb_spec mid e) as [Heq|_]; [lia|].
      pose proof (IH s mid ltac:(lia)) as H1.
      pose proof (IH (mid + 1) e ltac:(lia)) as H2.
      destruct (run fuel s mid tt) as [[[a|] []] tr1]; simpl in H1.
      * destruct (run fuel (mid + 1) e tt) as [[[b|] []] tr2]; simpl in H2;
          simpl; (constructor; [simpl; lia|]); apply Forall_app; auto.
      * simpl. constructor; [simpl; lia|exact H1].
  - destruct (search s e tt) as [k []]. simpl. repeat constructor; simpl; lia.
Qed.

End PlannerFacts.

Lemma leaves_replicate_probe k s e t :
  Planner.leaves (replicate k (Planner.CheckTotal s e t)) = [].
Proof. induction k as [|k IH]; [reflexivity|exact IH]. Qed.

Lemma two_busy_days_additive : Planner.additive Planner.two_busy_days.
Proof. intros a m b Hamb. unfold Planner.two_busy_days. lia. Qed.

(** C1 (negative finding).  A single-day window whose total exceeds 4800 is
    not accepted as a leaf: for every amount of fuel the recursion is still
    running, it has never called [search_all], and all it has done is probe
    the same one-day window once per level. *)
Theorem single_day_overrun_never_returns
  (total : Z -> Z -> Z) (search : Z -> Z -> unit -> nat * unit) (d : Z) (fuel : nat) :
  4800 < total d d ->
  exists tr,
    Planner.run_recursive (Planner.total_function total) search fuel d d tt
      = (None, tt, tr)
    /\ Planner.leaves tr = []
    /\ tr = replicate fuel (Planner.CheckTotal d d (total d d)).
Proof.
  intros Hover. eexists. split; [apply single_day_overrun_loops; exact Hover|].
  split; [apply leaves_replicate_probe|reflexivity].
Qed.

Lemma single_day_overrun_never_returns_witness :
  4800 < (fun _ _ : Z => 5000) 0 0 /\
  exists tr,
    Planner.run_recursive (Planner.total_function (fun _ _ => 5000))
      (Planner.fetch_all (fun _ _ => 5000)) 3 0 0 tt = (None, tt, tr)
    /\ Planner.leaves tr = []
    /\ tr = replicate 3 (Planner.CheckTotal 0 0 5000).
Proof.
  split; [lia|].
  apply (single_day_overrun_never_returns (fun _ _ => 5000)
           (Planner.fetch_all (fun _ _ => 5000)) 0 3).
  lia.
Defined.

(** C2, as worded, fails: with 3000 records on each of days 0 and 1 and
    none on day 2, the root window [0, 2] is planned into the leaves [0, 0]
    and [1, 1]; day 2 belongs to the root and to no leaf. *)
Lemma plan_contract_fails_on_empty_tail :
  Planner.additive Planner.two_busy_days /\ 0 <= 2 /\
  ~ Planner.plan_contract Planner.two_busy_days 0 2.
Proof.
  split; [exact two_busy_days_additive|]. split; [lia|].
  intros (fuel & n & tr & Hrun & _ & Hcov & _).
  assert (Hl : Planner.leaves tr = [(0, 0); (1, 1)]).
  { destruct fuel as [|[|[|fuel]]]; vm_compute in Hrun; try discriminate.
    injection Hrun as _ <-. reflexivity. }
  rewrite Hl in Hcov. destruct (proj1 (Hcov 2) ltac:(lia)) as (w & Hw & Hin).
  unfold Planner.in_window in Hin.
  apply elem_of_cons in Hw as [->|Hw]; [simpl in Hin; lia|].
  apply elem_of_cons in Hw as [->|Hw]; [simpl in Hin; lia|].
  inversion Hw.
Qed.

(** C2 (amended).  For an additive total, a root window with start <= end
    and no single day above 4800, [run_recursive] returns, and its leaves
    are pairwise disjoint windows inside the root, each with a total that is
    not 0 and at most 4800; every day of the root lies in a leaf or in a
    probed window whose total was 0; the leaf totals add up to the root's
    total. *)
Theorem plan_leaves_partition_nonempty_part
  (total : Z -> Z -> Z) (s e : Z) :
  Planner.additive total -> s <= e ->
  (forall d, s <= d <= e -> total d d <= 4800) ->
  exists fuel n tr,
    Planner.run_recursive (Planner.total_function total)
      (Planner.fetch_all total) fuel s e tt = (Some n, tt, tr)
    /\ Planner.pairwise_disjoint (Planner.leaves tr)
    /\ Planner.covered_or_empty tr s e
    /\ Planner.sum_totals total (Planner.leaves tr) = total s e
    /\ Forall (fun w => s <= fst w /\ fst w <= snd w /\ snd w <= e
                        /\ total (fst w) (snd w) <> 0
                        /\ total (fst w) (snd w) <= 4800) (Planner.leaves tr).
Proof.
  intros Hadd Hse Hday.
  destruct (run_returns total (Planner.fetch_all total)
              (S (Z.to_nat (e - s))) s e Hse Hday ltac:(lia)) as (n & tr & Hrun).
  exists (S (Z.to_nat (e - s))), n, tr. split; [exact Hrun|].
  destruct (run_sound total _ _ s e n tr Hse Hrun) as (Hl & Hd & Hc & Hs).
  auto.
Qed.

Lemma plan_leaves_partition_nonempty_part_witness :
  exists fuel n tr,
    Planner.run_recursive (Planner.total_function Planner.two_busy_days)
      (Planner.fetch_all Planner.two_busy_days) fuel 0 2 tt = (Some n, tt, tr)
    /\ Planner.pairwise_disjoint (Planner.leaves tr)
    /\ Planner.covered_or_empty tr 0 2
    /\ Planner.sum_totals Planner.two_busy_days (Planner.leaves tr)
       = Planner.two_busy_days 0 2
    /\ Forall (fun w => 0 <= fst w /\ fst w <= snd w /\ snd w <= 2
                        /\ Planner.two_busy_days (fst w) (snd w) <> 0
                        /\ Planner.two_busy_days (fst w) (snd w) <= 4800)
         (Planner.leaves tr).
Proof.
  apply (plan_leaves_partition_nonempty_part Planner.two_busy_days 0 2).
  - intros a m b Hamb. unfold Planner.two_busy_days. lia.
  - lia.
  - intros d Hd. unfold Planner.two_busy_days. lia.
Defined.

(** C3 (negative finding).  A one-day window [0, 0] for which the service
    first reports 5000 and then 0: [run_recursive] bisects it into [0, 0]
    and [1, 0], and the window [1, 0], whose start lies after its end, is
    passed to [check_total_count]. *)
Theorem inverted_window_reaches_check_total_count :
  Planner.run_recursive Planner.flaky_total Planner.no_records 2 0 0 O
    = (Some 0, 3%nat,
       [Planner.CheckTotal 0 0 5000; Planner.CheckTotal 0 0 0;
        Planner.CheckTotal 1 0 0])
  /\ exists c,
       c ∈ snd (Planner.run_recursive Planner.flaky_total Planner.no_records 2 0 0 O)
       /\ snd (Planner.window_of c) < fst (Planner.window_of c).
Proof.
  split; [reflexivity|].
  exists (Planner.CheckTotal 1 0 0). split; [|simpl; lia].
  vm_compute. do 2 right. left.
Qed.

(** ** The download engines *)
Section DownloadFacts.

Context {St : Type}.

Lemma getsize_insert (fs : gmap string string) path content :
  Py.getsize (<[path := content]> fs) path = Py.len content.
Proof. unfold Py.getsize. rewrite lookup_insert_eq. reflexivity. Qed.

Lemma inquiry_pass_settled (get : string -> St -> Inquiry.response * St)
    page_url url filepath (fs : gmap string string) st :
  Outcome.pass_settled fs filepath
    (Inquiry.attempt_download get page_url url filepath fs st).
Proof.
  unfold Inquiry.attempt_download.
  destruct (get page_url st) as [r0 st1]. destruct (get url st1) as [resp st2].
  destruct resp as [e|ctype content]; simpl; [left; reflexivity|].
  destruct (Py.contains "text/html" ctype && (Py.len content <? 10000));
    simpl; [left; reflexivity|].
  rewrite getsize_insert.
  destruct (Z.ltb_spec (Py.len content) 1000) as [Hsmall|Hbig]; simpl.
  - right. apply lookup_delete_eq.
  - exists content. split; [apply lookup_insert_eq|exact Hbig].
Qed.

Lemma inquiry_attempts_settled (get : string -> St -> Inquiry.response * St)
    page_url url filepath remaining : forall attempt (fs : gmap string string) st,
  fs !! filepath = None ->
  Outcome.settled (Z.leb 1000) None filepath
    (Inquiry.download_attempts get page_url remaining attempt url filepath fs st).
Proof.
  induction remaining as [|remaining IH]; intros attempt fs st Hnone.
  - simpl. right. split; [reflexivity|left; exact Hnone].
  - cbn [Inquiry.download_attempts].
    pose proof (inquiry_pass_settled get page_url url filepath fs st) as Hpass.
    destruct (Inquiry.attempt_download get page_url url filepath fs st)
      as [[[[e|] fs1] st1] log1]; simpl in Hpass.
    + assert (Hnone1 : fs1 !! filepath = None)
        by (destruct Hpass as [->|H1]; assumption).
      destruct (attempt =? Inquiry.max_retries)%nat.
      * simpl. right. split; [reflexivity|left; exact Hnone1].
      * specialize (IH (S attempt) fs1 st1 Hnone1).
        destruct (Inquiry.download_attempts get page_url remaining (S attempt)
                    url filepath fs1 st1) as [[[[ok msg] fs2] st2] log2].
        exact IH.
    + destruct Hpass as (c & Hc & Hlen). simpl. left. split; [reflexivity|].
      exists c. split; [exact Hc|]. apply Z.leb_le. exact Hlen.
Qed.

Lemma inquiry_download_settled (get : string -> St -> Inquiry.response * St)
    page_url files_dir url filename (fs : gmap string string) st :
  Outcome.settled (Z.leb 1000) None (Py.os_path_join files_dir filename)
    (Inquiry._download_file get page_url files_dir url filename fs st).
Proof.
  unfold Inquiry._download_file, Py.exists_, Py.getsize.
  set (filepath := Py.os_path_join files_dir filename).
  destruct (fs !! filepath) as [c|] eqn:Hc.
  - destruct (Z.ltb_spec 1000 (Py.len c)) as [Hbig|Hsmall].
    + simpl. left. split; [reflexivity|]. exists c. split; [exact Hc|].
      apply Z.leb_le. lia.
    + apply inquiry_attempts_settled. apply lookup_delete_eq.
  - apply inquiry_attempts_settled. exact Hc.
Qed.

Lemma cninfo_attempts_settled (get : string -> St -> Cninfo.reply * St)
    url save_path max_retries remaining :
  forall attempt err (fs0 fs : gmap string string) st,
  fs !! save_path = None \/ fs !! save_path = fs0 !! save_path ->
  Outcome.settled (Z.ltb 1024) (fs0 !! save_path) save_path
    (Cninfo.download_attempts get remaining attempt max_retries err url save_path fs st).
Proof.
  induction remaining as [|remaining IH]; intros attempt err fs0 fs st Hfs.
  - simpl. right. split; [reflexivity|exact Hfs].
  - cbn [Cninfo.download_attempts].
    destruct (get url st) as [resp st1].
    assert (Hcont : forall err1 fs1,
      fs1 !! save_path = None \/ fs1 !! save_path = fs0 !! save_path ->
      Outcome.settled (Z.ltb 1024) (fs0 !! save_path) save_path
        (let '(res, fs2, st2, log) :=
           Cninfo.download_attempts get remaining (S attempt) max_retries err1
             url save_path fs1 st1 in (res, fs2, st2, url :: log))).
    { intros err1 fs1 Hfs1. specialize (IH (S attempt) err1 fs0 fs1 st1 Hfs1).
      destruct (Cninfo.download_attempts get remaining (S attempt) max_retries
                  err1 url save_path fs1 st1) as [[[[ok msg] fs2] st2] log2].
      exact IH. }
    destruct resp as [|e|status ctype content].
    + apply Hcont. exact Hfs.
    + apply Hcont. exact Hfs.
    + destruct (status =? 200).
      * destruct (Py.contains "text/html" (Py.lower ctype)
                  && (Py.len content <? 50000)
                  && Py.contains "<html" (Py.lower (Py.take 2000 content))).
        -- apply Hcont. exact Hfs.
        -- rewrite getsize_insert.
           destruct (Z.ltb_spec 1024 (Py.len content)) as [Hbig|Hsmall].
           ++ simpl. left. split; [reflexivity|]. exists content.
              split; [apply lookup_insert_eq|]. apply Z.ltb_lt. exact Hbig.
           ++ apply Hcont. left. apply lookup_delete_eq.
      * destruct ((status =? 404) || (status =? 410)).
        -- simpl. right. split; [reflexivity|exact Hfs].
        -- apply Hcont. exact Hfs.
Qed.

End DownloadFacts.

(** The same calls on a disk whose writes can raise. *)
Section DiskFacts.

Context {St : Type}.
Variable disk : string -> string -> St -> Disk.write_outcome.

Lemma inquiry_disk_pass_settled (get : string -> St -> Inquiry.response * St)
    page_url url filepath (fs : gmap string string) st :
  Commit.pass_settled disk fs filepath
    (InquiryDisk.attempt_download get disk page_url url filepath fs st).
Proof.
  unfold InquiryDisk.attempt_download.
  destruct (get page_url st) as [r0 st1]. destruct (get url st1) as [resp st2].
  destruct resp as [e|ctype content]; simpl; [left; reflexivity|].
  destruct (Py.contains "text/html" ctype && (Py.len content <? 10000));
    simpl; [left; reflexivity|].
  destruct (disk filepath content st2) as [|n e|e] eqn:Hdisk; simpl.
  - rewrite getsize_insert.
    destruct (Z.ltb_spec (Py.len content) 1000) as [Hsmall|Hbig]; simpl.
    + right. left. apply lookup_delete_eq.
    + exists content. split; [apply lookup_insert_eq|exact Hbig].
  - right. right. exists content, st2, n, e.
    split; [exact Hdisk|apply lookup_insert_eq].
  - left. reflexivity.
Qed.

Lemma inquiry_disk_attempts_settled (get : string -> St -> Inquiry.response * St)
    page_url url filepath remaining : forall attempt (fs : gmap string string) st,
  fs !! filepath = None \/ Disk.leftover disk filepath fs ->
  Commit.settled disk (Z.leb 1000) None filepath
    (InquiryDisk.download_attempts get disk page_url remaining attempt url
       filepath fs st).
Proof.
  induction remaining as [|remaining IH]; intros attempt fs st Hinv.
  - simpl. right. split; [reflexivity|].
    destruct Hinv as [Hnone|Hleft]; [left; exact Hnone|right; right; exact Hleft].
  - cbn [InquiryDisk.download_attempts].
    pose proof (inquiry_disk_pass_settled get page_url url filepath fs st) as Hpass.
    destruct (InquiryDisk.attempt_download get disk page_url url filepath fs st)
      as [[[[e|] fs1] st1] log1]; simpl in Hpass.
    + assert (Hinv1 : fs1 !! filepath = None \/ Disk.leftover disk filepath fs1).
      { destruct Hpass as [->|[Hnone|Hleft]]; [exact Hinv|left; exact Hnone|
          right; exact Hleft]. }
      destruct (attempt =? Inquiry.max_retries)%nat.
      * simpl. right. split; [reflexivity|].
        destruct Hinv1 as [Hnone|Hleft]; [left; exact Hnone|right; right; exact Hleft].
      * specialize (IH (S attempt) fs1 st1 Hinv1).
        destruct (InquiryDisk.download_attempts get disk page_url remaining
                    (S attempt) url filepath fs1 st1) as [[[[ok msg] fs2] st2] log2].
        exact IH.
    + destruct Hpass as (c & Hc & Hlen). simpl. left. split; [reflexivity|].
      exists c. split; [exact Hc|]. apply Z.leb_le. exact Hlen.
Qed.

Lemma inquiry_disk_download_settled (get : string -> St -> Inquiry.response * St)
    page_url files_dir url filename (fs : gmap string string) st :
  Commit.settled disk (Z.leb 1000) None (Py.os_path_join files_dir filename)
    (InquiryDisk._download_file get disk page_url files_dir url filename fs st).
Proof.
  unfold InquiryDisk._download_file, Py.exists_, Py.getsize.
  set (filepath := Py.os_path_join files_dir filename).
  destruct (fs !! filepath) as [c|] eqn:Hc.
  - destruct (Z.ltb_spec 1000 (Py.len c)) as [Hbig|Hsmall].
    + simpl. left. split; [reflexivity|]. exists c. split; [exact Hc|].
      apply Z.leb_le. lia.
    + apply inquiry_disk_attempts_settled. left. apply lookup_delete_eq.
  - apply inquiry_disk_attempts_settled. left. exact Hc.
Qed.

Lemma cninfo_disk_attempts_settled (get : string -> St -> Cninfo.reply * St)
    url save_path max_retries remaining :
  forall attempt err (fs0 fs : gmap string string) st,
  fs !! save_path = None \/ fs !! save_path = fs0 !! save_path
  \/ Disk.leftover disk save_path fs ->
  Commit.settled disk (Z.ltb 1024) (fs0 !! save_path) save_path
    (CninfoDisk.download_attempts get disk remaining attempt max_retries err url
       save_path fs st).
Proof.
  induction remaining as [|remaining IH]; intros attempt err fs0 fs st Hfs.
  - simpl. right. split; [reflexivity|exact Hfs].
  - cbn [CninfoDisk.download_attempts].
    destruct (get url st) as [resp st1].
    assert (Hcont : forall err1 fs1,
      fs1 !! save_path = None \/ fs1 !! save_path = fs0 !! save_path
      \/ Disk.leftover disk save_path fs1 ->
      Commit.settled disk (Z.ltb 1024) (fs0 !! save_path) save_path
        (let '(res, fs2, st2, log) :=
           CninfoDisk.download_attempts get disk remaining (S attempt) max_retries
             err1 url save_path fs1 st1 in (res, fs2, st2, url :: log))).
    { intros err1 fs1 Hfs1. specialize (IH (S attempt) err1 fs0 fs1 st1 Hfs1).
      destruct (CninfoDisk.download_attempts get disk remaining (S attempt)
                  max_retries err1 url save_path fs1 st1)
        as [[[[ok msg] fs2] st2] log2].
      exact IH. }
    destruct resp as [|e|status ctype content].
    + apply Hcont. exact Hfs.
    + apply Hcont. exact Hfs.
    + destruct (status =? 200).
      * destruct (Py.contains "text/html" (Py.lower ctype)
                  && (Py.len content <? 50000)
                  && Py.contains "<html" (Py.lower (Py.take 2000 content))).
        -- apply Hcont. exact Hfs.
        -- destruct (disk save_path content st1) as [|n e|e] eqn:Hdisk;
             cbn [Disk.write].
           ++ rewrite getsize_insert.
              destruct (Z.ltb_spec 1024 (Py.len content)) as [Hbig|Hsmall].
              ** simpl. left. split; [reflexivity|]. exists content.
                 split; [apply lookup_insert_eq|]. apply Z.ltb_lt. exact Hbig.
              ** apply Hcont. left. apply lookup_delete_eq.
           ++ apply Hcont. right. right. exists content, st1, n, e.
              split; [exact Hdisk|apply lookup_insert_eq].
           ++ apply Hcont. exact Hfs.
      * destruct ((status =? 404) || (status =? 410)).
        -- simpl. right. split; [reflexivity|exact Hfs].
        -- apply Hcont. exact Hfs.
Qed.

(** On a disk whose writes all complete these are the calls of [Inquiry]
    and [Cninfo]. *)
Lemma inquiry_disk_reliable (get : string -> St -> Inquiry.response * St)
    page_url files_dir url filename (fs : gmap string string) st :
  InquiryDisk._download_file get Disk.reliable page_url files_dir url filename fs st
  = Inquiry._download_file get page_url files_dir url filename fs st.
Proof.
  assert (Hpass : forall filepath fs0 st0,
    InquiryDisk.attempt_download get Disk.reliable page_url url filepath fs0 st0
    = Inquiry.attempt_download get page_url url filepath fs0 st0).
  { intros filepath fs0 st0.
    unfold InquiryDisk.attempt_download, Inquiry.attempt_download.
    destruct (get page_url st0) as [r0 st1]. destruct (get url st1) as [resp st2].
    destruct resp as [e|ctype content]; [reflexivity|].
    destruct (Py.contains "text/html" ctype && (Py.len content <? 10000));
      reflexivity. }
  assert (Hloop : forall filepath remaining attempt fs0 st0,
    InquiryDisk.download_attempts get Disk.reliable page_url remaining attempt url
      filepath fs0 st0
    = Inquiry.download_attempts get page_url remaining attempt url filepath fs0 st0).
  { intros filepath remaining.
    induction remaining as [|remaining IH]; intros attempt fs0 st0; [reflexivity|].
    cbn [InquiryDisk.download_attempts Inquiry.download_attempts].
    rewrite Hpass.
    destruct (Inquiry.attempt_download get page_url url filepath fs0 st0)
      as [[[[e|] fs1] st1] log1]; [|reflexivity].
    rewrite IH. reflexivity. }
  unfold InquiryDisk._download_file, Inquiry._download_file.
  rewrite !Hloop. reflexivity.
Qed.

Lemma cninfo_disk_reliable (get : string -> St -> Cninfo.reply * St)
    url save_path max_retries (fs : gmap string string) st :
  CninfoDisk._download_file get Disk.reliable url save_path max_retries fs st
  = Cninfo._download_file get url save_path max_retries fs st.
Proof.
  unfold CninfoDisk._download_file, Cninfo._download_file.
  generalize max_retries at 1 3 as remaining. generalize O as attempt.
  generalize "" as err. intros err attempt remaining. revert err attempt fs st.
  induction remaining as [|remaining IH]; intros err attempt fs st; [reflexivity|].
  cbn [CninfoDisk.download_attempts Cninfo.download_attempts].
  destruct (get url st) as [resp st1].
  destruct resp as [|e|status ctype content]; rewrite ?IH; reflexivity.
Qed.

End DiskFacts.

(** C4, as worded, fails: the server sends a body of 5000 bytes and every
    write raises after 2000 bytes.  [_download_file] reports failure after
    its three passes and leaves at the target the 2000 bytes of the last
    write: a file above the threshold that is neither a body the server
    sent nor what was there before.  On the next run, with a disk that
    works, the file is taken for a valid artifact and passed over. *)
Lemma commit_contract_fails_on_broken_write :
  let fs' := <["out/files/1.pdf" := Py.filler 2000]> (∅ : gmap string string) in
  InquiryDisk._download_file Commit.steady Commit.full_disk
    "https://www.sse.com.cn/" "out/files" "https://www.sse.com.cn/doc/1.pdf"
    "1.pdf" ∅ tt
  = ((false, "重试3次后失败: No space left on device"), fs', tt,
     ["https://www.sse.com.cn/"; "https://www.sse.com.cn/doc/1.pdf";
      "https://www.sse.com.cn/"; "https://www.sse.com.cn/doc/1.pdf";
      "https://www.sse.com.cn/"; "https://www.sse.com.cn/doc/1.pdf"])
  /\ ~ Commit.commit_contract Commit.steady Commit.full_disk
         "https://www.sse.com.cn/" "out/files" "https://www.sse.com.cn/doc/1.pdf"
         "1.pdf" ∅ tt
  /\ InquiryDisk._download_file Commit.steady Disk.reliable
       "https://www.sse.com.cn/" "out/files" "https://www.sse.com.cn/doc/1.pdf"
       "1.pdf" fs' tt
     = ((true, "跳过"), fs', tt, []).
Proof.
  intros fs'.
  assert (Hrun :
    InquiryDisk._download_file Commit.steady Commit.full_disk
      "https://www.sse.com.cn/" "out/files" "https://www.sse.com.cn/doc/1.pdf"
      "1.pdf" ∅ tt
    = ((false, "重试3次后失败: No space left on device"), fs', tt,
       ["https://www.sse.com.cn/"; "https://www.sse.com.cn/doc/1.pdf";
        "https://www.sse.com.cn/"; "https://www.sse.com.cn/doc/1.pdf";
        "https://www.sse.com.cn/"; "https://www.sse.com.cn/doc/1.pdf"])).
  { vm_compute. reflexivity. }
  split; [exact Hrun|]. split; [|vm_compute; reflexivity].
  unfold Commit.commit_contract. rewrite Hrun. intros Hc.
  destruct (Hc (Py.filler 2000)) as [Hold|(st0 & ct & st1 & Hsent)].
  - vm_compute. reflexivity.
  - vm_compute. reflexivity.
  - rewrite lookup_empty in Hold. discriminate Hold.
  - unfold Commit.steady in Hsent. injection Hsent as _ Hbody.
    apply (f_equal String.length) in Hbody. vm_compute in Hbody.
    discriminate Hbody.
Qed.


(** ** Re-running over valid artifacts *)
Section RerunFacts.

Context {St : Type}.

(** The existence short-circuit of the inquiry scraper. *)
Lemma inquiry_skips_valid (get : string -> St -> Inquiry.response * St)
    page_url files_dir url filename (fs : gmap string string) st :
  Py.exists_ fs (Py.os_path_join files_dir filename)
  && (1000 <? Py.getsize fs (Py.os_path_join files_dir filename)) = true ->
  Inquiry._download_file get page_url files_dir url filename fs st
  = ((true, "跳过"), fs, st, []).
Proof.
  intros Hvalid. apply andb_true_iff in Hvalid as [Hex Hsize].
  unfold Inquiry._download_file. rewrite Hex, Hsize. reflexivity.
Qed.

Lemma inquiry_batch_all_skipped (get : string -> St -> Inquiry.response * St)
    page_url files_dir (fs : gmap string string) st tasks : forall t,
  (forall u fn, (u, fn) ∈ tasks ->
     Py.exists_ fs (Py.os_path_join files_dir fn)
     && (1000 <? Py.getsize fs (Py.os_path_join files_dir fn)) = true) ->
  Inquiry.download_batch get page_url files_dir tasks t fs st
  = ({| Inquiry.success := Inquiry.success t;
        Inquiry.skip := (Inquiry.skip t + length tasks)%nat;
        Inquiry.fail := Inquiry.fail t;
        Inquiry.failed_files := Inquiry.failed_files t |}, fs, st, []).
Proof.
  induction tasks as [|[u fn] tasks IH]; intros t Hvalid.
  - simpl. rewrite Nat.add_0_r. destruct t; reflexivity.
  - cbn [Inquiry.download_batch].
    rewrite inquiry_skips_valid by (apply (Hvalid u); left).
    change (Py.contains "跳过" "跳过") with true. cbv iota.
    rewrite IH by (intros u' fn' Hin; apply (Hvalid u'); right; exact Hin).
    simpl. do 3 f_equal. f_equal. lia.
Qed.

Lemma cninfo_select_all_skipped (strip : string -> string)
    (build : Cninfo.record -> string) files_dir (fs : gmap string string)
    records : forall seen rows tasks,
  (forall r, r ∈ records ->
     Py.exists_ fs (Py.os_path_join files_dir (build r))
     && (1024 <? Py.getsize fs (Py.os_path_join files_dir (build r))) = true) ->
  exists new,
    Cninfo.select_tasks strip build files_dir records fs seen rows tasks
    = (rows ++ new, tasks)
    /\ length new = length records
    /\ Forall (fun row => Cninfo.status row = "skip") new.
Proof.
  induction records as [|r records IH]; intros seen rows tasks Hvalid.
  - exists []. rewrite app_nil_r. repeat split. constructor.
  - cbn [Cninfo.select_tasks].
    assert (Hrest : forall r', r' ∈ records ->
      Py.exists_ fs (Py.os_path_join files_dir (build r'))
      && (1024 <? Py.getsize fs (Py.os_path_join files_dir (build r'))) = true)
      by (intros r' Hin; apply Hvalid; right; exact Hin).
    assert (Hstep : forall seen' row, Cninfo.status row = "skip" ->
      exists new,
        Cninfo.select_tasks strip build files_dir records fs seen'
          (rows ++ [row]) tasks = (rows ++ new, tasks)
        /\ length new = S (length records)
        /\ Forall (fun row => Cninfo.status row = "skip") new).
    { intros seen' row Hrow.
      destruct (IH seen' (rows ++ [row]) tasks Hrest) as (new & -> & Hlen & Hall).
      exists (row :: new). rewrite <- app_assoc. simpl.
      repeat split; [lia|constructor; assumption]. }
    destruct (negb _ && bool_decide _); [apply Hstep; reflexivity|].
    destruct (String.eqb (strip _) ""); [apply Hstep; reflexivity|].
    rewrite (Hvalid r) by left. apply Hstep; reflexivity.
Qed.

End RerunFacts.

(** C5.  When every artifact is already on disk and above the size floor
    (1000 bytes for the inquiry scraper, 1024 for the cninfo downloader),
    [_download_file] answers "跳过" for each record without a request and
    without touching the disk; [download_from_json] then counts every task
    as skipped, and [download_from_index] reports one row per record, all
    with status [skip]; neither makes a request or changes the disk. *)
Theorem rerun_over_valid_artifacts_skips_everything
  (St1 St2 : Type)
  (get1 : string -> St1 -> Inquiry.response * St1)
  (page_url files_dir1 output_dir : string)
  (results : list Inquiry.record) (fs1 : gmap string string) (st1 : St1)
  (get2 : string -> St2 -> Cninfo.reply * St2)
  (strip : string -> string) (build : Cninfo.record -> string)
  (files_dir2 : string)
  (records : list Cninfo.record) (fs2 : gmap string string) (st2 : St2) :
  (forall r, r ∈ results -> Inquiry.has_url r = true ->
     Py.exists_ fs1 (Py.os_path_join files_dir1 (Inquiry.local_filename r))
     && (1000 <? Py.getsize fs1 (Py.os_path_join files_dir1 (Inquiry.local_filename r)))
     = true) ->
  (forall r, r ∈ records ->
     Py.exists_ fs2 (Py.os_path_join files_dir2 (build r))
     && (1024 <? Py.getsize fs2 (Py.os_path_join files_dir2 (build r))) = true) ->
  records <> [] ->
  (forall r, r ∈ results -> Inquiry.has_url r = true ->
     Inquiry._download_file get1 page_url files_dir1
       (Inquiry.url r) (Inquiry.local_filename r) fs1 st1
     = ((true, "跳过"), fs1, st1, []))
  /\ Inquiry.download_from_json get1 page_url files_dir1 output_dir results fs1 st1
     = ({| Inquiry.success := 0;
           Inquiry.skip := length (filter (fun r => Inquiry.has_url r = true) results);
           Inquiry.fail := 0;
           Inquiry.failed_files := [] |}, fs1, st1, [])
  /\ exists rows,
       Cninfo.download_from_index get2 strip build files_dir2 records fs2 st2
       = Some (rows, fs2, st2, [])
       /\ length rows = length records
       /\ Forall (fun row => Cninfo.status row = "skip") rows.
Proof.
  intros Hv1 Hv2 Hne. split; [|split].
  - intros r Hr Hu. apply inquiry_skips_valid. apply Hv1; assumption.
  - unfold Inquiry.download_from_json.
    rewrite inquiry_batch_all_skipped.
    + simpl. rewrite length_map. reflexivity.
    + intros u fn Hin. apply list_elem_of_In, in_map_iff in Hin
        as (r & Heq & Hr). injection Heq as <- <-.
      apply list_elem_of_In, list_elem_of_filter in Hr as [Hu Hr].
      apply Hv1; assumption.
  - destruct records as [|r0 records']; [contradiction|].
    unfold Cninfo.download_from_index.
    destruct (cninfo_select_all_skipped strip build files_dir2 fs2
                (r0 :: records') ∅ [] [] Hv2) as (new & -> & Hlen & Hall).
    exists new. simpl. auto.
Qed.

Lemma rerun_over_valid_artifacts_skips_everything_witness :
  (forall r, r ∈ Samples.inquiry_records -> Inquiry.has_url r = true ->
     Inquiry._download_file Samples.offline "https://www.sse.com.cn/" "out/files"
       (Inquiry.url r) (Inquiry.local_filename r) Samples.disk tt
     = ((true, "跳过"), Samples.disk, tt, []))
  /\ Inquiry.download_from_json Samples.offline "https://www.sse.com.cn/"
       "out/files" "out" Samples.inquiry_records Samples.disk tt
     = ({| Inquiry.success := 0;
           Inquiry.skip :=
             length (filter (fun r => Inquiry.has_url r = true) Samples.inquiry_records);
           Inquiry.fail := 0;
           Inquiry.failed_files := [] |}, Samples.disk, tt, [])
  /\ exists rows,
       Cninfo.download_from_index Samples.cninfo_offline Samples.same_text
         Samples.name_by_id "out/files" Samples.cninfo_records Samples.disk tt
       = Some (rows, Samples.disk, tt, [])
       /\ length rows = length Samples.cninfo_records
       /\ Forall (fun row => Cninfo.status row = "skip") rows.
Proof.
  apply (rerun_over_valid_artifacts_skips_everything unit unit
           Samples.offline "https://www.sse.com.cn/" "out/files" "out"
           Samples.inquiry_records Samples.disk tt
           Samples.cninfo_offline Samples.same_text Samples.name_by_id
           "out/files" Samples.cninfo_records Samples.disk tt).
  - intros r Hr Hu. unfold Samples.inquiry_records in Hr.
    apply elem_of_cons in Hr as [->|Hr]; [vm_compute; reflexivity|].
    apply elem_of_cons in Hr as [->|Hr]; [discriminate Hu|inversion Hr].
  - intros r Hr. unfold Samples.cninfo_records in Hr.
    apply elem_of_cons in Hr as [->|Hr]; [vm_compute; reflexivity|inversion Hr].
  - discriminate.
Defined.

(** ** Reconciliation *)
Section ReconcileFacts.

Context {St : Type}.
Variable get : string -> St -> Inquiry.response * St.
Variables page_url files_dir output_dir : string.

Lemma filter_split_length {A : Type} (f : A -> bool) (l : list A) :
  (length (filter (fun x => f x = true) l)
   + length (filter (fun x => f x = false) l) = length l)%nat.
Proof.
  induction l as [|x l IH]; [reflexivity|].
  rewrite !filter_cons. destruct (f x) eqn:Hx; repeat case_decide;
    try congruence; simpl; lia.
Qed.

Lemma classify_spec (fs : gmap string string) records : forall vc missing,
  Inquiry.classify files_dir records fs vc missing
  = ((vc + length (filter (fun r => Reconcile.artifact_valid files_dir fs r = true)
                    (filter (fun r => Inquiry.has_url r = true) records)))%nat,
     missing ++ filter (fun r => Reconcile.artifact_valid files_dir fs r = false)
                  (filter (fun r => Inquiry.has_url r = true) records)).
Proof.
  induction records as [|item records IH]; intros vc missing.
  - simpl. rewrite Nat.add_0_r, app_nil_r. reflexivity.
  - cbn [Inquiry.classify]. rewrite (filter_cons _ item records).
    destruct (Inquiry.has_url item) eqn:Hu; simpl negb; cbv iota.
    + rewrite decide_True by reflexivity. rewrite !filter_cons.
      fold (Reconcile.artifact_valid files_dir fs item).
      destruct (Reconcile.artifact_valid files_dir fs item) eqn:Hv.
      * rewrite decide_True, decide_False by congruence.
        rewrite IH. simpl. f_equal. lia.
      * rewrite decide_False, decide_True by congruence.
        rewrite IH. rewrite <- app_assoc. reflexivity.
    + rewrite decide_False by congruence. apply IH.
Qed.

End ReconcileFacts.

(** C6, as worded, fails: a record without URL and without artifact is not
    among the gaps.  With that single record and an empty disk, N = 1 and
    K = 0, yet the pass reports 0 gaps. *)
Lemma reconcile_contract_fails_without_url :
  ~ Reconcile.reconcile_contract Samples.offline "https://www.sse.com.cn/"
      "out/files" "out" "n"
      [ {| Inquiry.url := ""; Inquiry.local_filename := "b.pdf" |} ] ∅ tt.
Proof.
  unfold Reconcile.reconcile_contract. intros [Hreport _].
  vm_compute in Hreport. discriminate Hreport.
Qed.

Lemma string_app_assoc (a b c : string) : (a +:+ b) +:+ c = a +:+ (b +:+ c).
Proof.
  induction a as [|x a IH]; [reflexivity|].
  change (String x ((a +:+ b) +:+ c) = String x (a +:+ (b +:+ c))).
  rewrite IH. reflexivity.
Qed.

Lemma string_app_nil_r (a : string) : a +:+ "" = a.
Proof.
  induction a as [|x a IH]; [reflexivity|].
  change (String x (a +:+ "") = String x a). rewrite IH. reflexivity.
Qed.

Lemma concat_cons (x : string) (l : list string) :
  String.concat "" (x :: l) = x +:+ String.concat "" l.
Proof.
  destruct l as [|y l]; [|reflexivity].
  simpl. symmetry. apply string_app_nil_r.
Qed.

Lemma failure_lines_text (gaps : list Inquiry.record) :
  Inquiry.failure_lines gaps = Reconcile.log_text gaps.
Proof.
  unfold Reconcile.log_text.
  induction gaps as [|g gaps IH]; [reflexivity|].
  cbn [Inquiry.failure_lines map]. rewrite concat_cons, IH.
  unfold Reconcile.gap_line. rewrite !string_app_assoc. reflexivity.
Qed.

(** C6 (amended).  [verify_and_retry] considers the records that carry a
    URL.  Among those, the gaps are exactly the ones whose artifact is
    absent or not larger than 1000 bytes: whatever the operator answers
    afterwards, the first pass reports the number of valid ones and the
    number of gaps, which add up to the number of records with a URL.  When
    there are gaps, the failure log has been overwritten with one line per
    gap, and nothing else on disk has changed, at the moment the operator is
    asked; an operator who declines leaves it at that.  When there are no
    gaps, nobody is asked and the failure log is removed. *)
Theorem verify_reports_gaps_among_records_with_url
  (St : Type) (get : string -> St -> Inquiry.response * St)
  (page_url files_dir output_dir : string) (answers : list string)
  (records : list Inquiry.record) (fs : gmap string string) (st : St) :
  let path r := Py.os_path_join files_dir (Inquiry.local_filename r) in
  let with_url := filter (fun r => Inquiry.url r <> "") records in
  let gaps :=
    filter (fun r => match fs !! path r with
                     | Some c => Py.len c <=? 1000
                     | None => true
                     end = true) with_url in
  let fail_log := Py.os_path_join output_dir "download_failed.txt" in
  let v := Inquiry.verify_and_retry get page_url files_dir output_dir
             answers records fs st in
  head (Inquiry.reports v)
    = Some (length records, (length with_url - length gaps)%nat, length gaps)
  /\ (length gaps <= length with_url)%nat
  /\ match gaps with
     | [] =>
       Inquiry.reports v = [(length records, length with_url, O)]
       /\ Inquiry.asked v = []
       /\ Inquiry.files_after v = match fs !! fail_log with
                                 | Some _ => delete fail_log fs
                                 | None => fs
                                 end
       /\ Inquiry.files_after v !! fail_log = None
       /\ Inquiry.requested v = [] /\ Inquiry.returned v = true
     | _ :: _ =>
       head (Inquiry.asked v) = Some (<[fail_log := Reconcile.log_text gaps]> fs)
       /\ (forall answer later, answers = answer :: later ->
             String.eqb (Py.lower answer) "y" = false ->
             Inquiry.reports v
               = [(length records, (length with_url - length gaps)%nat, length gaps)]
             /\ Inquiry.files_after v = <[fail_log := Reconcile.log_text gaps]> fs
             /\ Inquiry.requested v = [] /\ Inquiry.returned v = true)
     end.
Proof.
  intros path with_url gaps fail_log v.
  set (with_url0 := filter (fun r => Inquiry.has_url r = true) records).
  set (gaps0 := filter (fun r => Reconcile.artifact_valid files_dir fs r = false)
                  with_url0).
  set (K := length (filter (fun r => Reconcile.artifact_valid files_dir fs r = true)
                      with_url0)).
  assert (Hwith : with_url0 = with_url).
  { subst with_url0 with_url. apply list_filter_iff. intros r.
    unfold Inquiry.has_url. rewrite negb_true_iff. apply String.eqb_neq. }
  assert (Hgaps : gaps0 = gaps).
  { subst gaps0 gaps. rewrite Hwith. apply list_filter_iff. intros r.
    unfold Reconcile.artifact_valid, Py.exists_, Py.getsize. fold (path r).
    destruct (fs !! path r) as [c|]; simpl; [|tauto].
    rewrite Z.ltb_ge, Z.leb_le. reflexivity. }
  assert (Hsum : (K + length gaps0 = length with_url0)%nat)
    by apply filter_split_length.
  rewrite Hgaps, Hwith in Hsum.
  assert (HK : K = (length with_url - length gaps)%nat) by lia.
  assert (Hhead : head (Inquiry.reports v)
                  = Some (length records, K, length gaps) /\
    match gaps with
    | [] =>
      Inquiry.reports v = [(length records, K, O)]
      /\ Inquiry.asked v = []
      /\ Inquiry.files_after v = match fs !! fail_log with
                                 | Some _ => delete fail_log fs
                                 | None => fs
                                 end
      /\ Inquiry.requested v = [] /\ Inquiry.returned v = true
    | _ :: _ =>
      head (Inquiry.asked v) = Some (<[fail_log := Reconcile.log_text gaps]> fs)
      /\ (forall answer later, answers = answer :: later ->
            String.eqb (Py.lower answer) "y" = false ->
            Inquiry.reports v = [(length records, K, length gaps)]
            /\ Inquiry.files_after v = <[fail_log := Reconcile.log_text gaps]> fs
            /\ Inquiry.requested v = [] /\ Inquiry.returned v = true)
    end).
  { subst v. destruct answers as [|a later]; cbn [Inquiry.verify_and_retry];
      rewrite classify_spec; cbn [app Nat.add]; fold with_url0; fold gaps0; fold K;
      rewrite Hgaps; fold fail_log; destruct gaps as [|g gaps'] eqn:Hg.
    - split; [reflexivity|]. unfold Py.exists_.
      destruct (fs !! fail_log); repeat split; reflexivity.
    - rewrite failure_lines_text. split; [reflexivity|].
      split; [reflexivity|]. intros answer later' Heq. discriminate Heq.
    - split; [reflexivity|]. unfold Py.exists_.
      destruct (fs !! fail_log); repeat split; reflexivity.
    - rewrite failure_lines_text.
      set (fs1 := <[fail_log := Reconcile.log_text (g :: gaps')]> fs).
      destruct (String.eqb (Py.lower a) "y") eqn:Ha.
      + destruct (Inquiry.retry_batch get page_url files_dir
                    (map (fun r => (Inquiry.url r, Inquiry.local_filename r))
                       (g :: gaps')) 0 0 fs1 st) as [[[[succ fl] fs2] st2] log].
        destruct (0 <? succ)%nat.
        * split; [reflexivity|]. split; [reflexivity|].
          intros answer later' [= <- <-] Hno. congruence.
        * split; [reflexivity|]. split; [reflexivity|].
          intros answer later' [= <- <-] Hno. congruence.
      + split; [reflexivity|]. split; [reflexivity|].
        intros answer later' _ _. repeat split; reflexivity. }
  destruct Hhead as [Hhead Hrest]. rewrite <- HK.
  split; [exact Hhead|]. split; [lia|].
  destruct gaps as [|g gaps'].
  - destruct Hrest as (Hrep & Hask & Hfiles & Hreq & Hret).
    simpl in HK. rewrite Nat.sub_0_r in HK. rewrite <- HK.
    split; [exact Hrep|]. split; [exact Hask|]. split; [exact Hfiles|].
    split; [|split; assumption].
    rewrite Hfiles. destruct (fs !! fail_log) eqn:Hl;
      [apply lookup_delete_eq|exact Hl].
  - exact Hrest.
Qed.

(** The operator answers y, the server is down: the report and the log
    are those of the first pass all the same. *)
Lemma verify_reports_gaps_among_records_with_url_witness :
  let v := Inquiry.verify_and_retry Samples.offline "https://www.sse.com.cn/"
             "out/files" "out" ["y"] Retry.records Samples.disk tt in
  head (Inquiry.reports v) = Some (3%nat, 1%nat, 1%nat)
  /\ head (Inquiry.asked v)
     = Some (<["out/download_failed.txt"
               := "c.pdf: https://www.sse.com.cn/c.pdf" +:+ Py.nl]> Samples.disk).
Proof.
  pose proof (verify_reports_gaps_among_records_with_url unit Samples.offline
                "https://www.sse.com.cn/" "out/files" "out" ["y"] Retry.records
                Samples.disk tt) as (Hhead & _ & Hrest).
  split; [exact Hhead|]. destruct Hrest as [Hask _]. exact Hask.
Defined.

(** ** Draining the pages of a window *)
Section DrainFacts.

Context {Item Rec : Type}.
Variable net : nat -> Z -> Inquiry.page_reply Item.
Variable parse : Item -> option Rec.
Variable total_pages : option Z.
Variable max_pages : option Z.

Abbreviation inquiry_loop := (Inquiry.search_loop net parse total_pages max_pages).

(** In [SSEInquiriesScraper.search_all], [k] failures in a row that keep
    the counter below 5 are each retried on the same page, the records
    gathered so far being kept. *)
Lemma inquiry_failures_are_retried k : forall fuel page errors acc i,
  (forall j, (i <= j < i + k)%nat -> Pages.failed (net j page) = true) ->
  errors + Z.of_nat k < 5 ->
  inquiry_loop (k + fuel) page errors acc i
  = inquiry_loop fuel page (errors + Z.of_nat k) acc (i + k)%nat.
Proof.
  induction k as [|k IH]; intros fuel page errors acc i Hfail Hlt.
  - simpl. rewrite Z.add_0_r, Nat.add_0_r. reflexivity.
  - cbn [Nat.add Inquiry.search_loop].
    pose proof (Hfail i ltac:(lia)) as Hi.
    assert (Hgo : (if 5 <=? errors + 1 then (Some acc, S i)
                   else inquiry_loop (k + fuel) page (errors + 1) acc (S i))
                  = inquiry_loop fuel page (errors + Z.of_nat (S k)) acc (i + S k)%nat).
    { destruct (Z.leb_spec 5 (errors + 1)) as [Hge|_]; [lia|].
      rewrite IH by (try (intros j Hj; apply Hfail); lia).
      f_equal; lia. }
    destruct (net i page) as [|[results|]|handled];
      [exact Hgo|discriminate Hi|exact Hgo|discriminate Hi].
Qed.

(** The failure that brings the counter to 5 ends the drain, which returns
    the records gathered so far. *)
Lemma inquiry_fifth_failure_stops fuel page errors acc i :
  Pages.failed (net i page) = true -> 4 <= errors ->
  inquiry_loop (S fuel) page errors acc i = (Some acc, S i).
Proof.
  intros Hi Hge. cbn [Inquiry.search_loop].
  destruct (Z.leb_spec 5 (errors + 1)) as [_|Hlt]; [|lia].
  destruct (net i page) as [|[results|]|handled];
    [reflexivity|discriminate Hi|reflexivity|discriminate Hi].
Qed.

(** Five failures in a row, counted from a reset counter, end the drain
    after exactly five requests. *)
Lemma inquiry_gives_up_after_five fuel page acc i :
  (forall j, (i <= j < i + 5)%nat -> Pages.failed (net j page) = true) ->
  inquiry_loop (5 + fuel) page 0 acc i = (Some acc, (i + 5)%nat).
Proof.
  intros Hfail.
  change (5 + fuel)%nat with (4 + S fuel)%nat.
  rewrite inquiry_failures_are_retried by (try (intros j Hj; apply Hfail); lia).
  rewrite inquiry_fifth_failure_stops by (try apply Hfail; lia).
  f_equal. lia.
Qed.

End DrainFacts.

Lemma sse_search_retries_exceptions_forever {Rec : Type}
    (parse : unit -> option Rec) fuel : forall page acc i,
  SSESearch.search_loop Pages.always_raises parse fuel page acc i
  = (None, (i + fuel)%nat).
Proof.
  induction fuel as [|fuel IH]; intros page acc i.
  - simpl. f_equal. lia.
  - cbn [SSESearch.search_loop]. unfold Pages.always_raises at 1.
    rewrite IH. f_equal. lia.
Qed.

(** C7 (negative finding).  [SSESearchCrawler.search_all] has no failure
    budget.  When every request raises, it is still retrying after any
    number of requests, so it neither stops after five failures nor returns
    what it has.  When the first body cannot be parsed it stops at once with
    an empty result, without a retry, although the next request would have
    delivered the page. *)
Theorem sse_search_all_has_no_failure_budget :
  (forall fuel,
     SSESearch.search_all Pages.always_raises (fun item : unit => Some item) fuel
     = (None, fuel))
  /\ SSESearch.search_all Pages.garbled_once (fun item : unit => Some item) 6
     = (Some [], 1%nat)
  /\ SSESearch.search_loop Pages.garbled_once (fun item : unit => Some item) 5 0 [] 1
     = (Some [tt], 2%nat).
Proof.
  split; [|split; reflexivity].
  intros fuel. unfold SSESearch.search_all.
  rewrite sse_search_retries_exceptions_forever. reflexivity.
Qed.

(** ** Challenge recovery *)

(** C8, as worded, fails: after a challenge page, a second body of 2000
    bytes that is not a PDF passes the validity test of the normal path
    (more than 1000 bytes), yet the task ends as a post-challenge failure
    and nothing is written. *)
Lemma challenge_contract_fails_on_non_pdf :
  SSESearch.is_artifact SSESearch.plain_body = true
  /\ ~ Challenge.challenge_contract SSESearch.challenge_body SSESearch.plain_body
         "https://www.sse.com.cn/doc.docx" "out/files/doc.docx".
Proof.
  split; [reflexivity|].
  intros Hc. specialize (Hc eq_refl).
  vm_compute in Hc. destruct Hc as [_ [Hok _]]. discriminate Hok.
Qed.

(** C8 (amended).  When the first body is classified as a challenge page,
    the engine navigates once to the original URL and requests it once
    more.  The task then succeeds, with the second body written to the
    target, exactly when that body starts with the four bytes %PDF; any
    other second body, whatever its size, ends the task as a post-challenge
    failure with the disk unchanged. *)
Theorem challenge_recovery_accepts_only_pdf
  (St : Type) (request_get : string -> St -> (string + string) * St)
  (goto : string -> St -> St) (url path : string)
  (fs : gmap string string) (st st1 st3 : St) (first second : string) :
  request_get url st = (inr first, st1) ->
  SSESearch.is_waf first = true ->
  request_get url (goto url st1) = (inr second, st3) ->
  SSESearch._playwright_download_file request_get goto url path fs st
  = (if SSESearch.is_pdf second
     then ((true, SSESearch.Bytes (Py.len second)), <[path := second]> fs, st3,
           [SSESearch.RequestGet url; SSESearch.Goto url; SSESearch.RequestGet url])
     else ((false, SSESearch.StillBlocked (Py.len second)), fs, st3,
           [SSESearch.RequestGet url; SSESearch.Goto url; SSESearch.RequestGet url])).
Proof.
  intros Hfirst Hwaf Hsecond.
  unfold SSESearch._playwright_download_file, SSESearch._solve_waf.
  rewrite Hfirst, Hwaf, Hsecond.
  destruct (SSESearch.is_pdf second) eqn:Hpdf; [|reflexivity].
  unfold SSESearch.commit, SSESearch.is_artifact. rewrite Hpdf. reflexivity.
Qed.

Lemma challenge_recovery_accepts_only_pdf_witness :
  SSESearch._playwright_download_file SSESearch.scripted_get SSESearch.scripted_goto
    "https://www.sse.com.cn/doc.pdf" "out/files/doc.pdf" ∅
    [SSESearch.challenge_body; SSESearch.pdf_body]
  = (if SSESearch.is_pdf SSESearch.pdf_body
     then ((true, SSESearch.Bytes (Py.len SSESearch.pdf_body)),
           <["out/files/doc.pdf" := SSESearch.pdf_body]> ∅, [],
           [SSESearch.RequestGet "https://www.sse.com.cn/doc.pdf";
            SSESearch.Goto "https://www.sse.com.cn/doc.pdf";
            SSESearch.RequestGet "https://www.sse.com.cn/doc.pdf"])
     else ((false, SSESearch.StillBlocked (Py.len SSESearch.pdf_body)), ∅, [],
           [SSESearch.RequestGet "https://www.sse.com.cn/doc.pdf";
            SSESearch.Goto "https://www.sse.com.cn/doc.pdf";
            SSESearch.RequestGet "https://www.sse.com.cn/doc.pdf"])).
Proof.
  apply (challenge_recovery_accepts_only_pdf (list string)
           SSESearch.scripted_get SSESearch.scripted_goto
           "https://www.sse.com.cn/doc.pdf" "out/files/doc.pdf" ∅
           [SSESearch.challenge_body; SSESearch.pdf_body]
           [SSESearch.pdf_body] [] SSESearch.challenge_body SSESearch.pdf_body).
  - reflexivity.
  - vm_compute. reflexivity.
  - reflexivity.
Defined.

(** ** Content hashing and the duplicate scan *)
Section ChunkFacts.

Lemma take_drop n : forall s, Py.take n s +:+ Py.drop n s = s.
Proof.
  induction n as [|n IH]; intros [|c s]; try reflexivity.
  change (String c (Py.take n s +:+ Py.drop n s) = String c s).
  rewrite IH. reflexivity.
Qed.

Lemma take_empty n s : n <> O -> Py.take n s = "" -> s = "".
Proof. destruct n, s; simpl; congruence. Qed.

Lemma length_drop_le n : forall s,
  (String.length (Py.drop n s) <= String.length s)%nat.
Proof.
  induction n as [|n IH]; intros [|c s]; simpl; try lia.
  specialize (IH s). lia.
Qed.

Lemma length_drop_lt n s :
  n <> O -> s <> "" -> (String.length (Py.drop n s) < String.length s)%nat.
Proof.
  destruct n as [|n]; [congruence|]. destruct s as [|c s]; [congruence|].
  intros _ _. simpl. pose proof (length_drop_le n s). lia.
Qed.

Context {H : Type}.
Variable md5_new : H.
Variable md5_update : H -> string -> H.
Variable hexdigest : H -> string.

(** Feeding a hash object piece by piece is feeding it the whole; feeding
    it nothing changes nothing. *)
Hypothesis update_app :
  forall h a b, md5_update (md5_update h a) b = md5_update h (a +:+ b).
Hypothesis update_empty : forall h, md5_update h "" = h.

Lemma read_chunks_whole bound : forall h rest,
  (String.length rest <= bound)%nat ->
  Inquiry.read_chunks md5_update bound h rest = md5_update h rest.
Proof.
  induction bound as [|bound IH]; intros h rest Hlen.
  - destruct rest; [|simpl in Hlen; lia]. simpl. symmetry. apply update_empty.
  - cbn [Inquiry.read_chunks].
    destruct (String.eqb_spec (Py.take Inquiry.chunk_size rest) "") as [He|Hne].
    + apply take_empty in He; [|discriminate]. subst rest.
      symmetry. apply update_empty.
    + assert (Hrest : rest <> "") by (intros ->; apply Hne; reflexivity).
      rewrite IH.
      * rewrite update_app, take_drop. reflexivity.
      * pose proof (length_drop_lt Inquiry.chunk_size rest ltac:(discriminate) Hrest).
        lia.
Qed.

(** [calculate_md5] is the hash of the whole file. *)
Lemma calculate_md5_whole content :
  Inquiry.calculate_md5 md5_new md5_update hexdigest content
  = Inquiry.whole_file_md5 md5_new md5_update hexdigest content.
Proof.
  unfold Inquiry.calculate_md5, Inquiry.whole_file_md5.
  rewrite read_chunks_whole by lia. reflexivity.
Qed.

End ChunkFacts.

Section ExpectedFacts.

Variable big : string -> bool.
Variable hash_of : string -> string.

Lemma first_original_snoc earlier f h :
  Dedup.first_original big hash_of (earlier ++ [f]) h
  = match Dedup.first_original big hash_of earlier h with
    | Some o => Some o
    | None => if big f && String.eqb (hash_of f) h then Some f else None
    end.
Proof.
  induction earlier as [|g earlier IH]; simpl; [reflexivity|].
  destruct (big g && String.eqb (hash_of g) h); [reflexivity|exact IH].
Qed.

Lemma first_original_Some l h o :
  Dedup.first_original big hash_of l h = Some o <->
  exists i, l !! i = Some o /\ big o = true /\ hash_of o = h
    /\ forall k x, (k < i)%nat -> l !! k = Some x -> big x = true -> hash_of x <> h.
Proof.
  induction l as [|g l IH]; simpl.
  - split; [discriminate|]. intros (i & Hi & _). discriminate.
  - destruct (big g && String.eqb (hash_of g) h) eqn:E.
    + apply andb_true_iff in E as [Hbig Heq]. apply String.eqb_eq in Heq.
      split.
      * intros [= <-]. exists O. repeat split; try assumption.
        intros k x Hk. lia.
      * intros (i & Hi & _ & _ & Hfirst). destruct i as [|i].
        -- simpl in Hi. exact Hi.
        -- exfalso. apply (Hfirst O g); [lia|reflexivity|assumption|assumption].
    + rewrite IH. split.
      * intros (i & Hi & Hb & Hh & Hfirst). exists (S i).
        repeat split; try assumption.
        intros [|k] x Hk Hx Hbx.
        -- simpl in Hx. injection Hx as <-. rewrite Hbx in E. simpl in E.
           apply String.eqb_neq. exact E.
        -- apply (Hfirst k x); [lia|exact Hx|exact Hbx].
      * intros (i & Hi & Hb & Hh & Hfirst). destruct i as [|i].
        -- simpl in Hi. injection Hi as ->. rewrite Hb in E. simpl in E.
           apply String.eqb_neq in E. contradiction.
        -- exists i. repeat split; try assumption.
           intros k x Hk Hx. apply (Hfirst (S k) x); [lia|exact Hx].
Qed.

Lemma expected_duplicates_elem files : forall earlier d o,
  (d, o) ∈ Dedup.expected_duplicates big hash_of earlier files <->
  exists j, files !! j = Some d /\ big d = true
    /\ Dedup.first_original big hash_of (earlier ++ take j files) (hash_of d) = Some o.
Proof.
  induction files as [|f files IH]; intros earlier d o.
  - simpl. split; [intros Hin; inversion Hin|]. intros (j & Hj & _). discriminate.
  - cbn [Dedup.expected_duplicates]. rewrite elem_of_app, IH. split.
    + intros [Hhead|(j & Hj & Hb & Hfirst)].
      * destruct (big f) eqn:Hbf; [|inversion Hhead].
        destruct (Dedup.first_original big hash_of earlier (hash_of f)) eqn:Hfo;
          [|inversion Hhead].
        apply list_elem_of_singleton in Hhead. injection Hhead as -> ->.
        exists O. simpl. rewrite app_nil_r. auto.
      * exists (S j). simpl. rewrite <- app_assoc in Hfirst. auto.
    + intros (j & Hj & Hb & Hfirst). destruct j as [|j].
      * left. simpl in Hj. injection Hj as ->. simpl in Hfirst.
        rewrite app_nil_r in Hfirst. rewrite Hb, Hfirst. left.
      * right. exists j. simpl in Hj, Hfirst. rewrite <- app_assoc. auto.
Qed.

End ExpectedFacts.

(** The pairs do not depend on what the hash of a file below the floor
    would be: such a file is passed over before any hash is taken. *)
Lemma small_files_are_not_hashed (big : string -> bool)
    (hash1 hash2 : string -> string) files : forall earlier,
  (forall f, big f = true -> hash1 f = hash2 f) ->
  Dedup.expected_duplicates big hash1 earlier files
  = Dedup.expected_duplicates big hash2 earlier files.
Proof.
  intros earlier Hsame. revert earlier.
  assert (Hfirst : forall l h,
    Dedup.first_original big hash1 l h = Dedup.first_original big hash2 l h).
  { induction l as [|g l IH]; intros h; simpl; [reflexivity|].
    destruct (big g) eqn:Hg; simpl; [rewrite (Hsame g Hg)|]; rewrite IH;
      reflexivity. }
  induction files as [|f files IH]; intros earlier; simpl; [reflexivity|].
  rewrite IH. destruct (big f) eqn:Hf; [|reflexivity].
  rewrite (Hsame f Hf), Hfirst. reflexivity.
Qed.

Section ScanFacts.

Context {H : Type}.
Variable md5_new : H.
Variable md5_update : H -> string -> H.
Variable hexdigest : H -> string.
Variable files_dir : string.
Variable fs : gmap string string.

Abbreviation hashed := (Dedup.hashed files_dir fs).
Abbreviation md5_of := (Dedup.md5_of md5_new md5_update hexdigest files_dir fs).

Lemma scan_files_expected files : forall earlier seen dups,
  (forall h, seen !! h = Dedup.first_original hashed md5_of earlier h) ->
  snd (Inquiry.scan_files md5_new md5_update hexdigest files_dir files fs seen dups)
  = dups ++ Dedup.expected_duplicates hashed md5_of earlier files.
Proof.
  induction files as [|f files IH]; intros earlier seen dups Hinv.
  - simpl. rewrite app_nil_r. reflexivity.
  - cbn [Inquiry.scan_files Dedup.expected_duplicates].
    fold (md5_of f). unfold Dedup.hashed at 1.
    destruct (Py.getsize fs (Py.os_path_join files_dir f) <? 100) eqn:Hsize;
      cbn [negb].
    + rewrite (IH (earlier ++ [f]) seen dups); [reflexivity|].
      intros h. rewrite first_original_snoc, <- Hinv.
      unfold Dedup.hashed at 1. rewrite Hsize. simpl. destruct (seen !! h); reflexivity.
    + pose proof (Hinv (md5_of f)) as Hf.
      destruct (seen !! md5_of f) as [original|] eqn:Hseen; rewrite <- Hf.
      * rewrite (IH (earlier ++ [f]) seen (dups ++ [(f, original)])).
        { rewrite <- app_assoc. reflexivity. }
        intros h. rewrite first_original_snoc, <- Hinv.
        destruct (seen !! h) eqn:Hh; [reflexivity|].
        destruct (String.eqb_spec (md5_of f) h) as [<-|_];
          [congruence|rewrite andb_false_r; reflexivity].
      * rewrite (IH (earlier ++ [f]) (<[md5_of f := f]> seen) dups); [reflexivity|].
        intros h. rewrite first_original_snoc, <- Hinv.
        unfold Dedup.hashed at 1. rewrite Hsize. cbn [negb andb].
        destruct (String.eqb_spec (md5_of f) h) as [<-|Hne].
        -- rewrite lookup_insert_eq, Hseen. reflexivity.
        -- rewrite lookup_insert_ne by exact Hne. destruct (seen !! h); reflexivity.
Qed.

Lemma deduplicate_files_reports listing confirm :
  fst (Inquiry.deduplicate_files md5_new md5_update hexdigest files_dir
         listing confirm fs)
  = Dedup.expected_duplicates hashed md5_of []
      (filter (fun f => Py.exists_ fs (Py.os_path_join files_dir f) = true) listing).
Proof.
  unfold Inquiry.deduplicate_files.
  set (files := filter _ listing).
  pose proof (scan_files_expected files [] ∅ [] (fun h => lookup_empty h)) as Hscan.
  destruct (Inquiry.scan_files md5_new md5_update hexdigest files_dir files fs ∅ [])
    as [seen duplicates]. simpl in Hscan. subst duplicates.
  destruct (Dedup.expected_duplicates hashed md5_of [] files); [reflexivity|].
  destruct (String.eqb (Py.lower confirm) "y"); reflexivity.
Qed.

End ScanFacts.



(** On that directory the scan reports the second copy against the first,
    and nothing else. *)
Example folder_scan :
  fst (Inquiry.deduplicate_files Dedup.keep_new Dedup.keep_update
         Dedup.keep_digest "out/files" ["a.pdf"; "c.pdf"; "b.pdf"] "n"
         Dedup.folder)
  = [("b.pdf", "a.pdf")].
Proof. vm_compute. reflexivity. Qed.

(** ** Page size *)



(** With page size -5 the index step runs, with page size 1. *)
Example run_with_negative_page_size :
  Cninfo.run Cninfo.no_int Cninfo.any_date Cninfo.fixed_date 0 "index" None None
    (Cninfo.PyInt (-5)) None None (Some 3)
  = Cninfo.Proceeds "2026-01-01" "2026-01-01" (Some 1).
Proof. reflexivity. Qed.

(** ** Helpers: time stamps and file names *)

Lemma prefix_app_l needle : forall a b,
  String.prefix needle a = true -> String.prefix needle (a +:+ b) = true.
Proof.
  induction needle as [|c needle IH]; intros a b Hp.
  - destruct (a +:+ b); reflexivity.
  - destruct a as [|x a]; [discriminate Hp|].
    simpl in Hp. change (String x a +:+ b) with (String x (a +:+ b)). simpl.
    destruct (Ascii.ascii_dec c x); [apply IH; exact Hp|discriminate Hp].
Qed.

Lemma contains_app_l needle a : forall b,
  Py.contains needle a = true -> Py.contains needle (a +:+ b) = true.
Proof.
  induction a as [|x a IH]; intros b Hc.
  - cbn [Py.contains] in Hc. rewrite orb_false_r in Hc.
    destruct needle; [|discriminate Hc].
    change ("" +:+ b) with b. destruct b; reflexivity.
  - cbn [Py.contains] in Hc. apply orb_true_iff in Hc as [Hp|Hc].
    + pose proof (prefix_app_l needle (String x a) b Hp) as Hp'.
      change (String x a +:+ b) with (String x (a +:+ b)) in *.
      cbn [Py.contains]. rewrite Hp'. reflexivity.
    + change (String x a +:+ b) with (String x (a +:+ b)).
      cbn [Py.contains]. rewrite (IH b Hc). apply orb_true_r.
Qed.

Lemma contains_app_r needle a : forall b,
  Py.contains needle b = true -> Py.contains needle (a +:+ b) = true.
Proof.
  induction a as [|x a IH]; intros b Hc; [exact Hc|].
  change (String x a +:+ b) with (String x (a +:+ b)).
  cbn [Py.contains]. rewrite (IH b Hc). apply orb_true_r.
Qed.

(** X1.  [format_time] is idempotent: a value it has produced, and more
    generally any value that already holds a space, passes through
    unchanged whatever the flag; and it returns the empty string only for
    the empty string. *)
Theorem format_time_idempotent (date_str : string) (is_end again : bool) :
  Util.format_time (Util.format_time date_str is_end) again
  = Util.format_time date_str is_end
  /\ (Util.format_time date_str is_end = "" <-> date_str = "")
  /\ (if Py.contains " " date_str
      then Util.format_time date_str is_end = date_str
      else True).
Proof.
  unfold Util.format_time.
  destruct (String.eqb_spec date_str "") as [->|Hne].
  { simpl. repeat split; reflexivity. }
  destruct (Py.contains " " date_str) eqn:Hsp; cbn [negb].
  - destruct (String.eqb_spec date_str "") as [He|_]; [contradiction|].
    rewrite Hsp. cbn [negb]. repeat split; try reflexivity; intros; congruence.
  - set (suffix := if is_end then " 23:59:59" else " 00:00:00").
    assert (Hs : Py.contains " " (date_str +:+ suffix) = true).
    { apply contains_app_r. destruct is_end; reflexivity. }
    assert (Hn : date_str +:+ suffix <> "").
    { destruct date_str as [|c d]; [contradiction|discriminate]. }
    destruct (String.eqb_spec (date_str +:+ suffix) "") as [He|_]; [contradiction|].
    rewrite Hs. cbn [negb]. repeat split; try reflexivity; intros; congruence.
Qed.

Lemma filter_all_true {A : Type} (P : A -> Prop) `{forall x, Decision (P x)}
    (l : list A) :
  Forall P l -> filter P l = l.
Proof.
  induction 1 as [|x l Hx Hl IH]; [reflexivity|].
  rewrite filter_cons_True by exact Hx. rewrite IH. reflexivity.
Qed.

(** X2.  [safe_filename] returns at most [max_len] characters, none of them
    one of the eleven forbidden ones; it leaves a text that is already short
    and clean as it is, so applying it twice changes nothing more. *)
Theorem safe_filename_is_clean_and_idempotent (text : list N) (max_len : nat) :
  (length (Util.safe_filename text max_len) <= max_len)%nat
  /\ Forall (fun c => Util.forbidden c = false) (Util.safe_filename text max_len)
  /\ Util.safe_filename (Util.safe_filename text max_len) max_len
     = Util.safe_filename text max_len
  /\ (if bool_decide (Forall (fun c => Util.forbidden c = false) text
                      /\ (length text <= max_len)%nat)
      then Util.safe_filename text max_len = text else True).
Proof.
  unfold Util.safe_filename.
  assert (Hclean : Forall (fun c => Util.forbidden c = false)
                     (take max_len (filter (fun c => Util.forbidden c = false) text))).
  { apply Forall_take, Forall_forall. intros c Hc.
    apply list_elem_of_filter in Hc as [Hc _]. exact Hc. }
  split; [rewrite length_take; lia|]. split; [exact Hclean|]. split.
  - rewrite (filter_all_true _ _ Hclean), take_take, Nat.min_id. reflexivity.
  - case_bool_decide as Hd; [|exact I]. destruct Hd as [Hall Hlen].
    rewrite (filter_all_true _ _ Hall). apply take_ge. exact Hlen.
Qed.

(** ** Merging result files *)
Section MergeFacts.

Context {Item : Type}.
Variable url_of : Item -> option string.
Variable load : string -> option (list Item).

Abbreviation merge_inv := (Merge.merge_inv url_of load).

(** The entries of [data] that the loop reaches: those with no entry
    before them on which the test raises. *)
Abbreviation reached data it :=
  (exists pre post, data = pre ++ it :: post
                    /\ Forall (fun x => url_of x <> None) pre).

Lemma merge_items_inv from f whole data : forall seen all_data,
  f ∈ from -> load f = Some whole -> (forall it, it ∈ data -> it ∈ whole) ->
  merge_inv from seen all_data ->
  merge_inv from (fst (Merge.merge_items url_of data seen all_data))
    (snd (Merge.merge_items url_of data seen all_data))
  /\ (forall u, u ∈ seen -> u ∈ fst (Merge.merge_items url_of data seen all_data))
  /\ (forall it u, reached data it -> url_of it = Some u -> u <> "" ->
        u ∈ fst (Merge.merge_items url_of data seen all_data)).
Proof.
  induction data as [|item data IH]; intros seen all_data Hf Hload Hsub Hinv.
  - simpl. split; [exact Hinv|]. split; [auto|].
    intros it u (pre & post & Heq & _). destruct pre; discriminate Heq.
  - cbn [Merge.merge_items].
    assert (Hsub' : forall it, it ∈ data -> it ∈ whole)
      by (intros it Hit; apply Hsub; right; exact Hit).
    assert (Hsplit : forall it, reached (item :: data) it ->
              it = item \/ (url_of item <> None /\ reached data it)).
    { intros it (pre & post & Heq & Hpre). destruct pre as [|x pre].
      - left. simpl in Heq. injection Heq as ->. reflexivity.
      - right. simpl in Heq. injection Heq as -> ->.
        apply Forall_cons in Hpre as [Hx Hpre]. split; [exact Hx|].
        exists pre, post. split; [reflexivity|exact Hpre]. }
    destruct (url_of item) as [u0|] eqn:Hitem.
    2:{ simpl. split; [exact Hinv|]. split; [auto|].
        intros it u Hr Hu _. apply Hsplit in Hr as [->|[Hne _]]; congruence. }
    destruct (String.eqb_spec u0 "") as [He|Hne]; cbn [negb andb].
    + destruct (IH seen all_data Hf Hload Hsub' Hinv) as (Hi & Hmono & Hall).
      split; [exact Hi|]. split; [exact Hmono|].
      intros it u Hr Hu Hnz. apply Hsplit in Hr as [->|[_ Hr]];
        [congruence|eapply Hall; eassumption].
    + case_bool_decide as Hin; cbn [negb].
      * destruct (IH seen all_data Hf Hload Hsub' Hinv) as (Hi & Hmono & Hall).
        split; [exact Hi|]. split; [exact Hmono|].
        intros it u Hr Hu Hnz. apply Hsplit in Hr as [->|[_ Hr]].
        -- apply Hmono. congruence.
        -- eapply Hall; eassumption.
      * destruct Hinv as (Hseen & Hnd & Hnon & Hfrom).
        assert (Hinv' : merge_inv from ({[u0]} ∪ seen) (all_data ++ [item])).
        { unfold Merge.merge_inv. rewrite fmap_app. simpl. rewrite Hitem.
          repeat split.
          - intros Hu. apply elem_of_union in Hu as [Hu|Hu].
            + apply elem_of_singleton in Hu as ->. apply elem_of_app. right. left.
            + apply elem_of_app. left. apply Hseen. exact Hu.
          - intros Hu. apply elem_of_app in Hu as [Hu|Hu].
            + apply elem_of_union. right. apply Hseen. exact Hu.
            + apply list_elem_of_singleton in Hu. injection Hu as ->.
              apply elem_of_union. left. apply elem_of_singleton. reflexivity.
          - apply NoDup_app. split; [exact Hnd|]. split.
            + intros u Hu Hu'. apply list_elem_of_singleton in Hu' as ->.
              apply Hin, Hseen. exact Hu.
            + apply NoDup_singleton.
          - apply Forall_app. split; [exact Hnon|].
            constructor; [exists u0; auto|constructor].
          - apply Forall_app. split; [exact Hfrom|]. constructor; [|constructor].
            exists f, whole. split; [exact Hf|]. split; [exact Hload|].
            apply Hsub. left. }
        destruct (IH _ _ Hf Hload Hsub' Hinv') as (Hi & Hmono & Hall).
        split; [exact Hi|]. split.
        -- intros u Hu. apply Hmono. apply elem_of_union. right. exact Hu.
        -- intros it u Hr Hu Hnz. apply Hsplit in Hr as [->|[_ Hr]].
           ++ apply Hmono. apply elem_of_union. left. apply elem_of_singleton.
              congruence.
           ++ eapply Hall; eassumption.
Qed.

Lemma merge_files_inv from files : forall seen all_data,
  (forall f, f ∈ files -> f ∈ from) ->
  merge_inv from seen all_data ->
  merge_inv from (fst (Merge.merge_files url_of load files seen all_data))
    (snd (Merge.merge_files url_of load files seen all_data))
  /\ (forall u, u ∈ seen -> u ∈ fst (Merge.merge_files url_of load files seen all_data))
  /\ (forall f data it u, f ∈ files -> load f = Some data -> reached data it ->
        url_of it = Some u -> u <> "" ->
        u ∈ fst (Merge.merge_files url_of load files seen all_data)).
Proof.
  induction files as [|jf files IH]; intros seen all_data Hsub Hinv.
  - simpl. split; [exact Hinv|]. split; [auto|].
    intros f data it u Hf. inversion Hf.
  - cbn [Merge.merge_files].
    assert (Hsub' : forall f, f ∈ files -> f ∈ from)
      by (intros f Hf; apply Hsub; right; exact Hf).
    destruct (load jf) as [data|] eqn:Hload.
    + destruct (merge_items_inv from jf data data seen all_data
                  (Hsub jf ltac:(left)) Hload (fun it H => H) Hinv)
        as (Hi & Hmono & Hall).
      destruct (Merge.merge_items url_of data seen all_data) as [seen1 all1].
      simpl in Hi, Hmono, Hall.
      destruct (IH seen1 all1 Hsub' Hi) as (Hi2 & Hmono2 & Hall2).
      split; [exact Hi2|]. split; [intros u Hu; apply Hmono2, Hmono, Hu|].
      intros f data' it u Hf Hl Hit Hu Hnz. apply elem_of_cons in Hf as [->|Hf].
      * rewrite Hload in Hl. injection Hl as <-. eapply Hmono2, Hall; eassumption.
      * eapply Hall2; eassumption.
    + destruct (IH seen all_data Hsub' Hinv) as (Hi2 & Hmono2 & Hall2).
      split; [exact Hi2|]. split; [exact Hmono2|].
      intros f data' it u Hf Hl Hit Hu Hnz. apply elem_of_cons in Hf as [->|Hf].
      * congruence.
      * eapply Hall2; eassumption.
Qed.

End MergeFacts.



Lemma filter_none {A : Type} (P : A -> Prop) `{forall x, Decision (P x)}
    (l : list A) :
  (forall x, x ∈ l -> ~ P x) -> filter P l = [].
Proof.
  induction l as [|x l IH]; intros Hno; [reflexivity|].
  rewrite filter_cons_False by (apply Hno; left).
  apply IH. intros y Hy. apply Hno. right. exact Hy.
Qed.

(** X4.  No path that holds the word "merged" is read by
    [sse_search_merge]: the merged file of an earlier run is never merged
    into itself, and when the data directory itself has "merged" in its
    path nothing is merged at all, whatever result files it holds. *)
Theorem merged_paths_are_never_read
  (Item : Type) (url_of : Item -> option string)
  (load : string -> option (list Item))
  (sorted : list string -> list string) (data_dir : string)
  (names : list string) :
  (forall l, sorted l ≡ₚ l) ->
  (forall n, n ∈ names -> Py.startswith n "/" = false) ->
  (forall f, f ∈ Merge.target_files sorted data_dir names ->
     Py.contains "merged" f = false)
  /\ (if Py.contains "merged" data_dir
      then Merge.sse_search_merge url_of load sorted data_dir names = None
      else True).
Proof.
  intros Hperm Hrel. split.
  - intros f Hf. unfold Merge.target_files in Hf. rewrite Hperm in Hf.
    apply list_elem_of_filter in Hf as [Hf _]. exact Hf.
  - destruct (Py.contains "merged" data_dir) eqn:Hdir; [|exact I].
    unfold Merge.sse_search_merge, Merge.target_files.
    rewrite filter_none.
    + pose proof (Hperm []) as Hnil. apply Permutation_nil_r in Hnil.
      rewrite Hnil. reflexivity.
    + intros f Hf. apply list_elem_of_In, in_map_iff in Hf as (n & <- & Hn).
      apply list_elem_of_In in Hn. unfold Py.os_path_join.
      rewrite (Hrel n Hn).
      destruct (String.eqb data_dir "" || Py.endswith data_dir "/");
        rewrite contains_app_l by exact Hdir; discriminate.
Qed.

Lemma merged_paths_are_never_read_witness :
  (forall f, f ∈ Merge.target_files Merge.as_listed "out/merged"
               ["kw_2024.json"; "kw_2023.json"] ->
     Py.contains "merged" f = false)
  /\ (if Py.contains "merged" "out/merged"
      then Merge.sse_search_merge Merge.sample_url
             Merge.sample_load Merge.as_listed "out/merged"
             ["kw_2024.json"; "kw_2023.json"] = None
      else True).
Proof.
  apply (merged_paths_are_never_read (string * string) Merge.sample_url
           Merge.sample_load
           Merge.as_listed "out/merged" ["kw_2024.json"; "kw_2023.json"]).
  - intros l. reflexivity.
  - intros n Hn.
    apply elem_of_cons in Hn as [->|Hn]; [reflexivity|].
    apply elem_of_cons in Hn as [->|Hn]; [reflexivity|inversion Hn].
Defined.

(** ** The request budget of the inquiry drain *)

Section InquiryBudget.

Context {Item Rec : Type}.
Variable net : nat -> Z -> Inquiry.page_reply Item.
Variable parse : Item -> option Rec.
Variable max_pages : option Z.

(** With a page count that is a number, every request either ends the
    drain, or uses up one of the five failures allowed in a row, or moves
    to the next page. *)
Lemma inquiry_loop_returns (total_pages : Z) fuel : forall page errors acc i,
  0 <= errors <= 4 ->
  5 * Z.max 0 (total_pages - page) + (5 - errors) <= Z.of_nat fuel ->
  exists acc' n,
    Inquiry.search_loop net parse (Some total_pages) max_pages fuel page errors
      acc i = (Some acc', n)
    /\ Z.of_nat n - Z.of_nat i <= 5 * Z.max 0 (total_pages - page) + (5 - errors).
Proof.
  induction fuel as [|fuel IH]; intros page errors acc i Herr Hfuel; [lia|].
  cbn [Inquiry.search_loop].
  assert (Hfail : forall acc0,
    exists acc' n,
      (if 5 <=? errors + 1 then (Some acc0, S i)
       else Inquiry.search_loop net parse (Some total_pages) max_pages fuel page
              (errors + 1) acc0 (S i)) = (Some acc', n)
      /\ Z.of_nat n - Z.of_nat i <= 5 * Z.max 0 (total_pages - page) + (5 - errors)).
  { intros acc0. destruct (Z.leb_spec 5 (errors + 1)) as [Hge|Hlt].
    - exists acc0, (S i). split; [reflexivity|lia].
    - destruct (IH page (errors + 1) acc0 (S i) ltac:(lia) ltac:(lia))
        as (acc' & n & Hrun & Hn).
      exists acc', n. split; [exact Hrun|lia]. }
  destruct (net i page) as [|[[|r results]|]|handled]; try apply Hfail.
  - exists acc, (S i). split; [reflexivity|lia].
  - destruct (Z.leb_spec total_pages page) as [Hlast|Hmore].
    + eexists _, (S i). split; [reflexivity|lia].
    + assert (Hnext : exists acc' n,
        Inquiry.search_loop net parse (Some total_pages) max_pages fuel (page + 1) 0
          (acc ++ omap parse (r :: results)) (S i) = (Some acc', n)
        /\ Z.of_nat n - Z.of_nat i
           <= 5 * Z.max 0 (total_pages - page) + (5 - errors)).
      { destruct (IH (page + 1) 0 (acc ++ omap parse (r :: results)) (S i)
                    ltac:(lia) ltac:(lia)) as (acc' & n & Hrun & Hn).
        exists acc', n. split; [exact Hrun|lia]. }
      destruct max_pages as [m|]; [|exact Hnext].
      destruct (negb (m =? 0) && (m <=? page)); [|exact Hnext].
      eexists _, (S i). split; [reflexivity|lia].
Qed.

(** With a page count that is no number, a page that arrives with entries
    resets the failure counter before the comparison raises, so that the
    counter never passes 1: as long as such pages arrive the same page is
    requested again, and its entries are added again. *)
Lemma inquiry_loop_without_page_count fuel : forall page errors acc i,
  (forall j, exists r results, net j page = Inquiry.PageBody (Some (r :: results))) ->
  fst (Inquiry.search_loop net parse None max_pages fuel page errors acc i) = None.
Proof.
  induction fuel as [|fuel IH]; intros page errors acc i Hpages; [reflexivity|].
  cbn [Inquiry.search_loop].
  destruct (Hpages i) as (r & results & ->).
  change (5 <=? 0 + 1) with false. cbv iota. apply IH. exact Hpages.
Qed.

End InquiryBudget.


(** ** Accounting of the batch downloads *)
Section BatchFacts.

Context {St : Type}.

Lemma inquiry_attempts_log (get : string -> St -> Inquiry.response * St)
    page_url url filepath remaining : forall attempt (fs : gmap string string) st,
  (length (snd (Inquiry.download_attempts get page_url remaining attempt url
                  filepath fs st)) <= 2 * remaining)%nat.
Proof.
  induction remaining as [|remaining IH]; intros attempt fs st; [simpl; lia|].
  cbn [Inquiry.download_attempts].
  assert (Hlog : length (snd (Inquiry.attempt_download get page_url url filepath fs st)) = 2%nat).
  { unfold Inquiry.attempt_download.
    destruct (get page_url st) as [r0 st1]. destruct (get url st1) as [resp st2].
    destruct resp as [e|ctype content]; [reflexivity|].
    destruct (Py.contains "text/html" ctype && (Py.len content <? 10000));
      [reflexivity|].
    destruct (Py.getsize (<[filepath:=content]> fs) filepath <? 1000); reflexivity. }
  destruct (Inquiry.attempt_download get page_url url filepath fs st)
    as [[[[e|] fs1] st1] log1]; simpl in Hlog.
  - destruct (attempt =? Inquiry.max_retries)%nat; [simpl; lia|].
    specialize (IH (S attempt) fs1 st1).
    destruct (Inquiry.download_attempts get page_url remaining (S attempt) url
                filepath fs1 st1) as [[[res fs2] st2] log2].
    simpl in *. rewrite length_app. lia.
  - simpl. lia.
Qed.

(** One call of the inquiry [_download_file]: "跳过" comes without a
    request, anything else with at most six (three passes, each with the
    cookie visit and the download). *)
Lemma inquiry_download_requests (get : string -> St -> Inquiry.response * St)
    page_url files_dir url filename (fs : gmap string string) st :
  match Inquiry._download_file get page_url files_dir url filename fs st with
  | ((ok, msg), _, _, log) =>
    (length log <= 6)%nat
    /\ (ok = true -> msg = "跳过" \/ msg = "成功")
    /\ (msg = "跳过" -> log = [])
  end.
Proof.
  unfold Inquiry._download_file.
  assert (Hloop : forall fs0,
    match Inquiry.download_attempts get page_url Inquiry.max_retries 1 url
            (Py.os_path_join files_dir filename) fs0 st with
    | ((ok, msg), _, _, log) =>
      (length log <= 6)%nat
      /\ (ok = true -> msg = "跳过" \/ msg = "成功")
      /\ (msg = "跳过" -> log = [])
    end).
  { intros fs0.
    pose proof (inquiry_attempts_log get page_url url
                  (Py.os_path_join files_dir filename) Inquiry.max_retries 1 fs0 st)
      as Hlen.
    unfold Inquiry.max_retries in *. cbn [Inquiry.download_attempts] in *.
    repeat match goal with
    | |- context [Inquiry.attempt_download ?g ?p ?u ?f ?a ?b] =>
      destruct (Inquiry.attempt_download g p u f a b) as [[[[?|] ?] ?] ?];
        cbn [Nat.eqb] in *
    end; simpl in *; (split; [lia|]);
      (split; [intros Hok; try discriminate Hok; auto|intros Hm; discriminate Hm]). }
  destruct (Py.exists_ fs (Py.os_path_join files_dir filename)); [|apply Hloop].
  destruct (1000 <? Py.getsize fs (Py.os_path_join files_dir filename));
    [|apply Hloop].
  simpl. split; [lia|]. split; auto.
Qed.

End BatchFacts.

Lemma inquiry_batch_accounting {St : Type}
    (get : string -> St -> Inquiry.response * St) page_url files_dir tasks :
  forall t (fs : gmap string string) st,
  match Inquiry.download_batch get page_url files_dir tasks t fs st with
  | (t', _, _, log) =>
    (Inquiry.success t' + Inquiry.skip t' + Inquiry.fail t'
     = Inquiry.success t + Inquiry.skip t + Inquiry.fail t + length tasks)%nat
    /\ (Inquiry.success t <= Inquiry.success t')%nat
    /\ (Inquiry.fail t <= Inquiry.fail t')%nat
    /\ (length (Inquiry.failed_files t') + Inquiry.fail t
        = length (Inquiry.failed_files t) + Inquiry.fail t')%nat
    /\ (length log + 6 * (Inquiry.success t + Inquiry.fail t)
        <= 6 * (Inquiry.success t' + Inquiry.fail t'))%nat
  end.
Proof.
  induction tasks as [|[u fn] tasks IH]; intros t fs st.
  - simpl. lia.
  - cbn [Inquiry.download_batch].
    pose proof (inquiry_download_requests get page_url files_dir u fn fs st) as Hone.
    destruct (Inquiry._download_file get page_url files_dir u fn fs st)
      as [[[[ok msg] fs1] st1] log1].
    destruct Hone as (Hlen & Hmsg & Hskip).
    destruct ok; [destruct (Hmsg eq_refl) as [->| ->]|].
    + rewrite (Hskip eq_refl). change (Py.contains "跳过" "跳过") with true.
      cbv iota.
      match goal with
      | |- context [Inquiry.download_batch _ _ _ tasks ?t1 fs1 st1] =>
        specialize (IH t1 fs1 st1);
        destruct (Inquiry.download_batch get page_url files_dir tasks t1 fs1 st1)
          as [[[t2 fs2] st2] log2]
      end.
      simpl in *. lia.
    + change (Py.contains "跳过" "成功") with false. cbv iota.
      match goal with
      | |- context [Inquiry.download_batch _ _ _ tasks ?t1 fs1 st1] =>
        specialize (IH t1 fs1 st1);
        destruct (Inquiry.download_batch get page_url files_dir tasks t1 fs1 st1)
          as [[[t2 fs2] st2] log2]
      end.
      simpl in *. rewrite length_app. lia.
    + cbv iota.
      match goal with
      | |- context [Inquiry.download_batch _ _ _ tasks ?t1 fs1 st1] =>
        specialize (IH t1 fs1 st1);
        destruct (Inquiry.download_batch get page_url files_dir tasks t1 fs1 st1)
          as [[[t2 fs2] st2] log2]
      end.
      simpl in *. rewrite length_app in *. simpl in *. lia.
Qed.

(** X6.  [download_from_json] accounts for every record that carries a
    URL exactly once: success + skip + fail is their number, one failure
    line is kept per failure, the requests made are at most six per item
    that was not skipped, and whenever something failed the failure log is
    overwritten with the failure lines joined by line feeds. *)
Theorem download_from_json_accounts_for_every_task
  (St : Type) (get : string -> St -> Inquiry.response * St)
  (page_url files_dir output_dir : string) (results : list Inquiry.record)
  (fs : gmap string string) (st : St) :
  match Inquiry.download_from_json get page_url files_dir output_dir results fs st with
  | (t, fs', _, log) =>
    (Inquiry.success t + Inquiry.skip t + Inquiry.fail t
     = length (filter (fun r => Inquiry.has_url r = true) results))%nat
    /\ length (Inquiry.failed_files t) = Inquiry.fail t
    /\ (length log <= 6 * (Inquiry.success t + Inquiry.fail t))%nat
    /\ (if (0 <? Inquiry.fail t)%nat
        then fs' !! Py.os_path_join output_dir "download_failed.txt"
             = Some (String.concat Py.nl (Inquiry.failed_files t))
        else True)
  end.
Proof.
  unfold Inquiry.download_from_json.
  pose proof (inquiry_batch_accounting get page_url files_dir
    (map (fun r => (Inquiry.url r, Inquiry.local_filename r))
       (filter (fun r => Inquiry.has_url r = true) results))
    {| Inquiry.success := 0; Inquiry.skip := 0; Inquiry.fail := 0;
       Inquiry.failed_files := [] |} fs st) as Hacc.
  destruct (Inquiry.download_batch _ _ _ _ _ fs st) as [[[t fs1] st1] log].
  simpl in Hacc. rewrite length_map in Hacc.
  destruct Hacc as (Hsum & _ & _ & Hfail & Hlog).
  destruct (Inquiry.failed_files t) as [|line lines] eqn:Hff.
  - simpl in Hfail. rewrite Hff. split; [lia|]. split; [simpl; lia|].
    split; [lia|]. replace (Inquiry.fail t) with O by lia. exact I.
  - rewrite Hff. simpl in Hfail. split; [lia|]. split; [simpl; lia|].
    split; [lia|].
    destruct (Nat.ltb_spec 0 (Inquiry.fail t)) as [_|Hz]; [|exact I].
    apply lookup_insert_eq.
Qed.

(** ** The index download of cninfo: accounting and re-runs *)
Section IndexFacts.

Context {St : Type}.
Variable get : string -> St -> Cninfo.reply * St.
Variable strip : string -> string.
Variable build : Cninfo.record -> string.
Variable files_dir : string.

Lemma valid_above_frame floor (fs fs' : gmap string string) p :
  fs' !! p = fs !! p ->
  Artifact.valid_above floor fs' p = Artifact.valid_above floor fs p.
Proof.
  intros Heq. unfold Artifact.valid_above, Py.exists_, Py.getsize.
  rewrite Heq. reflexivity.
Qed.

(** One call of the cninfo [_download_file]: at most [max_retries]
    requests, no other path touched, and on success a valid target. *)
Lemma cninfo_attempts_frame url save_path max_retries remaining :
  forall attempt err (fs : gmap string string) st,
  match Cninfo.download_attempts get remaining attempt max_retries err url
          save_path fs st with
  | ((ok, _), fs', _, log) =>
    (length log <= remaining)%nat
    /\ (forall q, q <> save_path -> fs' !! q = fs !! q)
    /\ (ok = true -> Artifact.valid_above 1024 fs' save_path = true)
  end.
Proof.
  induction remaining as [|remaining IH]; intros attempt err fs st.
  - simpl. split; [lia|]. split; [reflexivity|discriminate].
  - cbn [Cninfo.download_attempts].
    destruct (get url st) as [resp st1].
    assert (Hcont : forall err1 fs1,
      (forall q, q <> save_path -> fs1 !! q = fs !! q) ->
      match (let '(res, fs2, st2, log) :=
               Cninfo.download_attempts get remaining (S attempt) max_retries
                 err1 url save_path fs1 st1 in (res, fs2, st2, url :: log)) with
      | ((ok, _), fs', _, log) =>
        (length log <= S remaining)%nat
        /\ (forall q, q <> save_path -> fs' !! q = fs !! q)
        /\ (ok = true -> Artifact.valid_above 1024 fs' save_path = true)
      end).
    { intros err1 fs1 Hfr. specialize (IH (S attempt) err1 fs1 st1).
      destruct (Cninfo.download_attempts get remaining (S attempt) max_retries
                  err1 url save_path fs1 st1) as [[[[ok msg] fs2] st2] log2].
      destruct IH as (Hlen & Hfr2 & Hok). simpl. split; [lia|].
      split; [|exact Hok]. intros q Hq. rewrite Hfr2 by exact Hq. apply Hfr, Hq. }
    destruct resp as [|e|status ctype content];
      try (apply Hcont; reflexivity).
    destruct (status =? 200).
    + destruct (Py.contains "text/html" (Py.lower ctype)
                && (Py.len content <? 50000)
                && Py.contains "<html" (Py.lower (Py.take 2000 content)));
        [apply Hcont; reflexivity|].
      destruct (1024 <? Py.getsize (<[save_path:=content]> fs) save_path) eqn:Hbig.
      * simpl. split; [lia|]. split.
        -- intros q Hq. apply lookup_insert_ne. congruence.
        -- intros _. unfold Artifact.valid_above, Py.exists_.
           rewrite lookup_insert_eq, Hbig. reflexivity.
      * apply Hcont. intros q Hq.
        rewrite lookup_delete_ne by congruence. apply lookup_insert_ne. congruence.
    + destruct ((status =? 404) || (status =? 410)); [|apply Hcont; reflexivity].
      simpl. split; [lia|]. split; [reflexivity|discriminate].
Qed.

(** The first loop only adds rows with status [skip]; what it adds does
    not depend on the rows and tasks it starts from. *)
Lemma select_tasks_shape (fs : gmap string string) records : forall seen,
  exists R T,
    (forall rows tasks,
       Cninfo.select_tasks strip build files_dir records fs seen rows tasks
       = (rows ++ R, tasks ++ T))
    /\ (length R + length T = length records)%nat
    /\ Forall (fun row => Cninfo.status row = "skip") R.
Proof.
  induction records as [|r records IH]; intros seen.
  - exists [], []. split; [intros; rewrite !app_nil_r; reflexivity|].
    split; [reflexivity|constructor].
  - cbn [Cninfo.select_tasks].
    assert (Hrow : forall seen' row, Cninfo.status row = "skip" ->
      exists R T,
        (forall rows tasks,
           Cninfo.select_tasks strip build files_dir records fs seen'
             (rows ++ [row]) tasks = (rows ++ R, tasks ++ T))
        /\ (length R + length T = S (length records))%nat
        /\ Forall (fun row => Cninfo.status row = "skip") R).
    { intros seen' row Hrow. destruct (IH seen') as (R & T & Heq & Hlen & Hall).
      exists (row :: R), T. split.
      - intros rows tasks. rewrite Heq, <- app_assoc. reflexivity.
      - split; [simpl; lia|constructor; assumption]. }
    destruct (negb _ && bool_decide _); [apply Hrow; reflexivity|].
    destruct (String.eqb (strip _) ""); [apply Hrow; reflexivity|].
    destruct (Py.exists_ fs _ && (1024 <? Py.getsize fs _));
      [apply Hrow; reflexivity|].
    match goal with
    | |- context [Cninfo.select_tasks _ _ _ records fs ?seen' _ (_ ++ [?task])] =>
      destruct (IH seen') as (R & T & Heq & Hlen & Hall);
      exists R, (task :: T)
    end.
    split.
    + intros rows tasks. rewrite Heq, <- app_assoc. reflexivity.
    + split; [simpl; lia|assumption].
Qed.

(** The second loop adds one row per task, [success] or [fail], and makes
    at most three requests per task; when none of its rows says [fail],
    every target is valid afterwards and what was valid before still is. *)
Lemma run_tasks_shape tasks : forall rows (fs : gmap string string) st,
  match Cninfo.run_tasks get tasks rows fs st with
  | (rows', fs', _, log) =>
    exists RT,
      rows' = rows ++ RT
      /\ length RT = length tasks
      /\ Forall (fun row => Cninfo.status row = "success"
                            \/ Cninfo.status row = "fail") RT
      /\ (length log
          <= 3 * length (filter (fun row => Cninfo.status row <> "skip") RT))%nat
      /\ (Forall (fun row => Cninfo.status row <> "fail") RT ->
          (forall task, task ∈ tasks ->
             Artifact.valid_above 1024 fs' (Artifact.task_path task) = true)
          /\ (forall q, Artifact.valid_above 1024 fs q = true ->
                Artifact.valid_above 1024 fs' q = true))
  end.
Proof.
  induction tasks as [|[[[record url] local_filename] save_path] tasks IH];
    intros rows fs st.
  - simpl. exists []. rewrite app_nil_r. repeat split; try constructor; auto.
    intros task Ht. inversion Ht.
  - cbn [Cninfo.run_tasks]. unfold Cninfo._download_file.
    pose proof (cninfo_attempts_frame url save_path 3 3 O "" fs st) as Hone.
    destruct (Cninfo.download_attempts get 3 0 3 "" url save_path fs st)
      as [[[[ok msg] fs1] st1] log1].
    destruct Hone as (Hlen1 & Hframe & Hok).
    match goal with
    | |- context [Cninfo.run_tasks get tasks (rows ++ [?row]) fs1 st1] =>
      set (row0 := row);
      specialize (IH (rows ++ [row0]) fs1 st1);
      destruct (Cninfo.run_tasks get tasks (rows ++ [row0]) fs1 st1)
        as [[[rows2 fs2] st2] log2]
    end.
    destruct IH as (RT & -> & HlenRT & Hst & Hlog & Hvalid).
    exists (row0 :: RT). split; [rewrite <- app_assoc; reflexivity|].
    split; [simpl; lia|]. split.
    { constructor; [|exact Hst]. subst row0. destruct ok; simpl; auto. }
    split.
    { rewrite length_app, filter_cons_True.
      - simpl. lia.
      - subst row0. destruct ok; simpl; discriminate. }
    intros Hnofail. apply Forall_cons in Hnofail as [Hrow Hrest].
    assert (ok = true) as ->.
    { destruct ok; [reflexivity|]. exfalso. apply Hrow. reflexivity. }
    destruct (Hvalid Hrest) as (Htasks & Hkeep).
    assert (Hstep : forall q, Artifact.valid_above 1024 fs q = true ->
                              Artifact.valid_above 1024 fs1 q = true).
    { intros q Hq. destruct (decide (q = save_path)) as [->|Hne].
      - apply Hok. reflexivity.
      - rewrite (valid_above_frame 1024 fs fs1 q (Hframe q Hne)). exact Hq. }
    split.
    + intros task Ht. apply elem_of_cons in Ht as [->|Ht].
      * apply Hkeep. simpl. apply Hok. reflexivity.
      * apply Htasks. exact Ht.
    + intros q Hq. apply Hkeep, Hstep, Hq.
Qed.

End IndexFacts.

Lemma count_status_total (rows : list Cninfo.report_row) :
  Forall (fun row => Cninfo.status row = "success" \/ Cninfo.status row = "fail"
                     \/ Cninfo.status row = "skip") rows ->
  (Cninfo.count_status "success" rows + Cninfo.count_status "fail" rows
   + Cninfo.count_status "skip" rows = length rows)%nat.
Proof.
  unfold Cninfo.count_status.
  induction 1 as [|row rows Hrow Hrows IH]; [reflexivity|].
  rewrite !filter_cons.
  destruct Hrow as [Hs|[Hs|Hs]];
    repeat case_decide; try congruence; simpl; lia.
Qed.

(** X7.  [download_from_index] returns without a report only for an empty
    index; otherwise the report has exactly one row per record of the
    index, each with status success, fail or skip, so that the three
    counters it prints add up to the number of records, and it makes at most
    three requests for each record that is not skipped. *)
Theorem download_from_index_accounts_for_every_record
  (St : Type) (get : string -> St -> Cninfo.reply * St)
  (strip : string -> string) (build : Cninfo.record -> string)
  (files_dir : string) (records : list Cninfo.record)
  (fs : gmap string string) (st : St) :
  match Cninfo.download_from_index get strip build files_dir records fs st with
  | None => records = []
  | Some (rows, _, _, log) =>
    length rows = length records
    /\ (Cninfo.count_status "success" rows + Cninfo.count_status "fail" rows
        + Cninfo.count_status "skip" rows = length records)%nat
    /\ (length log
        <= 3 * length (filter (fun row => Cninfo.status row <> "skip") rows))%nat
  end.
Proof.
  unfold Cninfo.download_from_index.
  destruct records as [|r0 records]; [reflexivity|].
  destruct (select_tasks_shape strip build files_dir fs (r0 :: records) ∅)
    as (R & T & Heq & Hlen & Hskip).
  rewrite (Heq [] []). cbn [app].
  pose proof (run_tasks_shape get T R fs st) as Hrun.
  destruct (Cninfo.run_tasks get T R fs st) as [[[rows fs'] st'] log].
  destruct Hrun as (RT & -> & HlenRT & Hst & Hlog & _).
  assert (Hlenrows : length (R ++ RT) = length (r0 :: records))
    by (rewrite length_app; lia).
  split; [exact Hlenrows|]. split.
  - rewrite <- Hlenrows. apply count_status_total, Forall_app. split.
    + eapply Forall_impl; [exact Hskip|]. simpl. auto.
    + eapply Forall_impl; [exact Hst|]. simpl. intros row [H|H]; auto.
  - rewrite filter_app, (filter_none _ R), app_nil_l; [exact Hlog|].
    intros row Hrow Hne. rewrite Forall_forall in Hskip. apply Hne, Hskip, Hrow.
Qed.

Section RerunIndexFacts.

Variable strip : string -> string.
Variable build : Cninfo.record -> string.
Variable files_dir : string.

Lemma select_tasks_snd (fs : gmap string string) records seen rows tasks :
  snd (Cninfo.select_tasks strip build files_dir records fs seen rows tasks)
  = tasks ++ snd (Cninfo.select_tasks strip build files_dir records fs seen [] []).
Proof.
  destruct (select_tasks_shape strip build files_dir fs records seen)
    as (R & T & Heq & _). rewrite (Heq rows tasks), (Heq [] []). reflexivity.
Qed.

(** Once every target that the first loop would queue is valid, and what
    was valid stays so, the first loop queues nothing. *)
Lemma select_tasks_rerun (fs fs1 : gmap string string) records : forall seen,
  (forall q, Artifact.valid_above 1024 fs q = true ->
             Artifact.valid_above 1024 fs1 q = true) ->
  (forall task,
     task ∈ snd (Cninfo.select_tasks strip build files_dir records fs seen [] []) ->
     Artifact.valid_above 1024 fs1 (Artifact.task_path task) = true) ->
  exists R',
    (forall rows tasks,
       Cninfo.select_tasks strip build files_dir records fs1 seen rows tasks
       = (rows ++ R', tasks))
    /\ length R' = length records
    /\ Forall (fun row => Cninfo.status row = "skip") R'.
Proof.
  induction records as [|r records IH]; intros seen Hkeep Htasks.
  - exists []. split; [intros; rewrite app_nil_r; reflexivity|].
    split; [reflexivity|constructor].
  - cbn [Cninfo.select_tasks] in *.
    assert (Hrow : forall seen' row,
      (forall task,
         task ∈ snd (Cninfo.select_tasks strip build files_dir records fs seen' [] []) ->
         Artifact.valid_above 1024 fs1 (Artifact.task_path task) = true) ->
      Cninfo.status row = "skip" ->
      exists R',
        (forall rows tasks,
           Cninfo.select_tasks strip build files_dir records fs1 seen'
             (rows ++ [row]) tasks = (rows ++ R', tasks))
        /\ length R' = S (length records)
        /\ Forall (fun row => Cninfo.status row = "skip") R').
    { intros seen' row Ht Hrow. destruct (IH seen' Hkeep Ht) as (R' & Heq & Hlen & Hall).
      exists (row :: R'). split.
      - intros rows tasks. rewrite Heq, <- app_assoc. reflexivity.
      - split; [simpl; lia|constructor; assumption]. }
    destruct (negb _ && bool_decide _).
    { apply Hrow; [|reflexivity]. intros task Ht. apply Htasks.
      rewrite select_tasks_snd. exact Ht. }
    destruct (String.eqb (strip _) "").
    { apply Hrow; [|reflexivity]. intros task Ht. apply Htasks.
      rewrite select_tasks_snd. exact Ht. }
    fold (Artifact.valid_above 1024 fs
            (Py.os_path_join files_dir (build r))) in *.
    fold (Artifact.valid_above 1024 fs1
            (Py.os_path_join files_dir (build r))).
    destruct (Artifact.valid_above 1024 fs (Py.os_path_join files_dir (build r)))
      eqn:Hv.
    + rewrite (Hkeep _ Hv). apply Hrow; [|reflexivity].
      intros task Ht. apply Htasks. rewrite select_tasks_snd. exact Ht.
    + rewrite select_tasks_snd in Htasks.
      assert (Hv1 : Artifact.valid_above 1024 fs1
                      (Py.os_path_join files_dir (build r)) = true).
      { apply (Htasks (r, strip (Cninfo.py_or (Cninfo.download_url_static r)
                                   (Cninfo.adjunct_url r)),
                       build r, Py.os_path_join files_dir (build r))).
        apply elem_of_app. left. left. }
      rewrite Hv1. apply Hrow; [|reflexivity].
      intros task Ht. apply Htasks. apply elem_of_app. right. exact Ht.
Qed.

End RerunIndexFacts.



(** ** URLs *)

Lemma lstrip_slash_no_slash s : Py.startswith (Urls.lstrip_slash s) "/" = false.
Proof.
  induction s as [|c s IH]; [reflexivity|].
  cbn [Urls.lstrip_slash]. destruct (Ascii.eqb c "/") eqn:Hc; [exact IH|].
  unfold Py.startswith.
  change (String.prefix "/" (String c s))
    with (if Ascii.ascii_dec "/" c then String.prefix "" s else false).
  destruct (Ascii.ascii_dec "/" c) as [<-|_]; [|reflexivity].
  rewrite Ascii.eqb_refl in Hc. discriminate Hc.
Qed.

(** X9.  Both record builders turn a link into an absolute one.  In
    [SSEInquiriesScraper._parse_item] the completed [doc_url] is empty only
    for an empty link and otherwise starts with "http", and completing it
    again changes nothing.  In [_normalize_record] the static download URL
    is empty only for an empty [adjunct_url] and otherwise starts with
    "http"; a relative one is placed under https://static.cninfo.com.cn/
    with its leading slashes removed. *)
Theorem record_urls_are_absolute (doc_url adjunct_url : string) :
  (if String.eqb doc_url "" then Urls.complete_doc_url doc_url = ""
   else Py.startswith (Urls.complete_doc_url doc_url) "http" = true)
  /\ Urls.complete_doc_url (Urls.complete_doc_url doc_url)
     = Urls.complete_doc_url doc_url
  /\ (if String.eqb adjunct_url "" then Urls.download_url_static_of adjunct_url = ""
      else Py.startswith (Urls.download_url_static_of adjunct_url) "http" = true)
  /\ (if Py.startswith adjunct_url "http" then True
      else if String.eqb adjunct_url "" then True
      else exists rest,
        Urls.download_url_static_of adjunct_url
        = "https://static.cninfo.com.cn/" +:+ rest
        /\ Py.startswith rest "/" = false).
Proof.
  assert (Hdoc : if String.eqb doc_url "" then Urls.complete_doc_url doc_url = ""
                 else Py.startswith (Urls.complete_doc_url doc_url) "http" = true).
  { unfold Urls.complete_doc_url.
    destruct (String.eqb_spec doc_url "") as [->|Hne]; [reflexivity|].
    cbn [negb andb].
    destruct (Py.startswith doc_url "http") eqn:Hh; cbn [negb]; [exact Hh|].
    destruct (Py.startswith doc_url "www."); [reflexivity|].
    destruct (Py.startswith doc_url "/"); reflexivity. }
  split; [exact Hdoc|]. split.
  { destruct (String.eqb_spec doc_url "") as [->|Hne]; [reflexivity|].
    unfold Urls.complete_doc_url at 1. rewrite Hdoc.
    rewrite andb_false_r. reflexivity. }
  unfold Urls.download_url_static_of.
  destruct (String.eqb_spec adjunct_url "") as [->|Hne]; cbn [negb andb].
  { repeat split; reflexivity. }
  destruct (Py.startswith adjunct_url "http") eqn:Hh; [split; [exact Hh|exact I]|].
  split; [reflexivity|].
  exists (Urls.lstrip_slash adjunct_url). split; [reflexivity|].
  apply lstrip_slash_no_slash.
Qed.

Lemma secured_is_https u :
  Py.startswith u "http" = true ->
  Py.startswith (Urls.secured u) "http" = true
  /\ Py.startswith (Urls.secured u) "http://" = false.
Proof.
  intros Hh. unfold Urls.secured.
  destruct (Py.startswith u "http://") eqn:Hs; [split; reflexivity|].
  split; assumption.
Qed.

Lemma unique_urls_inv urls : forall (seen : gset string) uniq,
  (forall u, u ∈ seen <-> u ∈ uniq) -> NoDup uniq ->
  NoDup (Urls.unique_urls urls seen uniq)
  /\ (forall v, v ∈ Urls.unique_urls urls seen uniq <->
        v ∈ uniq \/ exists u, u ∈ urls /\ Py.startswith u "http" = true
                              /\ v = Urls.secured u).
Proof.
  induction urls as [|u urls IH]; intros seen uniq Hseen Hnd.
  - simpl. split; [exact Hnd|]. intros v. split; [auto|].
    intros [Hv|(u & Hu & _)]; [exact Hv|inversion Hu].
  - cbn [Urls.unique_urls]. fold (Urls.secured u).
    destruct (Py.startswith u "http") eqn:Hh; cbn [negb].
    + case_bool_decide as Hin.
      * destruct (IH seen uniq Hseen Hnd) as (Hnd' & Hel). split; [exact Hnd'|].
        intros v. rewrite Hel. split.
        -- intros [Hv|(u' & Hu' & Hh' & ->)]; [auto|].
           right. exists u'. split; [right; exact Hu'|auto].
        -- intros [Hv|(u' & Hu' & Hh' & ->)]; [auto|].
           apply elem_of_cons in Hu' as [->|Hu'].
           ++ left. apply Hseen. exact Hin.
           ++ right. exists u'. auto.
      * destruct (IH ({[Urls.secured u]} ∪ seen) (uniq ++ [Urls.secured u]))
          as (Hnd' & Hel).
        { intros v. rewrite elem_of_union, elem_of_singleton, elem_of_app,
            list_elem_of_singleton, Hseen. tauto. }
        { apply NoDup_app. split; [exact Hnd|]. split; [|apply NoDup_singleton].
          intros v Hv Hv'. apply list_elem_of_singleton in Hv' as ->.
          apply Hin, Hseen, Hv. }
        split; [exact Hnd'|]. intros v. rewrite Hel, elem_of_app,
          list_elem_of_singleton. split.
        -- intros [[Hv| ->]|(u' & Hu' & Hh' & ->)]; [auto| |].
           ++ right. exists u. split; [left|auto].
           ++ right. exists u'. split; [right; exact Hu'|auto].
        -- intros [Hv|(u' & Hu' & Hh' & ->)]; [auto|].
           apply elem_of_cons in Hu' as [->|Hu'].
           ++ left. right. reflexivity.
           ++ right. exists u'. auto.
    + destruct (IH seen uniq Hseen Hnd) as (Hnd' & Hel). split; [exact Hnd'|].
      intros v. rewrite Hel. split.
      * intros [Hv|(u' & Hu' & Hh' & ->)]; [auto|].
        right. exists u'. split; [right; exact Hu'|auto].
      * intros [Hv|(u' & Hu' & Hh' & ->)]; [auto|].
        apply elem_of_cons in Hu' as [->|Hu']; [congruence|].
        right. exists u'. auto.
Qed.

(** X10.  The links [download_from_excel] downloads: each one once, every
    one starting with "http" and none with "http://"; they are exactly the
    links of the column that start with "http", with a leading "http://"
    replaced by "https://", so that the http and the https form of a link
    count as the same link. *)
Theorem excel_links_are_unique_and_secured (urls : list string) :
  NoDup (Urls.unique_urls urls ∅ [])
  /\ Forall (fun v => Py.startswith v "http" = true
                      /\ Py.startswith v "http://" = false)
       (Urls.unique_urls urls ∅ [])
  /\ (forall v, v ∈ Urls.unique_urls urls ∅ [] <->
        exists u, u ∈ urls /\ Py.startswith u "http" = true /\ v = Urls.secured u).
Proof.
  destruct (unique_urls_inv urls ∅ []) as (Hnd & Hel).
  { intros u. split; intros Hu; [apply not_elem_of_empty in Hu; contradiction|inversion Hu]. }
  { constructor. }
  assert (Hchar : forall v, v ∈ Urls.unique_urls urls ∅ [] <->
    exists u, u ∈ urls /\ Py.startswith u "http" = true /\ v = Urls.secured u).
  { intros v. rewrite Hel. split; [|auto]. intros [Hv|Hv]; [inversion Hv|exact Hv]. }
  split; [exact Hnd|]. split; [|exact Hchar].
  apply Forall_forall. intros v Hv. apply Hchar in Hv as (u & _ & Hh & ->).
  apply secured_is_https. exact Hh.
Qed.

(** ** Building the cninfo index *)
Section IndexBuildFacts.

Context {Item : Type}.
Variable net : nat -> Z -> CninfoIndex.page_reply Item.
Variable normalize : Item -> Cninfo.record.
Variable max_pages max_results : option Z.

(** The two accumulators stay in step, the keys stay pairwise different
    and not empty. *)
Lemma add_page_keys announcements : forall all_records (seen_keys : gset string),
  (forall k, k ∈ seen_keys <-> k ∈ CninfoIndex.uniq_key <$> all_records) ->
  NoDup (CninfoIndex.uniq_key <$> all_records) ->
  Forall (fun r => CninfoIndex.uniq_key r <> "") all_records ->
  match CninfoIndex.add_page normalize max_results announcements all_records seen_keys with
  | (all', seen') =>
    (forall k, k ∈ seen' <-> k ∈ CninfoIndex.uniq_key <$> all')
    /\ NoDup (CninfoIndex.uniq_key <$> all')
    /\ Forall (fun r => CninfoIndex.uniq_key r <> "") all'
  end.
Proof.
  induction announcements as [|item rest IH]; intros all seen Hseen Hnd Hne.
  - simpl. auto.
  - cbn [CninfoIndex.add_page].
    destruct (String.eqb_spec (CninfoIndex.uniq_key (normalize item)) "") as [He|Hkey];
      cbn [orb]; [apply IH; assumption|].
    case_bool_decide as Hin; [apply IH; assumption|].
    assert (Hseen' : forall k,
      k ∈ {[CninfoIndex.uniq_key (normalize item)]} ∪ seen <->
      k ∈ CninfoIndex.uniq_key <$> all ++ [normalize item]).
    { intros k. rewrite fmap_app, elem_of_union, elem_of_singleton, elem_of_app,
        Hseen. simpl. rewrite list_elem_of_singleton. tauto. }
    assert (Hnd' : NoDup (CninfoIndex.uniq_key <$> all ++ [normalize item])).
    { rewrite fmap_app. apply NoDup_app. split; [exact Hnd|].
      split; [|apply NoDup_singleton].
      intros k Hk Hk'. apply list_elem_of_singleton in Hk' as ->.
      apply Hin, Hseen, Hk. }
    assert (Hne' : Forall (fun r => CninfoIndex.uniq_key r <> "")
                     (all ++ [normalize item])).
    { apply Forall_app. split; [exact Hne|]. constructor; [exact Hkey|constructor]. }
    destruct (CninfoIndex.reached max_results _); [auto|].
    apply IH; assumption.
Qed.

(** With a positive [max_results], a page never takes the list beyond it. *)
Lemma add_page_cap m announcements : forall all_records (seen_keys : gset string),
  max_results = Some m -> 0 < m ->
  Z.of_nat (length all_records) < m ->
  Z.of_nat (length (fst (CninfoIndex.add_page normalize max_results announcements
                          all_records seen_keys))) <= m.
Proof.
  intros all seen Hm Hpos. revert all seen.
  induction announcements as [|item rest IH]; intros all seen Hlen.
  - simpl. lia.
  - cbn [CninfoIndex.add_page].
    destruct (String.eqb _ "" || bool_decide _); [apply IH; exact Hlen|].
    destruct (CninfoIndex.reached max_results
                (Z.of_nat (length (all ++ [normalize item])))) eqn:Hr.
    + simpl. rewrite length_app. simpl. lia.
    + apply IH. rewrite Hm in Hr. unfold CninfoIndex.reached in Hr.
      destruct (Z.eqb_spec m 0); [lia|]. simpl in Hr.
      apply Z.leb_gt in Hr. exact Hr.
Qed.

Lemma index_loop_keys fuel : forall page_no all_records (seen_keys : gset string) i
    result n,
  (forall k, k ∈ seen_keys <-> k ∈ CninfoIndex.uniq_key <$> all_records) ->
  NoDup (CninfoIndex.uniq_key <$> all_records) ->
  Forall (fun r => CninfoIndex.uniq_key r <> "") all_records ->
  CninfoIndex.index_loop net normalize max_pages max_results fuel page_no
    all_records seen_keys i = (Some result, n) ->
  NoDup (CninfoIndex.uniq_key <$> result)
  /\ Forall (fun r => CninfoIndex.uniq_key r <> "") result.
Proof.
  induction fuel as [|fuel IH]; intros page all seen i result n Hseen Hnd Hne Hrun;
    [discriminate Hrun|].
  cbn [CninfoIndex.index_loop] in Hrun.
  destruct (net i page) as [|[|item rest] has_more];
    try (injection Hrun as <- <-; auto; fail).
  pose proof (add_page_keys (item :: rest) all seen Hseen Hnd Hne) as Hpage.
  destruct (CninfoIndex.add_page normalize max_results (item :: rest) all seen)
    as [all' seen'].
  destruct Hpage as (Hseen' & Hnd' & Hne').
  destruct (CninfoIndex.reached max_results _); [injection Hrun as <- <-; auto|].
  destruct (CninfoIndex.reached max_pages page); [injection Hrun as <- <-; auto|].
  destruct (negb has_more); [injection Hrun as <- <-; auto|].
  eapply IH; eassumption.
Qed.

Lemma index_loop_cap m fuel : forall page_no all_records (seen_keys : gset string) i
    result n,
  max_results = Some m -> 0 < m ->
  Z.of_nat (length all_records) < m ->
  CninfoIndex.index_loop net normalize max_pages max_results fuel page_no
    all_records seen_keys i = (Some result, n) ->
  Z.of_nat (length result) <= m.
Proof.
  induction fuel as [|fuel IH]; intros page all seen i result n Hm Hpos Hlen Hrun;
    [discriminate Hrun|].
  cbn [CninfoIndex.index_loop] in Hrun.
  destruct (net i page) as [|[|item rest] has_more];
    try (injection Hrun as <- <-; lia).
  pose proof (add_page_cap m (item :: rest) all seen Hm Hpos Hlen) as Hcap.
  destruct (CninfoIndex.add_page normalize max_results (item :: rest) all seen)
    as [all' seen']. simpl in Hcap.
  destruct (CninfoIndex.reached max_results (Z.of_nat (length all'))) eqn:Hr;
    [injection Hrun as <- <-; exact Hcap|].
  assert (Hlt : Z.of_nat (length all') < m).
  { rewrite Hm in Hr. unfold CninfoIndex.reached in Hr.
    destruct (Z.eqb_spec m 0); [lia|]. simpl in Hr. apply Z.leb_gt in Hr. exact Hr. }
  destruct (CninfoIndex.reached max_pages page); [injection Hrun as <- <-; lia|].
  destruct (negb has_more); [injection Hrun as <- <-; lia|].
  eapply IH; eassumption.
Qed.

Lemma index_loop_pages p fuel : forall page_no all_records (seen_keys : gset string) i,
  max_pages = Some p -> 1 <= page_no <= p ->
  p - page_no + 1 <= Z.of_nat fuel ->
  exists result n,
    CninfoIndex.index_loop net normalize max_pages max_results fuel page_no
      all_records seen_keys i = (Some result, n)
    /\ Z.of_nat n - Z.of_nat i <= p - page_no + 1.
Proof.
  induction fuel as [|fuel IH]; intros page all seen i Hp Hpage Hfuel; [lia|].
  cbn [CninfoIndex.index_loop].
  destruct (net i page) as [|[|item rest] has_more];
    try (eexists _, (S i); split; [reflexivity|lia]).
  destruct (CninfoIndex.add_page normalize max_results (item :: rest) all seen)
    as [all' seen'].
  destruct (CninfoIndex.reached max_results _);
    [eexists _, (S i); split; [reflexivity|lia]|].
  destruct (CninfoIndex.reached max_pages page) eqn:Hr;
    [eexists _, (S i); split; [reflexivity|lia]|].
  destruct (negb has_more); [eexists _, (S i); split; [reflexivity|lia]|].
  assert (Hlt : page < p).
  { rewrite Hp in Hr. unfold CninfoIndex.reached in Hr.
    destruct (Z.eqb_spec p 0); [lia|]. simpl in Hr. apply Z.leb_gt in Hr. exact Hr. }
  destruct (IH (page + 1) all' seen' (S i) Hp ltac:(lia) ltac:(lia))
    as (result & n & Hrun & Hn).
  exists result, n. split; [exact Hrun|lia].
Qed.

End IndexBuildFacts.

(** X11.  Whatever the pages hold, the index [search_and_build_index]
    returns has no two records with the same key (announcement id, or
    download URL when there is no id), no record without key, and, when
    [max_results] is positive, at most [max_results] records. *)
Theorem index_has_unique_keys_within_limit
  (Item : Type) (net : nat -> Z -> CninfoIndex.page_reply Item)
  (normalize : Item -> Cninfo.record) (max_pages max_results : option Z)
  (fuel : nat) (all_records : list Cninfo.record) (requests : nat) :
  CninfoIndex.search_and_build_index net normalize max_pages max_results fuel
  = (Some all_records, requests) ->
  NoDup (CninfoIndex.uniq_key <$> all_records)
  /\ Forall (fun r => CninfoIndex.uniq_key r <> "") all_records
  /\ match max_results with
     | Some m => if 0 <? m then Z.of_nat (length all_records) <= m else True
     | None => True
     end.
Proof.
  unfold CninfoIndex.search_and_build_index. intros Hrun.
  destruct (index_loop_keys net normalize max_pages max_results fuel 1 [] ∅ O
              all_records requests) as (Hnd & Hne); [| | |exact Hrun|].
  - intros k. split; intros Hk; [apply not_elem_of_empty in Hk; contradiction|inversion Hk].
  - constructor.
  - constructor.
  - split; [exact Hnd|]. split; [exact Hne|].
    destruct max_results as [m|] eqn:Hm; [|exact I].
    destruct (Z.ltb_spec 0 m) as [Hpos|_]; [|exact I].
    rewrite <- Hm in Hrun.
    eapply (index_loop_cap net normalize max_pages max_results m);
      [exact Hm|exact Hpos| |exact Hrun]. simpl. lia.
Qed.

Lemma index_has_unique_keys_within_limit_witness :
  let all_records :=
    CninfoIndex.record_of_id <$> ["a"; "b"; "0"; "1"] in
  NoDup (CninfoIndex.uniq_key <$> all_records)
  /\ Forall (fun r => CninfoIndex.uniq_key r <> "") all_records
  /\ match Some 4 with
     | Some m => if 0 <? m then Z.of_nat (length all_records) <= m else True
     | None => True
     end.
Proof.
  apply (index_has_unique_keys_within_limit string CninfoIndex.endless
           CninfoIndex.record_of_id None (Some 4) 5
           (CninfoIndex.record_of_id <$> ["a"; "b"; "0"; "1"]) 2).
  vm_compute. reflexivity.
Defined.

(** X12.  With a positive [max_pages], [search_and_build_index] returns
    after at most [max_pages] requests, even when the service announces
    more pages without end. *)
Theorem index_stops_at_max_pages
  (Item : Type) (net : nat -> Z -> CninfoIndex.page_reply Item)
  (normalize : Item -> Cninfo.record) (max_results : option Z) (p : Z) :
  0 < p ->
  exists all_records requests,
    CninfoIndex.search_and_build_index net normalize (Some p) max_results
      (Z.to_nat p) = (Some all_records, requests)
    /\ Z.of_nat requests <= p.
Proof.
  intros Hp. unfold CninfoIndex.search_and_build_index.
  destruct (index_loop_pages net normalize (Some p) max_results p (Z.to_nat p)
              1 [] ∅ O eq_refl ltac:(lia) ltac:(lia)) as (result & n & Hrun & Hn).
  exists result, n. split; [exact Hrun|lia].
Qed.

Lemma index_stops_at_max_pages_witness :
  exists all_records requests,
    CninfoIndex.search_and_build_index CninfoIndex.endless
      CninfoIndex.record_of_id (Some 3) None (Z.to_nat 3)
    = (Some all_records, requests)
    /\ Z.of_nat requests <= 3.
Proof.
  apply (index_stops_at_max_pages string CninfoIndex.endless
           CninfoIndex.record_of_id None 3).
  lia.
Defined.

(** ** The year-by-year driver *)

Lemma years_down_last y : Driver.years_down y y = [y].
Proof.
  unfold Driver.years_down. replace (y - y + 1) with 1 by lia. simpl.
  f_equal. lia.
Qed.

Lemma years_down_step v y : y < v ->
  Driver.years_down v y = v :: Driver.years_down (v - 1) y.
Proof.
  intros Hlt. unfold Driver.years_down.
  replace (Z.to_nat (v - y + 1)) with (S (Z.to_nat (v - 1 - y + 1))) by lia.
  cbn [seq map]. f_equal; [lia|].
  rewrite <- seq_shift, map_map. apply map_ext. intros k. lia.
Qed.

Section DriverFacts.

Variable total_found : Z -> Z.
Variables curr y : Z.

Hypothesis streak_in_range : y + 2 <= curr.
Hypothesis empty_0 : total_found y <= 0.
Hypothesis empty_1 : total_found (y + 1) <= 0.
Hypothesis empty_2 : total_found (y + 2) <= 0.
Hypothesis first_streak : forall z, y < z -> z + 2 <= curr ->
  0 < total_found z \/ 0 < total_found (z + 1) \/ 0 < total_found (z + 2).

Lemma crawl_years_to_streak fuel : forall v c,
  y <= v <= curr -> fuel = Z.to_nat (v - y + 1) ->
  0 <= c <= 2 ->
  (forall j, 1 <= j <= c -> v + j <= curr /\ total_found (v + j) <= 0) ->
  (c < 2 -> curr < v + c + 1 \/ 0 < total_found (v + c + 1)) ->
  Driver.crawl_years total_found fuel v c = Some (Driver.years_down v y).
Proof.
  induction fuel as [|fuel IH]; intros v c Hv Hfuel Hc Hrun Hexact; [lia|].
  cbn [Driver.crawl_years]. unfold Driver.SSE_SEARCH_MAX_EMPTY_YEARS.
  destruct (Z.ltb_spec 0 (total_found v)) as [Hpos|Hempty].
  - (* records this year: the streak is reset *)
    assert (Hvy : y < v) by (destruct (Z.eq_dec v y) as [->|]; lia).
    change (3 <=? 0) with false. cbv iota.
    rewrite (IH (v - 1) 0); [rewrite <- years_down_step by exact Hvy; reflexivity
                            |lia|lia|lia|intros j Hj; lia|].
    intros _. right. replace (v - 1 + 0 + 1) with v by lia. exact Hpos.
  - destruct (Z.eq_dec v y) as [->|Hne].
    + (* the third empty year *)
      assert (c = 2) as ->.
      { destruct (Z.lt_ge_cases c 2) as [Hlt|Hge]; [|lia].
        exfalso. destruct (Hexact Hlt) as [Hout|Hpos]; [lia|].
        assert (c = 0 \/ c = 1) as [-> | ->] by lia.
        - replace (y + 0 + 1) with (y + 1) in Hpos by lia. lia.
        - replace (y + 1 + 1) with (y + 2) in Hpos by lia. lia. }
      change (3 <=? 2 + 1) with true. cbv iota. rewrite years_down_last. reflexivity.
    + assert (Hvy : y < v) by lia.
      assert (Hc1 : c <= 1).
      { destruct (Z.le_gt_cases c 1) as [Hle|Hgt]; [exact Hle|]. exfalso.
        assert (c = 2) as -> by lia.
        destruct (Hrun 1 ltac:(lia)) as [_ H1].
        destruct (Hrun 2 ltac:(lia)) as [H2r H2].
        destruct (first_streak v Hvy H2r) as [H|[H|H]]; lia. }
      destruct (Z.leb_spec 3 (c + 1)) as [Hge|_]; [lia|].
      rewrite (IH (v - 1) (c + 1)); [rewrite <- years_down_step by exact Hvy; reflexivity
                                    |lia|lia|lia| |].
      * intros j Hj. destruct (Z.eq_dec j 1) as [->|Hj1].
        -- replace (v - 1 + 1) with v by lia. lia.
        -- replace (v - 1 + j) with (v + (j - 1)) by lia. apply Hrun. lia.
      * intros Hlt. assert (c = 0) as -> by lia.
        replace (v - 1 + (0 + 1) + 1) with (v + 0 + 1) by lia. apply Hexact. lia.
Qed.

End DriverFacts.

(** X13.  The driver of [cmd_sse_search] crawls the years from the current
    one downwards and stops at the first year that completes three empty
    years in a row: when y, y+1 and y+2 are empty and no year after y
    starts such a run, the years crawled are exactly curr, curr-1, ..., y.
    One or two empty years between years with records do not stop it. *)
Theorem crawl_stops_at_first_empty_streak
  (total_found : Z -> Z) (curr y : Z) :
  y + 2 <= curr ->
  total_found y <= 0 -> total_found (y + 1) <= 0 -> total_found (y + 2) <= 0 ->
  (forall z, y < z -> z + 2 <= curr ->
     0 < total_found z \/ 0 < total_found (z + 1) \/ 0 < total_found (z + 2)) ->
  Driver.crawl_years total_found (Z.to_nat (curr - y + 1)) curr 0
  = Some (Driver.years_down curr y).
Proof.
  intros Hrange H0 H1 H2 Hfirst.
  apply (crawl_years_to_streak total_found curr y Hrange H0 H1 H2 Hfirst); lia.
Qed.

Lemma crawl_stops_at_first_empty_streak_witness :
  Driver.crawl_years Driver.sample_found (Z.to_nat (2024 - 2016 + 1)) 2024 0
  = Some (Driver.years_down 2024 2016).
Proof.
  apply (crawl_stops_at_first_empty_streak Driver.sample_found 2024 2016).
  - lia.
  - vm_compute. discriminate.
  - vm_compute. discriminate.
  - vm_compute. discriminate.
  - intros z Hlo Hhi.
    assert (Hz : z = 2017 \/ z = 2018 \/ z = 2019 \/ z = 2020 \/ z = 2021
                 \/ z = 2022) by lia.
    destruct Hz as [->|[->|[->|[->|[->| ->]]]]]; vm_compute; auto.
Defined.

(** ** The browser download batch *)

(** X14.  In the search download the write test and the skip test use
    different floors.  When a body that is no challenge page is accepted and
    written (it starts with %PDF or has more than 1000 bytes), the record is
    passed over by the next run only if the body has more than 3000 bytes;
    a smaller artifact is queued for download again. *)
Theorem small_artifact_is_queued_again
  (St : Type) (request_get : string -> St -> (string + string) * St)
  (goto : string -> St -> St) (files_dir : string)
  (r : SearchDownload.record) (fs : gmap string string) (st st1 : St)
  (body : string) :
  SearchDownload.url r <> "" ->
  request_get (SearchDownload.url r) st = (inr body, st1) ->
  SSESearch.is_waf body = false ->
  SSESearch.is_artifact body = true ->
  let path := Py.os_path_join files_dir (SearchDownload.local_filename r) in
  let done := SSESearch._playwright_download_file request_get goto
                (SearchDownload.url r) path fs st in
  fst (fst (fst done)) = (true, SSESearch.Bytes (Py.len body))
  /\ snd (fst (fst done)) = <[path := body]> fs
  /\ SearchDownload.select_tasks [r] files_dir (snd (fst (fst done))) []
     = (if 3000 <? Py.len body then []
        else [(SearchDownload.url r, path, SearchDownload.local_filename r)]).
Proof.
  intros Hurl Hget Hwaf Hart path done. subst done.
  unfold SSESearch._playwright_download_file. rewrite Hget, Hwaf.
  unfold SSESearch.commit. rewrite Hart. cbn [fst snd].
  split; [reflexivity|]. split; [reflexivity|].
  cbn [SearchDownload.select_tasks]. fold path.
  unfold Py.exists_. rewrite getsize_insert, lookup_insert_eq. cbn [andb].
  destruct (3000 <? Py.len body); [reflexivity|].
  destruct (String.eqb_spec (SearchDownload.url r) "") as [He|_];
    [contradiction|reflexivity].
Qed.

Lemma small_artifact_is_queued_again_witness :
  let r := {| SearchDownload.url := "https://www.sse.com.cn/doc.pdf";
              SearchDownload.local_filename := "doc.pdf" |} in
  let path := Py.os_path_join "out/files" (SearchDownload.local_filename r) in
  let done := SSESearch._playwright_download_file SSESearch.scripted_get
                SSESearch.scripted_goto (SearchDownload.url r) path ∅
                [SSESearch.pdf_body] in
  fst (fst (fst done)) = (true, SSESearch.Bytes (Py.len SSESearch.pdf_body))
  /\ snd (fst (fst done)) = <[path := SSESearch.pdf_body]> ∅
  /\ SearchDownload.select_tasks [r] "out/files" (snd (fst (fst done))) []
     = (if 3000 <? Py.len SSESearch.pdf_body then []
        else [(SearchDownload.url r, path, SearchDownload.local_filename r)]).
Proof.
  apply (small_artifact_is_queued_again (list string) SSESearch.scripted_get
           SSESearch.scripted_goto "out/files"
           {| SearchDownload.url := "https://www.sse.com.cn/doc.pdf";
              SearchDownload.local_filename := "doc.pdf" |}
           ∅ [SSESearch.pdf_body] [] SSESearch.pdf_body).
  - discriminate.
  - reflexivity.
  - vm_compute. reflexivity.
  - vm_compute. reflexivity.
Defined.

(** ** [CninfoDownloader] *)
Section CninfoBatchFacts.

Context {St Extra : Type}.
Variable get : string -> St -> Cninfo.reply * St.
Variable parse_url : string -> option CninfoBatch.params.
Variable save_path_of : CninfoBatch.row Extra -> CninfoBatch.params -> string.

Lemma batch_download_file_settled url save_path max_retries :
  forall (fs0 fs : gmap string string) st,
  (forall q, q <> save_path -> fs !! q = fs0 !! q) ->
  fs !! save_path = None \/ fs !! save_path = fs0 !! save_path ->
  match CninfoBatch.download_file get max_retries url save_path fs st with
  | (ok, fs', _, log) =>
    (length log <= max_retries)%nat
    /\ (forall q, q <> save_path -> fs' !! q = fs0 !! q)
    /\ (if ok then Artifact.valid_above 1024 fs' save_path = true
        else fs' !! save_path = None \/ fs' !! save_path = fs0 !! save_path)
  end.
Proof.
  induction max_retries as [|remaining IH]; intros fs0 fs st Hframe Hown.
  - simpl. split; [lia|]. split; assumption.
  - cbn [CninfoBatch.download_file].
    destruct (get url st) as [resp st1].
    assert (Hagain : forall fs1,
      (forall q, q <> save_path -> fs1 !! q = fs0 !! q) ->
      fs1 !! save_path = None \/ fs1 !! save_path = fs0 !! save_path ->
      match (let '(ok, fs2, st2, log) :=
               CninfoBatch.download_file get remaining url save_path fs1 st1 in
             (ok, fs2, st2, url :: log)) with
      | (ok, fs', _, log) =>
        (length log <= S remaining)%nat
        /\ (forall q, q <> save_path -> fs' !! q = fs0 !! q)
        /\ (if ok then Artifact.valid_above 1024 fs' save_path = true
            else fs' !! save_path = None \/ fs' !! save_path = fs0 !! save_path)
      end).
    { intros fs1 Hf1 Ho1. specialize (IH fs0 fs1 st1 Hf1 Ho1).
      destruct (CninfoBatch.download_file get remaining url save_path fs1 st1)
        as [[[ok fs2] st2] log2].
      destruct IH as (Hlen & Hf2 & Hout). simpl. split; [lia|]. split; assumption. }
    destruct resp as [|e|status ctype content]; try (apply Hagain; assumption).
    destruct (status =? 200).
    + destruct (SSESearch.is_pdf content || (5000 <? Py.len content));
        [|apply Hagain; assumption].
      destruct (1024 <? Py.getsize (<[save_path:=content]> fs) save_path) eqn:Hbig.
      * simpl. split; [lia|]. split.
        -- intros q Hq. rewrite lookup_insert_ne by congruence. apply Hframe, Hq.
        -- unfold Artifact.valid_above, Py.exists_.
           rewrite lookup_insert_eq, Hbig. reflexivity.
      * apply Hagain.
        -- intros q Hq. rewrite lookup_delete_ne, lookup_insert_ne by congruence.
           apply Hframe, Hq.
        -- left. apply lookup_delete_eq.
    + destruct (status =? 404); [|apply Hagain; assumption].
      simpl. split; [lia|]. split; assumption.
Qed.

Lemma try_urls_settled save_path urls : forall (fs0 fs : gmap string string) st,
  (forall q, q <> save_path -> fs !! q = fs0 !! q) ->
  fs !! save_path = None \/ fs !! save_path = fs0 !! save_path ->
  match CninfoBatch.try_urls get urls save_path fs st with
  | (ok, fs', _, log) =>
    (length log <= 3 * length urls)%nat
    /\ (forall q, q <> save_path -> fs' !! q = fs0 !! q)
    /\ (if ok then Artifact.valid_above 1024 fs' save_path = true
        else fs' !! save_path = None \/ fs' !! save_path = fs0 !! save_path)
  end.
Proof.
  induction urls as [|u urls IH]; intros fs0 fs st Hframe Hown.
  - simpl. split; [lia|]. split; assumption.
  - cbn [CninfoBatch.try_urls].
    pose proof (batch_download_file_settled u save_path 3 fs0 fs st Hframe Hown)
      as Hone.
    destruct (CninfoBatch.download_file get 3 u save_path fs st)
      as [[[ok fs1] st1] log1].
    destruct Hone as (Hlen & Hf1 & Hout). destruct ok.
    + simpl. split; [lia|]. split; assumption.
    + specialize (IH fs0 fs1 st1 Hf1 Hout).
      destruct (CninfoBatch.try_urls get urls save_path fs1 st1)
        as [[[ok2 fs2] st2] log2].
      destruct IH as (Hlen2 & Hf2 & Hout2). rewrite length_app. simpl.
      split; [lia|]. split; assumption.
Qed.

End CninfoBatchFacts.

Section BatchDiskFacts.

Context {St : Type}.
Variable get : string -> St -> Cninfo.reply * St.
Variable disk : string -> string -> St -> Disk.write_outcome.

Lemma batch_disk_download_file_settled url save_path max_retries :
  forall (fs0 fs : gmap string string) st,
  (forall q, q <> save_path -> fs !! q = fs0 !! q) ->
  fs !! save_path = None \/ fs !! save_path = fs0 !! save_path
  \/ Disk.leftover disk save_path fs ->
  match BatchDisk.download_file get disk max_retries url save_path fs st with
  | (ok, fs', _, log) =>
    (length log <= max_retries)%nat
    /\ (forall q, q <> save_path -> fs' !! q = fs0 !! q)
    /\ (if ok then Artifact.valid_above 1024 fs' save_path = true
        else fs' !! save_path = None \/ fs' !! save_path = fs0 !! save_path
             \/ Disk.leftover disk save_path fs')
  end.
Proof.
  induction max_retries as [|remaining IH]; intros fs0 fs st Hframe Hown.
  - simpl. split; [lia|]. split; assumption.
  - cbn [BatchDisk.download_file].
    destruct (get url st) as [resp st1].
    assert (Hagain : forall fs1,
      (forall q, q <> save_path -> fs1 !! q = fs0 !! q) ->
      fs1 !! save_path = None \/ fs1 !! save_path = fs0 !! save_path
      \/ Disk.leftover disk save_path fs1 ->
      match (let '(ok, fs2, st2, log) :=
               BatchDisk.download_file get disk remaining url save_path fs1 st1 in
             (ok, fs2, st2, url :: log)) with
      | (ok, fs', _, log) =>
        (length log <= S remaining)%nat
        /\ (forall q, q <> save_path -> fs' !! q = fs0 !! q)
        /\ (if ok then Artifact.valid_above 1024 fs' save_path = true
            else fs' !! save_path = None \/ fs' !! save_path = fs0 !! save_path
                 \/ Disk.leftover disk save_path fs')
      end).
    { intros fs1 Hf1 Ho1. specialize (IH fs0 fs1 st1 Hf1 Ho1).
      destruct (BatchDisk.download_file get disk remaining url save_path fs1 st1)
        as [[[ok fs2] st2] log2].
      destruct IH as (Hlen & Hf2 & Hout). simpl. split; [lia|]. split; assumption. }
    destruct resp as [|e|status ctype content]; try (apply Hagain; assumption).
    destruct (status =? 200).
    + destruct (SSESearch.is_pdf content || (5000 <? Py.len content));
        [|apply Hagain; assumption].
      destruct (disk save_path content st1) as [|n e|e] eqn:Hdisk; cbn [Disk.write].
      * destruct (1024 <? Py.getsize (<[save_path:=content]> fs) save_path) eqn:Hbig.
        -- simpl. split; [lia|]. split.
           ++ intros q Hq. rewrite lookup_insert_ne by congruence. apply Hframe, Hq.
           ++ unfold Artifact.valid_above, Py.exists_.
              rewrite lookup_insert_eq, Hbig. reflexivity.
        -- apply Hagain.
           ++ intros q Hq. rewrite lookup_delete_ne, lookup_insert_ne by congruence.
              apply Hframe, Hq.
           ++ left. apply lookup_delete_eq.
      * apply Hagain.
        -- intros q Hq. rewrite lookup_insert_ne by congruence. apply Hframe, Hq.
        -- right. right. exists content, st1, n, e.
           split; [exact Hdisk|apply lookup_insert_eq].
      * apply Hagain; assumption.
    + destruct (status =? 404); [|apply Hagain; assumption].
      simpl. split; [lia|]. split; assumption.
Qed.

Lemma batch_disk_try_urls_settled save_path urls :
  forall (fs0 fs : gmap string string) st,
  (forall q, q <> save_path -> fs !! q = fs0 !! q) ->
  fs !! save_path = None \/ fs !! save_path = fs0 !! save_path
  \/ Disk.leftover disk save_path fs ->
  match BatchDisk.try_urls get disk urls save_path fs st with
  | (ok, fs', _, log) =>
    (length log <= 3 * length urls)%nat
    /\ (forall q, q <> save_path -> fs' !! q = fs0 !! q)
    /\ (if ok then Artifact.valid_above 1024 fs' save_path = true
        else fs' !! save_path = None \/ fs' !! save_path = fs0 !! save_path
             \/ Disk.leftover disk save_path fs')
  end.
Proof.
  induction urls as [|u urls IH]; intros fs0 fs st Hframe Hown.
  - simpl. split; [lia|]. split; assumption.
  - cbn [BatchDisk.try_urls].
    pose proof (batch_disk_download_file_settled u save_path 3 fs0 fs st Hframe Hown)
      as Hone.
    destruct (BatchDisk.download_file get disk 3 u save_path fs st)
      as [[[ok fs1] st1] log1].
    destruct Hone as (Hlen & Hf1 & Hout). destruct ok.
    + simpl. split; [lia|]. split; assumption.
    + specialize (IH fs0 fs1 st1 Hf1 Hout).
      destruct (BatchDisk.try_urls get disk urls save_path fs1 st1)
        as [[[ok2 fs2] st2] log2].
      destruct IH as (Hlen2 & Hf2 & Hout2). rewrite length_app. simpl.
      split; [lia|]. split; assumption.
Qed.

(** On a disk whose writes all complete this is [CninfoBatch.download_file]. *)
Lemma batch_disk_reliable url save_path max_retries :
  forall (fs : gmap string string) st,
  BatchDisk.download_file get Disk.reliable max_retries url save_path fs st
  = CninfoBatch.download_file get max_retries url save_path fs st.
Proof.
  induction max_retries as [|remaining IH]; intros fs st; [reflexivity|].
  cbn [BatchDisk.download_file CninfoBatch.download_file].
  destruct (get url st) as [resp st1].
  destruct resp as [|e|status ctype content]; rewrite ?IH; reflexivity.
Qed.

End BatchDiskFacts.


Section CninfoRunFacts.

Context {St Extra : Type}.
Variable get : string -> St -> Cninfo.reply * St.
Variable parse_url : string -> option CninfoBatch.params.
Variable save_path_of : CninfoBatch.row Extra -> CninfoBatch.params -> string.

Lemma download_one_accounting r index s (fs : gmap string string) st :
  match CninfoBatch.download_one get parse_url save_path_of r index s fs st with
  | (s', _, _, log) =>
    (CninfoBatch.success s' + CninfoBatch.fail s' + CninfoBatch.skip s'
     = S (CninfoBatch.success s + CninfoBatch.fail s + CninfoBatch.skip s))%nat
    /\ (CninfoBatch.fail s <= CninfoBatch.fail s')%nat
    /\ (length (CninfoBatch.failed_items s') + CninfoBatch.fail s
        = length (CninfoBatch.failed_items s) + CninfoBatch.fail s')%nat
    /\ (exists new, CninfoBatch.failed_items s' = CninfoBatch.failed_items s ++ new
                    /\ Forall (fun i => i = index) new)
    /\ (length log <= 9)%nat
  end.
Proof.
  unfold CninfoBatch.download_one.
  assert (Hskip :
    (CninfoBatch.success (CninfoBatch.count_skip s)
     + CninfoBatch.fail (CninfoBatch.count_skip s)
     + CninfoBatch.skip (CninfoBatch.count_skip s)
     = S (CninfoBatch.success s + CninfoBatch.fail s + CninfoBatch.skip s))%nat
    /\ (CninfoBatch.fail s <= CninfoBatch.fail (CninfoBatch.count_skip s))%nat
    /\ (length (CninfoBatch.failed_items (CninfoBatch.count_skip s))
        + CninfoBatch.fail s
        = length (CninfoBatch.failed_items s)
          + CninfoBatch.fail (CninfoBatch.count_skip s))%nat
    /\ (exists new,
          CninfoBatch.failed_items (CninfoBatch.count_skip s)
          = CninfoBatch.failed_items s ++ new /\ Forall (fun i => i = index) new)
    /\ (@length string [] <= 9)%nat).
  { simpl. repeat split; try lia. exists []. rewrite app_nil_r. auto. }
  destruct (String.eqb (CninfoBatch.link r) ""); [exact Hskip|].
  destruct (parse_url (CninfoBatch.link r)) as [p|]; [|exact Hskip].
  destruct (String.eqb (CninfoBatch.announcementId p) ""); [exact Hskip|].
  destruct (Py.exists_ fs _ && (1024 <? Py.getsize fs _)).
  { simpl. repeat split; try lia. exists []. rewrite app_nil_r. auto. }
  pose proof (try_urls_settled get (save_path_of r p) (CninfoBatch.download_urls p)
                fs fs st (fun q _ => eq_refl) (or_intror eq_refl)) as Htry.
  destruct (CninfoBatch.try_urls get (CninfoBatch.download_urls p)
              (save_path_of r p) fs st) as [[[ok fs1] st1] log].
  destruct Htry as (Hlen & _). simpl in Hlen. destruct ok; simpl.
  - repeat split; try lia. exists []. rewrite app_nil_r. auto.
  - rewrite length_app. simpl. repeat split; try lia.
    exists [index]. auto.
Qed.

Lemma run_rows_accounting rows : forall index s (fs : gmap string string) st,
  match CninfoBatch.run_rows get parse_url save_path_of rows index s fs st with
  | (s', _, _, log) =>
    (CninfoBatch.success s' + CninfoBatch.fail s' + CninfoBatch.skip s'
     = CninfoBatch.success s + CninfoBatch.fail s + CninfoBatch.skip s
       + length rows)%nat
    /\ (CninfoBatch.fail s <= CninfoBatch.fail s')%nat
    /\ (length (CninfoBatch.failed_items s') + CninfoBatch.fail s
        = length (CninfoBatch.failed_items s) + CninfoBatch.fail s')%nat
    /\ (exists new, CninfoBatch.failed_items s' = CninfoBatch.failed_items s ++ new
                    /\ Forall (fun i => (index <= i < index + length rows)%nat) new)
    /\ (length log <= 9 * length rows)%nat
  end.
Proof.
  induction rows as [|r rows IH]; intros index s fs st.
  - simpl. repeat split; try lia. exists []. rewrite app_nil_r. auto.
  - cbn [CninfoBatch.run_rows].
    pose proof (download_one_accounting r index s fs st) as Hone.
    destruct (CninfoBatch.download_one get parse_url save_path_of r index s fs st)
      as [[[s1 fs1] st1] log1].
    specialize (IH (S index) s1 fs1 st1).
    destruct (CninfoBatch.run_rows get parse_url save_path_of rows (S index)
                s1 fs1 st1) as [[[s2 fs2] st2] log2].
    destruct Hone as (Hsum1 & Hf1 & Hl1 & (new1 & Hn1 & Hall1) & Hlog1).
    destruct IH as (Hsum2 & Hf2 & Hl2 & (new2 & Hn2 & Hall2) & Hlog2).
    rewrite length_app. simpl length. repeat split; try lia.
    exists (new1 ++ new2). split.
    + rewrite Hn2, Hn1, <- app_assoc. reflexivity.
    + apply Forall_app. split.
      * eapply Forall_impl; [exact Hall1|]. simpl. intros i ->. lia.
      * eapply Forall_impl; [exact Hall2|]. simpl. intros i Hi. lia.
Qed.

End CninfoRunFacts.

(** X16.  [CninfoDownloader.run] counts every row of the chosen range
    exactly once: starting from fresh counters, success + fail + skip is the
    number of rows between [start] and min(end, total); the list of failed
    rows has one entry per failure, each the index of a row of the range;
    and at most nine requests are made per row. *)
Theorem cninfo_run_counts_every_row
  (St Extra : Type) (get : string -> St -> Cninfo.reply * St)
  (parse_url : string -> option CninfoBatch.params)
  (save_path_of : CninfoBatch.row Extra -> CninfoBatch.params -> string)
  (sheet : list (CninfoBatch.row Extra)) (start : nat) (stop : option nat)
  (fs : gmap string string) (st : St) :
  let last := match stop with
              | Some (S n) => Nat.min (S n) (length sheet)
              | _ => length sheet
              end in
  match CninfoBatch.run get parse_url save_path_of sheet start stop
          CninfoBatch.fresh fs st with
  | (s, _, _, log) =>
    (CninfoBatch.success s + CninfoBatch.fail s + CninfoBatch.skip s
     = last - start)%nat
    /\ length (CninfoBatch.failed_items s) = CninfoBatch.fail s
    /\ Forall (fun i => (start <= i < last)%nat) (CninfoBatch.failed_items s)
    /\ (length log <= 9 * (last - start))%nat
  end.
Proof.
  intros last. unfold CninfoBatch.run.
  set (rows := drop start (take _ sheet)).
  assert (Hrows : length rows = (last - start)%nat).
  { subst rows last. rewrite length_drop, length_take.
    destruct stop as [[|n]|]; lia. }
  pose proof (run_rows_accounting get parse_url save_path_of rows start
                CninfoBatch.fresh fs st) as Hacc.
  destruct (CninfoBatch.run_rows get parse_url save_path_of rows start
              CninfoBatch.fresh fs st) as [[[s fs'] st'] log].
  destruct Hacc as (Hsum & _ & Hlen & (new & Hnew & Hall) & Hlog).
  simpl in Hsum, Hlen, Hnew. rewrite Hrows in *.
  split; [lia|]. split; [lia|]. split; [|exact Hlog].
  rewrite Hnew. eapply Forall_impl; [exact Hall|]. simpl. intros i Hi. lia.
Qed.

(** ** Deleting the duplicates *)

Lemma string_app_inv_head (a b c : string) : a +:+ b = a +:+ c -> b = c.
Proof.
  induction a as [|x a IH]; [intros Heq; exact Heq|].
  change (String x (a +:+ b) = String x (a +:+ c) -> b = c).
  intros [= Heq]. apply IH. exact Heq.
Qed.

(** Two names of a directory listing give different paths. *)
Lemma os_path_join_inj (a b c : string) :
  Py.startswith b "/" = false -> Py.startswith c "/" = false ->
  Py.os_path_join a b = Py.os_path_join a c -> b = c.
Proof.
  unfold Py.os_path_join. intros -> ->.
  destruct (String.eqb a "" || Py.endswith a "/"); intros Heq.
  - apply string_app_inv_head in Heq. exact Heq.
  - apply string_app_inv_head in Heq. apply (string_app_inv_head "/"). exact Heq.
Qed.

Section RemoveFacts.

Variable files_dir : string.

Lemma remove_duplicates_other duplicates : forall (fs : gmap string string) q,
  (forall d o, (d, o) ∈ duplicates -> q <> Py.os_path_join files_dir d) ->
  Inquiry.remove_duplicates files_dir duplicates fs !! q = fs !! q.
Proof.
  induction duplicates as [|[d o] duplicates IH]; intros fs q Hq; [reflexivity|].
  cbn [Inquiry.remove_duplicates]. rewrite IH.
  - apply lookup_delete_ne. intros Heq. apply (Hq d o); [left|]. symmetry. exact Heq.
  - intros d' o' Hin. apply (Hq d' o'). right. exact Hin.
Qed.

Lemma remove_duplicates_gone duplicates : forall (fs : gmap string string) d o,
  (d, o) ∈ duplicates ->
  Inquiry.remove_duplicates files_dir duplicates fs
    !! Py.os_path_join files_dir d = None.
Proof.
  assert (Hstay : forall l (fs : gmap string string) q,
    fs !! q = None -> Inquiry.remove_duplicates files_dir l fs !! q = None).
  { induction l as [|[d o] l IH]; intros fs q Hq; [exact Hq|].
    cbn [Inquiry.remove_duplicates]. apply IH.
    destruct (decide (Py.os_path_join files_dir d = q)) as [<-|Hne].
    - apply lookup_delete_eq.
    - rewrite lookup_delete_ne by exact Hne. exact Hq. }
  induction duplicates as [|[d' o'] duplicates IH]; intros fs d o Hin.
  - inversion Hin.
  - cbn [Inquiry.remove_duplicates].
    apply elem_of_cons in Hin as [[= <- <-]|Hin].
    + apply Hstay. apply lookup_delete_eq.
    + apply (IH _ d o). exact Hin.
Qed.

End RemoveFacts.

Section OriginalFacts.

Variable big : string -> bool.
Variable hash_of : string -> string.

(** In a listing without repetition, the file kept as original of a pair
    is not itself the duplicate of a pair, and it has the hash of its
    duplicate. *)
Lemma original_is_not_duplicate files d o :
  NoDup files ->
  (d, o) ∈ Dedup.expected_duplicates big hash_of [] files ->
  o ∈ files /\ hash_of o = hash_of d /\ o <> d
  /\ forall o', (o, o') ∉ Dedup.expected_duplicates big hash_of [] files.
Proof.
  intros Hnodup Hin.
  apply expected_duplicates_elem in Hin as (j & Hj & Hbd & Hfirst).
  cbn [app] in Hfirst.
  apply first_original_Some in Hfirst as (i & Hi & Hbo & Hh & Hmin).
  apply lookup_take_Some in Hi as [Hi Hij].
  split; [eapply list_elem_of_lookup_2; exact Hi|]. split; [exact Hh|]. split.
  - intros ->. pose proof (NoDup_lookup _ _ _ _ Hnodup Hi Hj). lia.
  - intros o' Hin'.
    apply expected_duplicates_elem in Hin' as (j' & Hj' & _ & Hfirst').
    cbn [app] in Hfirst'.
    apply first_original_Some in Hfirst' as (i' & Hi' & Hbo' & Hh' & _).
    apply lookup_take_Some in Hi' as [Hi' Hij'].
    pose proof (NoDup_lookup _ _ _ _ Hnodup Hi Hj'). subst j'.
    apply (Hmin i' o' Hij').
    + rewrite lookup_take_lt by lia. exact Hi'.
    + exact Hbo'.
    + congruence.
Qed.

End OriginalFacts.

(** X17.  [deduplicate_files] never deletes a file it keeps as original:
    for a directory listing (names without repetition, none starting with a
    slash), every reported pair (d, o) has o still on disk with its content
    and with the digest computed for d, while d is deleted when the answer
    is y (in any case) and kept otherwise; every path that is not a
    reported duplicate is untouched. *)
Theorem dedup_keeps_every_original
  (H : Type) (md5_new : H) (md5_update : H -> string -> H)
  (hexdigest : H -> string) (files_dir : string)
  (listing : list string) (confirm : string) (fs : gmap string string) :
  NoDup listing ->
  (forall f, f ∈ listing -> Py.startswith f "/" = false) ->
  match Inquiry.deduplicate_files md5_new md5_update hexdigest files_dir
          listing confirm fs with
  | (duplicates, fs') =>
    (forall d o, (d, o) ∈ duplicates ->
       (exists c, fs !! Py.os_path_join files_dir o = Some c
                  /\ fs' !! Py.os_path_join files_dir o = Some c)
       /\ Dedup.md5_of md5_new md5_update hexdigest files_dir fs o
          = Dedup.md5_of md5_new md5_update hexdigest files_dir fs d
       /\ fs' !! Py.os_path_join files_dir d
          = if String.eqb (Py.lower confirm) "y" then None
            else fs !! Py.os_path_join files_dir d)
    /\ (forall q, (forall d o, (d, o) ∈ duplicates ->
                     q <> Py.os_path_join files_dir d) ->
          fs' !! q = fs !! q)
  end.
Proof.
  intros Hnodup Hrel.
  pose proof (deduplicate_files_reports md5_new md5_update hexdigest files_dir fs
                listing confirm) as Hrep.
  unfold Inquiry.deduplicate_files in *.
  set (files := filter _ listing) in *.
  assert (Hfiles : NoDup files) by (apply NoDup_filter; exact Hnodup).
  assert (Hlisted : forall x, x ∈ files ->
            x ∈ listing /\ Py.exists_ fs (Py.os_path_join files_dir x) = true).
  { intros x Hx. apply list_elem_of_filter in Hx as [He Hx]. auto. }
  destruct (Inquiry.scan_files md5_new md5_update hexdigest files_dir files fs ∅ [])
    as [seen duplicates].
  assert (Hdups : duplicates
     = Dedup.expected_duplicates (Dedup.hashed files_dir fs)
         (Dedup.md5_of md5_new md5_update hexdigest files_dir fs) [] files).
  { destruct duplicates as [|p l]; [|destruct (String.eqb (Py.lower confirm) "y")];
      simpl in Hrep; exact Hrep. }
  clear Hrep.
  assert (Hfs' : forall fs',
     fs' = (if String.eqb (Py.lower confirm) "y"
            then Inquiry.remove_duplicates files_dir duplicates fs else fs) ->
     (forall d o, (d, o) ∈ duplicates ->
       (exists c, fs !! Py.os_path_join files_dir o = Some c
                  /\ fs' !! Py.os_path_join files_dir o = Some c)
       /\ Dedup.md5_of md5_new md5_update hexdigest files_dir fs o
          = Dedup.md5_of md5_new md5_update hexdigest files_dir fs d
       /\ fs' !! Py.os_path_join files_dir d
          = if String.eqb (Py.lower confirm) "y" then None
            else fs !! Py.os_path_join files_dir d)
    /\ (forall q, (forall d o, (d, o) ∈ duplicates ->
                     q <> Py.os_path_join files_dir d) ->
          fs' !! q = fs !! q)).
  { intros fs' ->. split.
    - intros d o Hin.
      assert (Hd : d ∈ files).
      { rewrite Hdups in Hin. apply expected_duplicates_elem in Hin
          as (j & Hj & _). eapply list_elem_of_lookup_2. exact Hj. }
      pose proof Hin as Hin0. rewrite Hdups in Hin0.
      apply (original_is_not_duplicate _ _ _ _ _ Hfiles) in Hin0
        as (Ho & Hh & Hne & Hnot).
      destruct (Hlisted o Ho) as [Hol Hoe]. unfold Py.exists_ in Hoe.
      destruct (fs !! Py.os_path_join files_dir o) as [c|] eqn:Hc; [|discriminate].
      split; [|split; [exact Hh|]].
      + exists c. split; [reflexivity|].
        destruct (String.eqb (Py.lower confirm) "y"); [|exact Hc].
        rewrite remove_duplicates_other; [exact Hc|].
        intros d' o' Hin' Heq.
        assert (Hd' : d' ∈ files).
        { rewrite Hdups in Hin'. apply expected_duplicates_elem in Hin'
            as (j & Hj & _). eapply list_elem_of_lookup_2. exact Hj. }
        apply os_path_join_inj in Heq;
          [|apply Hrel; apply Hlisted; assumption
           |apply Hrel; apply Hlisted; assumption].
        subst d'. apply (Hnot o'). rewrite <- Hdups. exact Hin'.
      + destruct (String.eqb (Py.lower confirm) "y"); [|reflexivity].
        apply (remove_duplicates_gone _ _ _ d o). exact Hin.
    - intros q Hq. destruct (String.eqb (Py.lower confirm) "y"); [|reflexivity].
      apply remove_duplicates_other. exact Hq. }
  destruct duplicates as [|p l].
  - apply Hfs'. destruct (String.eqb (Py.lower confirm) "y"); reflexivity.
  - destruct (String.eqb (Py.lower confirm) "y") eqn:Hy.
    + apply Hfs'. reflexivity.
    + apply Hfs'. reflexivity.
Qed.

Lemma dedup_keeps_every_original_witness :
  NoDup ["a.pdf"; "c.pdf"; "b.pdf"]
  /\ match Inquiry.deduplicate_files Dedup.keep_new Dedup.keep_update
             Dedup.keep_digest "out/files" ["a.pdf"; "c.pdf"; "b.pdf"] "Y"
             Dedup.folder with
     | (duplicates, fs') =>
       (forall d o, (d, o) ∈ duplicates ->
          (exists c, Dedup.folder !! Py.os_path_join "out/files" o = Some c
                     /\ fs' !! Py.os_path_join "out/files" o = Some c)
          /\ Dedup.md5_of Dedup.keep_new Dedup.keep_update Dedup.keep_digest
               "out/files" Dedup.folder o
             = Dedup.md5_of Dedup.keep_new Dedup.keep_update Dedup.keep_digest
                 "out/files" Dedup.folder d
          /\ fs' !! Py.os_path_join "out/files" d
             = if String.eqb (Py.lower "Y") "y" then None
               else Dedup.folder !! Py.os_path_join "out/files" d)
       /\ (forall q, (forall d o, (d, o) ∈ duplicates ->
                        q <> Py.os_path_join "out/files" d) ->
             fs' !! q = Dedup.folder !! q)
     end.
Proof.
  assert (Hnodup : NoDup ["a.pdf"; "c.pdf"; "b.pdf"]).
  { apply (bool_decide_unpack _). vm_compute. reflexivity. }
  split; [exact Hnodup|].
  apply (dedup_keeps_every_original string Dedup.keep_new Dedup.keep_update
           Dedup.keep_digest "out/files" ["a.pdf"; "c.pdf"; "b.pdf"] "Y"
           Dedup.folder Hnodup).
  intros f Hf. repeat (apply elem_of_cons in Hf as [->|Hf]; [reflexivity|]).
  inversion Hf.
Defined.

(** ** Reading a file in chunks *)

(** X18.  [calculate_md5] reads the file 4096 bytes at a time; for a hash
    object that follows the streaming laws of [hashlib] (feeding a then b
    is feeding their concatenation, feeding nothing changes nothing) the
    digest it returns is the digest of the whole content fed at once,
    whatever the length of the file. *)
Theorem chunked_md5_is_whole_file_md5
  (H : Type) (md5_new : H) (md5_update : H -> string -> H)
  (hexdigest : H -> string) (content : string) :
  (forall h a b, md5_update (md5_update h a) b = md5_update h (a +:+ b)) ->
  (forall h, md5_update h "" = h) ->
  Inquiry.calculate_md5 md5_new md5_update hexdigest content
  = hexdigest (md5_update md5_new content).
Proof.
  intros Happ Hempty. unfold Inquiry.calculate_md5. f_equal.
  apply (read_chunks_whole md5_update Happ Hempty). lia.
Qed.

Lemma chunked_md5_is_whole_file_md5_witness :
  Inquiry.calculate_md5 Dedup.keep_new Dedup.keep_update Dedup.keep_digest
    (Py.filler 4500)
  = Dedup.keep_digest (Dedup.keep_update Dedup.keep_new (Py.filler 4500)).
Proof.
  apply (chunked_md5_is_whole_file_md5 string Dedup.keep_new Dedup.keep_update
           Dedup.keep_digest (Py.filler 4500)).
  - intros h a b. apply string_app_assoc.
  - intros h. apply string_app_nil_r.
Defined.

(** ** The two size tests of the inquiry download *)

Section FloorFacts.

Context {St : Type}.
Variable get : string -> St -> Inquiry.response * St.
Variable page_url : string.

Lemma inquiry_attempts_request remaining attempt url filepath
    (fs : gmap string string) st :
  (2 <= length (snd (Inquiry.download_attempts get page_url (S remaining) attempt
                       url filepath fs st)))%nat.
Proof.
  cbn [Inquiry.download_attempts].
  assert (Hlog : length (snd (Inquiry.attempt_download get page_url url filepath fs st))
                 = 2%nat).
  { unfold Inquiry.attempt_download.
    destruct (get page_url st) as [r0 st1]. destruct (get url st1) as [resp st2].
    destruct resp as [e|ct c]; [reflexivity|].
    destruct (Py.contains "text/html" ct && (Py.len c <? 10000)); [reflexivity|].
    destruct (Py.getsize _ filepath <? 1000); reflexivity. }
  destruct (Inquiry.attempt_download get page_url url filepath fs st)
    as [[[[e|] fs1] st1] log1]; simpl in Hlog.
  - destruct (attempt =? Inquiry.max_retries)%nat; [simpl; lia|].
    destruct (Inquiry.download_attempts get page_url remaining (S attempt) url
                filepath fs1 st1) as [[[res fs2] st2] log2].
    simpl. rewrite length_app. lia.
  - simpl. lia.
Qed.

End FloorFacts.

(** X19.  The inquiry [_download_file] keeps a downloaded body when it
    has at least 1000 bytes but passes over an existing file only when it
    has more than 1000 bytes.  So a non-HTML body of exactly 1000 bytes is
    saved and reported as success with one pass, yet the file does not count
    as valid: [verify_and_retry] classifies its record as missing, and the
    next call of [_download_file] removes it and requests it again, leaving
    nothing at the path when that call fails. *)
Theorem thousand_byte_file_is_fetched_again
  (St : Type) (get : string -> St -> Inquiry.response * St)
  (page_url files_dir url filename ct content : string)
  (fs : gmap string string) (st st1 st2 : St) (r0 : Inquiry.response) :
  Artifact.valid_above 1000 fs (Py.os_path_join files_dir filename) = false ->
  get page_url st = (r0, st1) ->
  get url st1 = (Inquiry.Reply ct content, st2) ->
  Py.contains "text/html" ct = false ->
  Py.len content = 1000 ->
  match Inquiry._download_file get page_url files_dir url filename fs st with
  | ((ok, msg), fs1, _, log) =>
    ok = true /\ msg = "成功" /\ log = [page_url; url]
    /\ fs1 !! Py.os_path_join files_dir filename = Some content
    /\ (forall r, Inquiry.url r <> "" -> Inquiry.local_filename r = filename ->
          Inquiry.classify files_dir [r] fs1 O [] = (O, [r]))
    /\ (forall st',
          match Inquiry._download_file get page_url files_dir url filename fs1 st' with
          | ((ok2, _), fs2, _, log2) =>
            (2 <= length log2)%nat
            /\ (ok2 = false -> fs2 !! Py.os_path_join files_dir filename = None)
          end)
  end.
Proof.
  intros Hinvalid Hget1 Hget2 Hct Hlen.
  set (filepath := Py.os_path_join files_dir filename) in *.
  assert (Hpass : forall fs0,
    Inquiry.download_attempts get page_url Inquiry.max_retries 1 url filepath fs0 st
    = ((true, "成功"), <[filepath := content]> fs0, st2, [page_url; url])).
  { intros fs0. unfold Inquiry.max_retries. cbn [Inquiry.download_attempts].
    unfold Inquiry.attempt_download. rewrite Hget1, Hget2, Hct.
    cbn [andb]. rewrite getsize_insert, Hlen. reflexivity. }
  assert (Hres : exists fs0,
    Inquiry._download_file get page_url files_dir url filename fs st
    = ((true, "成功"), <[filepath := content]> fs0, st2, [page_url; url])).
  { unfold Inquiry._download_file. fold filepath.
    unfold Artifact.valid_above in Hinvalid.
    destruct (Py.exists_ fs filepath); cbn [andb] in Hinvalid.
    - rewrite Hinvalid. eexists. apply Hpass.
    - eexists. apply Hpass. }
  destruct Hres as (fs0 & ->).
  assert (Hat : (<[filepath := content]> fs0) !! filepath = Some content)
    by apply lookup_insert_eq.
  split; [reflexivity|]. split; [reflexivity|]. split; [reflexivity|].
  split; [exact Hat|]. split.
  - intros r Hurl Hname. cbn [Inquiry.classify]. unfold Inquiry.has_url.
    apply String.eqb_neq in Hurl. rewrite Hurl, Hname. cbn [negb]. fold filepath.
    unfold Py.exists_. rewrite Hat, getsize_insert, Hlen. reflexivity.
  - intros st'.
    pose proof (inquiry_download_settled get page_url files_dir url filename
                  (<[filepath := content]> fs0) st') as Hsettled.
    unfold Inquiry._download_file in *. fold filepath in Hsettled |- *.
    unfold Py.exists_ in *. rewrite Hat, getsize_insert, Hlen in *.
    change (1000 <? 1000) with false in *. cbv iota in *.
    pose proof (inquiry_attempts_request get page_url 2 1 url filepath
                  (delete filepath (<[filepath := content]> fs0)) st') as Hreq.
    change (S 2) with Inquiry.max_retries in Hreq.
    destruct (Inquiry.download_attempts get page_url Inquiry.max_retries 1 url
                filepath (delete filepath (<[filepath := content]> fs0)) st')
      as [[[[ok2 msg2] fs2] st3] log2].
    split; [exact Hreq|]. intros ->.
    destruct Hsettled as [[Hok _]|[_ [Hnone|Hnone]]];
      [discriminate Hok|exact Hnone|exact Hnone].
Qed.

Lemma thousand_byte_file_is_fetched_again_witness :
  match Inquiry._download_file
          (fun (_ : string) (st : unit) =>
             (Inquiry.Reply "application/pdf" (Py.filler 1000), st))
          "https://www.sse.com.cn/page" "out/files"
          "https://www.sse.com.cn/doc/1.pdf" "1.pdf" ∅ tt with
  | ((ok, msg), fs1, _, log) =>
    ok = true /\ msg = "成功"
    /\ log = ["https://www.sse.com.cn/page"; "https://www.sse.com.cn/doc/1.pdf"]
    /\ fs1 !! Py.os_path_join "out/files" "1.pdf" = Some (Py.filler 1000)
    /\ (forall r, Inquiry.url r <> "" -> Inquiry.local_filename r = "1.pdf" ->
          Inquiry.classify "out/files" [r] fs1 O [] = (O, [r]))
    /\ (forall st',
          match Inquiry._download_file
                  (fun (_ : string) (st : unit) =>
                     (Inquiry.Reply "application/pdf" (Py.filler 1000), st))
                  "https://www.sse.com.cn/page" "out/files"
                  "https://www.sse.com.cn/doc/1.pdf" "1.pdf" fs1 st' with
          | ((ok2, _), fs2, _, log2) =>
            (2 <= length log2)%nat
            /\ (ok2 = false -> fs2 !! Py.os_path_join "out/files" "1.pdf" = None)
          end)
  end.
Proof.
  apply (thousand_byte_file_is_fetched_again unit
           (fun (_ : string) (st : unit) =>
              (Inquiry.Reply "application/pdf" (Py.filler 1000), st))
           "https://www.sse.com.cn/page" "out/files"
           "https://www.sse.com.cn/doc/1.pdf" "1.pdf" "application/pdf"
           (Py.filler 1000) ∅ tt tt tt
           (Inquiry.Reply "application/pdf" (Py.filler 1000))).
  - reflexivity.
  - reflexivity.
  - reflexivity.
  - vm_compute. reflexivity.
  - vm_compute. reflexivity.
Defined.

(** ** The re-download of [verify_and_retry] *)

Section RetryFacts.

Context {St : Type}.
Variable get : string -> St -> Inquiry.response * St.
Variables page_url files_dir : string.

(** Against a server that delivers, one call of [_download_file] succeeds
    with at most one pass, leaves a valid file and touches no other path. *)
Lemma inquiry_download_served url filename (fs : gmap string string) st :
  Retry.serves get url ->
  match Inquiry._download_file get page_url files_dir url filename fs st with
  | ((ok, _), fs', _, log) =>
    ok = true
    /\ Artifact.valid_above 1000 fs' (Py.os_path_join files_dir filename) = true
    /\ (forall q, q <> Py.os_path_join files_dir filename -> fs' !! q = fs !! q)
    /\ (length log <= 2)%nat
  end.
Proof.
  intros Hserves. unfold Inquiry._download_file.
  set (filepath := Py.os_path_join files_dir filename).
  assert (Hpass : forall fs0,
    (forall q, q <> filepath -> fs0 !! q = fs !! q) ->
    match Inquiry.download_attempts get page_url Inquiry.max_retries 1 url
            filepath fs0 st with
    | ((ok, _), fs', _, log) =>
      ok = true /\ Artifact.valid_above 1000 fs' filepath = true
      /\ (forall q, q <> filepath -> fs' !! q = fs !! q)
      /\ (length log <= 2)%nat
    end).
  { intros fs0 Hframe. unfold Inquiry.max_retries.
    cbn [Inquiry.download_attempts]. unfold Inquiry.attempt_download.
    destruct (get page_url st) as [r0 st1].
    specialize (Hserves st1). destruct (get url st1) as [resp st2].
    simpl in Hserves. destruct resp as [e|ct c]; [contradiction|].
    destruct Hserves as [Hhtml Hlen]. rewrite Hhtml, getsize_insert.
    assert (Hfloor : (Py.len c <? 1000) = false) by (apply Z.ltb_ge; lia).
    rewrite Hfloor. split; [reflexivity|]. split.
    - unfold Artifact.valid_above, Py.exists_.
      rewrite getsize_insert, lookup_insert_eq. apply Z.ltb_lt. exact Hlen.
    - split; [|simpl; lia]. intros q Hq.
      rewrite lookup_insert_ne by congruence. apply Hframe. exact Hq. }
  destruct (Py.exists_ fs filepath) eqn:Hex.
  - destruct (1000 <? Py.getsize fs filepath) eqn:Hsize.
    + split; [reflexivity|]. split.
      * unfold Artifact.valid_above. rewrite Hex, Hsize. reflexivity.
      * split; [reflexivity|simpl; lia].
    + apply Hpass. intros q Hq. apply lookup_delete_ne. congruence.
  - apply Hpass. reflexivity.
Qed.

Lemma retry_batch_served tasks : forall success fail (fs : gmap string string) st,
  (forall u fn, (u, fn) ∈ tasks -> Retry.serves get u) ->
  match Inquiry.retry_batch get page_url files_dir tasks success fail fs st with
  | (s, f, fs', _, log) =>
    s = (success + length tasks)%nat /\ f = fail
    /\ (forall u fn, (u, fn) ∈ tasks ->
          Artifact.valid_above 1000 fs' (Py.os_path_join files_dir fn) = true)
    /\ (forall q, Artifact.valid_above 1000 fs q = true ->
          Artifact.valid_above 1000 fs' q = true)
    /\ (forall q, (forall u fn, (u, fn) ∈ tasks -> q <> Py.os_path_join files_dir fn) ->
          fs' !! q = fs !! q)
    /\ (length log <= 2 * length tasks)%nat
  end.
Proof.
  induction tasks as [|[u fn] tasks IH]; intros success fail fs st Hserved.
  - simpl. repeat split; auto; try lia. intros u fn Hin. inversion Hin.
  - cbn [Inquiry.retry_batch].
    pose proof (inquiry_download_served u fn fs st (Hserved u fn ltac:(left)))
      as Hone.
    destruct (Inquiry._download_file get page_url files_dir u fn fs st)
      as [[[[ok msg] fs1] st1] log1].
    destruct Hone as (-> & Hvalid1 & Hframe1 & Hlog1).
    specialize (IH (S success) fail fs1 st1
                  (fun u' fn' Hin => Hserved u' fn' ltac:(right; exact Hin))).
    destruct (Inquiry.retry_batch get page_url files_dir tasks (S success) fail
                fs1 st1) as [[[[s2 f2] fs2] st2] log2].
    destruct IH as (-> & -> & Hall & Hmono & Hframe & Hlog2).
    split; [simpl; lia|]. split; [reflexivity|]. split; [|split; [|split]].
    + intros u' fn' Hin. apply elem_of_cons in Hin as [[= -> ->]|Hin].
      * apply Hmono. exact Hvalid1.
      * apply (Hall u' fn'). exact Hin.
    + intros q Hq. apply Hmono.
      destruct (decide (q = Py.os_path_join files_dir fn)) as [->|Hne];
        [exact Hvalid1|].
      rewrite (valid_above_frame 1000 fs fs1 q); [exact Hq|].
      apply Hframe1. exact Hne.
    + intros q Hq. rewrite Hframe.
      * apply Hframe1. apply (Hq u fn). left.
      * intros u' fn' Hin. apply (Hq u' fn'). right. exact Hin.
    + rewrite length_app. simpl length. lia.
Qed.

End RetryFacts.

(** X20.  When the operator answers y and the server delivers every
    requested file (more than 1000 bytes, not a small HTML page),
    [verify_and_retry] reaches the clean state: after at most two passes the
    last report counts every record with a URL as valid and no gap, those
    artifacts are valid on disk, the failure log is absent, and at most two
    requests were made per gap.  No target path may be the failure log
    itself. *)
Theorem verify_retry_reaches_clean_state
  (St : Type) (get : string -> St -> Inquiry.response * St)
  (page_url files_dir output_dir answer : string) (later : list string)
  (records : list Inquiry.record) (fs : gmap string string) (st : St) :
  String.eqb (Py.lower answer) "y" = true ->
  (forall r, r ∈ records -> Inquiry.has_url r = true ->
     Retry.serves get (Inquiry.url r)) ->
  (forall r, r ∈ records ->
     Py.os_path_join files_dir (Inquiry.local_filename r)
     <> Py.os_path_join output_dir "download_failed.txt") ->
  let with_url := filter (fun r => Inquiry.has_url r = true) records in
  let gaps := filter (fun r => Reconcile.artifact_valid files_dir fs r = false) with_url in
  let v := Inquiry.verify_and_retry get page_url files_dir output_dir
             (answer :: later) records fs st in
  last (Inquiry.reports v) = Some (length records, length with_url, O)
  /\ (length (Inquiry.reports v) <= 2)%nat
  /\ Inquiry.files_after v !! Py.os_path_join output_dir "download_failed.txt" = None
  /\ (forall r, r ∈ with_url ->
        Reconcile.artifact_valid files_dir (Inquiry.files_after v) r = true)
  /\ (length (Inquiry.requested v) <= 2 * length gaps)%nat
  /\ Inquiry.returned v = true.
Proof.
  intros Hyes Hserved Hlog with_url gaps v.
  set (fail_log := Py.os_path_join output_dir "download_failed.txt") in *.
  assert (Hclean : forall answers (fs0 : gmap string string) st0,
    (forall r, r ∈ with_url -> Reconcile.artifact_valid files_dir fs0 r = true) ->
    let w := Inquiry.verify_and_retry get page_url files_dir output_dir
               answers records fs0 st0 in
    Inquiry.reports w = [(length records, length with_url, O)]
    /\ Inquiry.files_after w !! fail_log = None
    /\ (forall r, r ∈ with_url ->
          Reconcile.artifact_valid files_dir (Inquiry.files_after w) r = true)
    /\ Inquiry.requested w = [] /\ Inquiry.returned w = true).
  { intros answers fs0 st0 Hall w.
    assert (Hgaps0 : filter (fun r => Reconcile.artifact_valid files_dir fs0 r = false)
                       with_url = []).
    { apply filter_none. intros r Hr. rewrite (Hall r Hr). discriminate. }
    assert (Hvalid0 : length (filter (fun r => Reconcile.artifact_valid files_dir fs0 r = true)
                                with_url) = length with_url).
    { pose proof (filter_split_length (Reconcile.artifact_valid files_dir fs0) with_url)
        as Hsum. rewrite Hgaps0 in Hsum. simpl in Hsum. lia. }
    assert (Hw : w = {| Inquiry.reports := [(length records, length with_url, O)];
                        Inquiry.asked := [];
                        Inquiry.returned := true;
                        Inquiry.files_after :=
                          if Py.exists_ fs0 fail_log then delete fail_log fs0 else fs0;
                        Inquiry.net_after := st0; Inquiry.requested := [] |}).
    { subst w. destruct answers as [|a answers]; cbn [Inquiry.verify_and_retry];
        rewrite classify_spec; cbn [app Nat.add]; fold with_url;
        rewrite Hgaps0, Hvalid0; reflexivity. }
    rewrite Hw. cbn [Inquiry.reports Inquiry.files_after Inquiry.requested
                      Inquiry.returned].
    split; [reflexivity|]. split; [|split; [|split; reflexivity]].
    - unfold Py.exists_. destruct (fs0 !! fail_log) eqn:Hl;
        [apply lookup_delete_eq|exact Hl].
    - intros r Hr. rewrite <- (Hall r Hr).
      assert (Hne : Py.os_path_join files_dir (Inquiry.local_filename r) <> fail_log).
      { apply Hlog. apply list_elem_of_filter in Hr as [_ Hr]. exact Hr. }
      unfold Reconcile.artifact_valid.
      fold (Artifact.valid_above 1000
              (if Py.exists_ fs0 fail_log then delete fail_log fs0 else fs0)
              (Py.os_path_join files_dir (Inquiry.local_filename r))).
      fold (Artifact.valid_above 1000 fs0
              (Py.os_path_join files_dir (Inquiry.local_filename r))).
      apply valid_above_frame.
      destruct (Py.exists_ fs0 fail_log); [|reflexivity].
      apply lookup_delete_ne. congruence. }
  destruct gaps as [|g gaps'] eqn:Hg.
  - assert (Hall : forall r, r ∈ with_url ->
               Reconcile.artifact_valid files_dir fs r = true).
    { intros r Hr.
      destruct (Reconcile.artifact_valid files_dir fs r) eqn:Hv; [reflexivity|].
      assert (Hin : r ∈ gaps) by (apply list_elem_of_filter; auto).
      subst gaps. rewrite Hg in Hin. inversion Hin. }
    destruct (Hclean (answer :: later) fs st Hall) as (Hrep & Hfl & Hval & Hreq & Hret).
    fold v in Hrep, Hfl, Hval, Hreq, Hret.
    rewrite Hrep, Hreq. simpl. repeat split; auto; lia.
  - subst v. cbn [Inquiry.verify_and_retry].
    rewrite classify_spec. cbn [app Nat.add]. fold with_url. fold gaps.
    rewrite Hg. fold fail_log. rewrite Hyes.
    set (fs1 := <[fail_log := Inquiry.failure_lines (g :: gaps')]> fs).
    set (tasks := map (fun r => (Inquiry.url r, Inquiry.local_filename r)) (g :: gaps')).
    assert (Hgin : forall r, r ∈ g :: gaps' ->
              r ∈ with_url /\ Reconcile.artifact_valid files_dir fs r = false).
    { intros r Hr. rewrite <- Hg in Hr. subst gaps.
      apply list_elem_of_filter in Hr as [Hv Hr]. auto. }
    assert (Htasks : forall u fn, (u, fn) ∈ tasks -> Retry.serves get u).
    { intros u fn Hin. apply list_elem_of_fmap in Hin as (r & [= -> ->] & Hr).
      destruct (Hgin r Hr) as [Hr' _].
      apply list_elem_of_filter in Hr' as [Hu Hr']. apply Hserved; assumption. }
    pose proof (retry_batch_served get page_url files_dir tasks O O fs1 st Htasks)
      as Hbatch.
    destruct (Inquiry.retry_batch get page_url files_dir tasks O O fs1 st)
      as [[[[s f] fs2] st2] log].
    destruct Hbatch as (-> & -> & Hall & Hmono & _ & Hloglen).
    assert (Hpos : (0 <? 0 + length tasks)%nat = true).
    { apply Nat.ltb_lt. subst tasks. simpl. lia. }
    rewrite Hpos.
    assert (Hall2 : forall r, r ∈ with_url ->
               Reconcile.artifact_valid files_dir fs2 r = true).
    { intros r Hr.
      destruct (Reconcile.artifact_valid files_dir fs r) eqn:Hv.
      - apply Hmono.
        rewrite (valid_above_frame 1000 fs fs1); [exact Hv|].
        subst fs1. apply lookup_insert_ne.
        intros Heq. apply (Hlog r); [|symmetry; exact Heq].
        apply list_elem_of_filter in Hr as [_ Hr]. exact Hr.
      - apply (Hall (Inquiry.url r) (Inquiry.local_filename r)).
        subst tasks. apply list_elem_of_fmap. exists r. split; [reflexivity|].
        rewrite <- Hg. subst gaps. apply list_elem_of_filter. auto. }
    destruct (Hclean later fs2 st2 Hall2) as (Hrep & Hfl & Hval & Hreq & Hret).
    cbn [Inquiry.reports Inquiry.files_after Inquiry.requested Inquiry.returned].
    rewrite Hrep, Hreq, app_nil_r.
    split; [reflexivity|]. split; [simpl; lia|]. split; [exact Hfl|].
    split; [exact Hval|]. split; [|exact Hret].
    subst tasks. rewrite length_map in Hloglen. exact Hloglen.
Qed.

Lemma verify_retry_reaches_clean_state_witness :
  let with_url := filter (fun r => Inquiry.has_url r = true) Retry.records in
  let gaps := filter (fun r => Reconcile.artifact_valid "out/files" Samples.disk r = false)
                with_url in
  let v := Inquiry.verify_and_retry Retry.steady "https://www.sse.com.cn/"
             "out/files" "out" ["Y"] Retry.records Samples.disk tt in
  last (Inquiry.reports v) = Some (length Retry.records, length with_url, O)
  /\ (length (Inquiry.reports v) <= 2)%nat
  /\ Inquiry.files_after v !! Py.os_path_join "out" "download_failed.txt" = None
  /\ (forall r, r ∈ with_url ->
        Reconcile.artifact_valid "out/files" (Inquiry.files_after v) r = true)
  /\ (length (Inquiry.requested v) <= 2 * length gaps)%nat
  /\ Inquiry.returned v = true.
Proof.
  apply (verify_retry_reaches_clean_state unit Retry.steady
           "https://www.sse.com.cn/" "out/files" "out" "Y" [] Retry.records
           Samples.disk tt).
  - reflexivity.
  - intros r _ _ st. simpl. split; [reflexivity|]. vm_compute. reflexivity.
  - intros r Hr Heq. unfold Retry.records, Samples.inquiry_records in Hr.
    simpl in Hr.
    repeat (apply elem_of_cons in Hr as [->|Hr];
            [vm_compute in Heq; discriminate Heq|]).
    inversion Hr.
Defined.

(** ** The drain of [SSESearchCrawler] when the service answers *)

Section DrainFacts.

Context {Item Rec : Type}.
Variable net : nat -> Z -> SSESearch.page_reply Item.
Variable _parse_item : Item -> option Rec.
Variable T : Z.

Hypothesis answers : forall i page, net i page <> SSESearch.PageRaised.
Hypothesis well_formed : forall i page handled,
  net i page <> SSESearch.PageChokes handled.
Hypothesis pages : forall i page data,
  net i page = SSESearch.PageBody (Some data) -> SSESearch.totalPage data <= T.

Lemma sse_search_loop_returns fuel : forall page all_results i,
  Z.max 1 (T - page) <= Z.of_nat fuel ->
  exists results j,
    SSESearch.search_loop net _parse_item fuel page all_results i = (Some results, j)
    /\ (i < j)%nat /\ Z.of_nat j <= Z.of_nat i + Z.max 1 (T - page).
Proof.
  induction fuel as [|fuel IH]; intros page all_results i Hfuel; [lia|].
  cbn [SSESearch.search_loop].
  pose proof (answers i page) as Hans. pose proof (pages i page) as Hpages.
  pose proof (well_formed i page) as Hwf.
  destruct (net i page) as [|[data|]|handled];
    [contradiction| | |exfalso; apply (Hwf handled); reflexivity].
  - specialize (Hpages data eq_refl).
    destruct (negb (String.eqb (SSESearch.code data) "0"));
      [exists all_results, (S i); split; [reflexivity|lia]|].
    destruct (SSESearch.knowledgeList data) as [|k k_list];
      [exists all_results, (S i); split; [reflexivity|lia]|].
    destruct (SSESearch.totalPage data - 1 <=? page) eqn:Hlast.
    + eexists _, (S i). split; [reflexivity|lia].
    + apply Z.leb_gt in Hlast.
      destruct (IH (page + 1) (all_results ++ omap _parse_item (k :: k_list)) (S i)
                  ltac:(lia)) as (results & j & Hrun & Hij & Hj).
      exists results, j. split; [exact Hrun|]. lia.
  - exists all_results, (S i). split; [reflexivity|lia].
Qed.

End DrainFacts.

(** A body whose handling raises is requested again without end. *)
Lemma sse_search_loop_chokes_forever {Item Rec : Type}
    (net : nat -> Z -> SSESearch.page_reply Item) (parse : Item -> option Rec)
    (handled : list Item) fuel : forall page acc i,
  (forall j, net j page = SSESearch.PageChokes handled) ->
  SSESearch.search_loop net parse fuel page acc i = (None, (i + fuel)%nat).
Proof.
  induction fuel as [|fuel IH]; intros page acc i Hnet.
  - simpl. f_equal. lia.
  - cbn [SSESearch.search_loop]. rewrite Hnet, IH by exact Hnet. f_equal. lia.
Qed.



(** ** The browser batch as a whole *)

Section BrowserBatchFacts.

Context {St : Type}.
Variable request_get : string -> St -> (string + string) * St.
Variable goto : string -> St -> St.
Variable render : SSESearch.message -> string.

Lemma playwright_download_frame url path (fs : gmap string string) st :
  match SSESearch._playwright_download_file request_get goto url path fs st with
  | (_, fs', _, ev) =>
    (length ev <= 3)%nat
    /\ (forall q, q <> path -> fs' !! q = fs !! q)
    /\ (forall q, Py.exists_ fs q = true -> Py.exists_ fs' q = true)
  end.
Proof.
  assert (Hcommit : forall body,
    match SSESearch.commit body path fs with
    | (_, fs') =>
      (forall q, q <> path -> fs' !! q = fs !! q)
      /\ (forall q, Py.exists_ fs q = true -> Py.exists_ fs' q = true)
    end).
  { intros body. unfold SSESearch.commit.
    destruct (SSESearch.is_artifact body); [|split; auto].
    split.
    - intros q Hq. apply lookup_insert_ne. congruence.
    - intros q Hq. unfold Py.exists_ in *.
      destruct (decide (path = q)) as [->|Hne].
      + rewrite lookup_insert_eq. reflexivity.
      + rewrite lookup_insert_ne by exact Hne. exact Hq. }
  unfold SSESearch._playwright_download_file, SSESearch._solve_waf.
  destruct (request_get url st) as [[e|body] st1].
  - simpl. repeat split; auto; lia.
  - destruct (SSESearch.is_waf body).
    + destruct (request_get url (goto url st1)) as [[e|body2] st3].
      * simpl. repeat split; auto; lia.
      * destruct (SSESearch.is_pdf body2).
        -- specialize (Hcommit body2).
           destruct (SSESearch.commit body2 path fs) as [res fs1].
           destruct Hcommit as [Hf He]. simpl. repeat split; auto; lia.
        -- simpl. repeat split; auto; lia.
    + specialize (Hcommit body).
      destruct (SSESearch.commit body path fs) as [res fs1].
      destruct Hcommit as [Hf He]. simpl. repeat split; auto; lia.
Qed.

Lemma download_tasks_frame tasks : forall failed_list (fs : gmap string string) st,
  match SearchDownload.download_tasks request_get goto render tasks failed_list
          fs st with
  | (_, fs', _, ev) =>
    (length ev <= 3 * length tasks)%nat
    /\ (forall q, (forall u p n, (u, p, n) ∈ tasks -> q <> p) -> fs' !! q = fs !! q)
    /\ (forall q, Py.exists_ fs q = true -> Py.exists_ fs' q = true)
  end.
Proof.
  induction tasks as [|[[u p] n] tasks IH]; intros failed_list fs st.
  - simpl. repeat split; auto.
  - cbn [SearchDownload.download_tasks].
    pose proof (playwright_download_frame u p fs st) as Hone.
    destruct (SSESearch._playwright_download_file request_get goto u p fs st)
      as [[[[ok msg] fs1] st1] ev1].
    destruct Hone as (Hev1 & Hframe1 & Hkeep1).
    match goal with
    | |- context [SearchDownload.download_tasks _ _ _ tasks ?fl fs1 st1] =>
      specialize (IH fl fs1 st1);
      destruct (SearchDownload.download_tasks request_get goto render tasks fl
                  fs1 st1) as [[[failed fs2] st2] ev2]
    end.
    destruct IH as (Hev2 & Hframe2 & Hkeep2).
    split; [rewrite length_app; simpl length; lia|]. split.
    + intros q Hq. rewrite Hframe2.
      * apply Hframe1. apply (Hq u p n). left.
      * intros u' p' n' Hin. apply (Hq u' p' n'). right. exact Hin.
    + intros q Hq. apply Hkeep2, Hkeep1. exact Hq.
Qed.

End BrowserBatchFacts.

(** X22.  [sse_search_download] opens the browser only when something is
    queued: with no task there is no browser action and the disk is
    unchanged.  Otherwise the first action is the warm-up navigation and
    each task adds at most three actions (request, challenge navigation,
    request).  In every case no file is removed (an earlier failure log
    stays when nothing fails), and only the queued target paths and the
    failure log can change. *)
Theorem search_download_opens_browser_only_for_tasks
  (St : Type) (request_get : string -> St -> (string + string) * St)
  (goto : string -> St -> St) (render : SSESearch.message -> string)
  (results : list SearchDownload.record) (files_dir data_dir : string)
  (fs : gmap string string) (st : St) :
  let tasks := SearchDownload.select_tasks results files_dir fs [] in
  match SearchDownload.sse_search_download request_get goto render results
          files_dir data_dir fs st with
  | (fs', _, ev) =>
    match tasks with
    | [] => ev = [] /\ fs' = fs
    | _ :: _ => head ev = Some (SSESearch.Goto SearchDownload.warm_up)
    end
    /\ (length ev <= 1 + 3 * length tasks)%nat
    /\ (forall q, Py.exists_ fs q = true -> Py.exists_ fs' q = true)
    /\ (forall q, q <> Py.os_path_join data_dir "download_failed.txt" ->
          (forall u p n, (u, p, n) ∈ tasks -> q <> p) -> fs' !! q = fs !! q)
  end.
Proof.
  intros tasks. unfold SearchDownload.sse_search_download. fold tasks.
  destruct tasks as [|t tasks'] eqn:Htasks.
  - simpl. repeat split; auto.
  - rewrite <- Htasks.
    pose proof (download_tasks_frame request_get goto render tasks [] fs
                  (goto SearchDownload.warm_up st)) as Hbatch.
    destruct (SearchDownload.download_tasks request_get goto render tasks [] fs
                (goto SearchDownload.warm_up st)) as [[[failed fs1] st1] ev].
    destruct Hbatch as (Hev & Hframe & Hkeep).
    destruct failed as [|line failed].
    + split; [reflexivity|]. split; [simpl; lia|]. split; [exact Hkeep|].
      intros q _ Hq. apply Hframe. exact Hq.
    + split; [reflexivity|]. split; [simpl; lia|]. split.
      * intros q Hq. unfold Py.exists_ in *.
        destruct (decide (Py.os_path_join data_dir "download_failed.txt" = q))
          as [->|Hne].
        -- rewrite lookup_insert_eq. reflexivity.
        -- rewrite lookup_insert_ne by exact Hne. apply Hkeep. exact Hq.
      * intros q Hlog Hq. rewrite lookup_insert_ne by congruence.
        apply Hframe. exact Hq.
Qed.
